(** * Course-schedule optimiser: the MILP model builders and result decoders

    A shallow embedding of the two model builders of the repository,
    [services/optimizer.py] (class [OptimizerService]) and
    [backend/optimizerSCIP.py] (function [resolver_grade]), of the
    [/optimize] handler of [backend/main.py], and of the two category
    classifiers ([services/data_loader.py], [models/disciplina.py]); then of
    the rest of the data loader ([_filtrar_disciplinas_concluidas],
    [_processar_ofertas], [carregar_dados]; the two JSON files are inputs),
    of [validate_semestre] ([utils/validators.py]), of the properties of
    [GradeResultado] ([models/grade.py]) and of [Disciplina.from_dict] and
    [to_dict] ([models/disciplina.py]).

    Conventions of the embedding:
    - a Python [dict] is an association list in insertion order; a [set]
      is a list used through membership only;
    - the external MILP solver (OR-Tools [pywraplp]) is not embedded: a
      solver run is a [SolveResult] (status, value of every variable,
      objective value) supplied from outside, and a solution of status
      OPTIMAL or FEASIBLE is one that satisfies the bounds and the
      constraints of the model ([feasible]);
    - [solver.Add] appends to the constraint list of the solver, so every
      constraint-adding function returns the list of constraints it adds, in
      the order of its [Add] calls; [logger.warning] is modelled the same way
      where a property depends on it;
    - a solver variable is identified by the key under which the builder
      stores it ([alocacao[(d, s, t)]], [semestre_da_disciplina[d]], ...);
    - solution values are integers: the variables are all boolean or integer
      variables, and the floating-point slack of the solver is not modelled. *)

From Stdlib Require Import List ZArith QArith String Ascii Bool Lia.
Import ListNotations.

Set Warnings "-register-all".
Local Open Scope Z_scope.

(** ** A small Python prelude *)

Module Py.

(** [range(a, b)] *)
Definition range (a b : Z) : list Z :=
  map (fun i => a + Z.of_nat i) (seq 0 (Z.to_nat (b - a))).

Section Dict.
Context {K V : Type}.
Variable eqb : K -> K -> bool.

(** [k in xs] for a list or a set *)
Definition mem (k : K) (xs : list K) : bool := existsb (eqb k) xs.

(** [d.get(k)] *)
Fixpoint get (d : list (K * V)) (k : K) : option V :=
  match d with
  | [] => None
  | (k', v) :: r => if eqb k k' then Some v else get r k
  end.

(** [k in d] for a dict *)
Definition has (d : list (K * V)) (k : K) : bool :=
  match get d k with Some _ => true | None => false end.

(** [d.get(k, dflt)] *)
Definition get_default (d : list (K * V)) (k : K) (dflt : V) : V :=
  match get d k with Some v => v | None => dflt end.

(** [d[k] = v]: an existing key keeps its position *)
Fixpoint set (d : list (K * V)) (k : K) (v : V) : list (K * V) :=
  match d with
  | [] => [(k, v)]
  | (k', v') :: r => if eqb k k' then (k', v) :: r else (k', v') :: set r k v
  end.

(** [{k: f(k) for k in ks}] *)
Definition comprehension (ks : list K) (f : K -> V) : list (K * V) :=
  fold_left (fun d k => set d k (f k)) ks [].

(** [d[k] = upd(d[k])], a [KeyError] ([None]) when [k] is absent *)
Fixpoint update (d : list (K * V)) (k : K) (upd : V -> V) : option (list (K * V)) :=
  match d with
  | [] => None
  | (k', v') :: r =>
      if eqb k k' then Some ((k', upd v') :: r)
      else match update r k upd with
           | Some r' => Some ((k', v') :: r')
           | None => None
           end
  end.

(** the keys a sequence of insertions leaves in a dict: first occurrences,
    in order *)
Definition insert_key (ks : list K) (k : K) : list K :=
  if mem k ks then ks else ks ++ [k].

Definition keys_of (ks : list K) : list K := fold_left insert_key ks [].
End Dict.

(** [sub in s] for strings *)
Fixpoint str_in (sub s : string) : bool :=
  if String.prefix sub s then true
  else match s with
       | EmptyString => false
       | String _ r => str_in sub r
       end.

(** [s.startswith(p)] *)
Definition startswith (s p : string) : bool := String.prefix p s.

(** [not xs] for a list *)
Definition is_empty {A : Type} (xs : list A) : bool :=
  match xs with [] => true | _ => false end.

End Py.

(** ** The [pywraplp] interface used by the builders *)

(** Key of the [alocacao] dict: (course id, term, section id). *)
Definition Key : Type := (string * Z * string)%type.

Definition key_d (k : Key) : string := fst (fst k).
Definition key_s (k : Key) : Z := snd (fst k).
Definition key_t (k : Key) : string := snd k.

Definition key_eqb (a b : Key) : bool :=
  String.eqb (key_d a) (key_d b) && Z.eqb (key_s a) (key_s b)
  && String.eqb (key_t a) (key_t b).

(** Solver variables, named by the dict key (or the Python name) they are
    stored under. *)
Inductive Var : Type :=
| alocacao_var (k : Key)          (* [alocacao[(d, s, t)]], a BoolVar *)
| semestre_var (d : string)       (* [semestre_da_disciplina[d]] *)
| cursada_zero (d : string)       (* [IntVar(0, 0, 'cursada_d')] *)
| creditos_zero (s : Z)           (* [IntVar(0, 0, 'creditos_s')] *)
| semestre_maximo.

(** Linear expressions, as the Python source writes them; constants are
    Python numbers (ints, and the float [n / 2.0]). *)
Inductive LinearExpr : Type :=
| EVar (x : Var)
| ECst (c : Q)
| ESum (es : list LinearExpr)          (* [solver.Sum(es)] *)
| EMul (c : Q) (e : LinearExpr)        (* [c * e] or [e * c] *)
| EAdd (a b : LinearExpr)
| ESub (a b : LinearExpr).

Inductive Rel : Type := Le | Ge | Eq.

Record Constraint : Type := mkConstraint {
  lhs : LinearExpr;
  rel : Rel;
  rhs : LinearExpr
}.

Notation "a ==' b" := (mkConstraint a Eq b) (at level 70, no associativity).
Notation "a <=' b" := (mkConstraint a Le b) (at level 70, no associativity).
Notation "a >=' b" := (mkConstraint a Ge b) (at level 70, no associativity).

(** An integer constant. *)
Definition EInt (n : Z) : LinearExpr := ECst (inject_Z n).

(** A declared variable with its bounds: [BoolVar] is [0..1]. *)
Record VarDecl : Type := mkVarDecl {
  decl_var : Var;
  decl_lb : Z;
  decl_ub : Z
}.

Definition BoolVar (x : Var) : VarDecl := mkVarDecl x 0 1.
Definition IntVar (lb ub : Z) (x : Var) : VarDecl := mkVarDecl x lb ub.

Record Model : Type := mkModel {
  variables : list VarDecl;
  constraints : list Constraint;
  objective : Var                   (* [solver.Minimize(objective)] *)
}.

(** [pywraplp.Solver] result status. *)
Inductive ResultStatus : Type :=
| OPTIMAL | FEASIBLE | INFEASIBLE | UNBOUNDED | ABNORMAL | MODEL_INVALID | NOT_SOLVED.

Definition status_eqb (a b : ResultStatus) : bool :=
  match a, b with
  | OPTIMAL, OPTIMAL | FEASIBLE, FEASIBLE | INFEASIBLE, INFEASIBLE
  | UNBOUNDED, UNBOUNDED | ABNORMAL, ABNORMAL
  | MODEL_INVALID, MODEL_INVALID | NOT_SOLVED, NOT_SOLVED => true
  | _, _ => false
  end.

(** What a call of [solver.Solve()] leaves behind. *)
Record SolveResult : Type := mkSolveResult {
  solve_status : ResultStatus;
  solution_value : Var -> Z;        (* [var.solution_value()] *)
  objective_value : Q               (* [solver.Objective().Value()] *)
}.

(** *** Semantics of a model *)

Fixpoint eval (v : Var -> Z) (e : LinearExpr) : Q :=
  match e with
  | EVar x => inject_Z (v x)
  | ECst c => c
  | ESum es => fold_right (fun e acc => eval v e + acc)%Q 0%Q es
  | EMul c e => (c * eval v e)%Q
  | EAdd a b => (eval v a + eval v b)%Q
  | ESub a b => (eval v a - eval v b)%Q
  end.

Definition holds (v : Var -> Z) (c : Constraint) : Prop :=
  match rel c with
  | Le => (eval v (lhs c) <= eval v (rhs c))%Q
  | Ge => (eval v (rhs c) <= eval v (lhs c))%Q
  | Eq => (eval v (lhs c) == eval v (rhs c))%Q
  end.

Definition in_bounds (v : Var -> Z) (d : VarDecl) : Prop :=
  decl_lb d <= v (decl_var d) <= decl_ub d.

(** A solution of the model. *)
Definition feasible (v : Var -> Z) (m : Model) : Prop :=
  Forall (in_bounds v) (variables m) /\ Forall (holds v) (constraints m).

Definition holdsb (v : Var -> Z) (c : Constraint) : bool :=
  match rel c with
  | Le => Qle_bool (eval v (lhs c)) (eval v (rhs c))
  | Ge => Qle_bool (eval v (rhs c)) (eval v (lhs c))
  | Eq => Qeq_bool (eval v (lhs c)) (eval v (rhs c))
  end.

Definition in_boundsb (v : Var -> Z) (d : VarDecl) : bool :=
  (decl_lb d <=? v (decl_var d)) && (v (decl_var d) <=? decl_ub d).

Definition feasibleb (v : Var -> Z) (m : Model) : bool :=
  forallb (in_boundsb v) (variables m) && forallb (holdsb v) (constraints m).

(** [var.solution_value() > 0.5] *)
Definition chosen (v : Var -> Z) (x : Var) : bool :=
  negb (Qle_bool (inject_Z (v x)) (1 # 2)).

(** ** The data model ([models/grade.py], the course records) *)

(** A course record (the dict of one course). [tipo] may be absent. *)
Record Disciplina : Type := mkDisciplina {
  nome : string;
  creditos : Z;
  tipo : option string;
  prerequisitos : list string
}.

Record DadosDisciplinas : Type := mkDados {
  disciplinas : list (string * Disciplina);
  turmas_por_disciplina : list (string * list string);
  horarios_por_turma : list (string * list string);
  periodos_validos_por_disciplina : list (string * list Z);
  obrigatorias_ids : list string;
  restritas_ids : list string;
  condicionadas_ids : list string;
  livres_ids : list string
}.

Definition optativas_ids (dados : DadosDisciplinas) : list string :=
  restritas_ids dados ++ condicionadas_ids dados ++ livres_ids dados.

(** The three elective minimums ([creditos_minimos]). *)
Record CreditosMinimos : Type := mkMinimos {
  restrita : Z;
  condicionada : Z;
  livre : Z
}.

(** Variables of [alocacao] selected by a predicate on the key, in dict
    order: [[var for key, var in alocacao.items() if p(key)]]. *)
Definition vars_where (alocacao : list Key) (p : Key -> bool) : list LinearExpr :=
  map (fun k => EVar (alocacao_var k)) (filter p alocacao).

Definition do_curso (d_id : string) (k : Key) : bool := String.eqb (key_d k) d_id.

Definition do_curso_no_semestre (d_id : string) (s : Z) (k : Key) : bool :=
  String.eqb (key_d k) d_id && Z.eqb (key_s k) s.

(** The [horarios_do_semestre] dict of the conflict rule: time slot ->
    variables of the sections that occupy it in term [s]. *)
Definition horarios_do_semestre (horarios : list (string * list string))
    (alocacao : list Key) (s : Z) : list (string * list LinearExpr) :=
  fold_left
    (fun acc k =>
       if Z.eqb (key_s k) s then
         fold_left
           (fun acc h =>
              Py.set String.eqb acc h
                (Py.get_default String.eqb acc h [] ++ [EVar (alocacao_var k)]))
           (Py.get_default String.eqb horarios (key_t k) []) acc
       else acc)
    alocacao [].

(** Python exceptions that the modelled code can raise. *)
Inductive PyError : Type := RuntimeError | KeyError | ValueError | TypeError.

Inductive Exc (A : Type) : Type :=
| Return (a : A)
| Raise (e : PyError).
Arguments Return {A} a.
Arguments Raise {A} e.

Definition bind {A B : Type} (m : Exc A) (f : A -> Exc B) : Exc B :=
  match m with
  | Return a => f a
  | Raise e => Raise e
  end.

Notation "x <- m ;; k" := (bind m (fun x => k))
  (at level 61, m at next level, right associativity).

Definition of_option {A : Type} (e : PyError) (o : option A) : Exc A :=
  match o with Some a => Return a | None => Raise e end.

(** ** [services/optimizer.py] *)

Module Services.

(** Defaults of [config.py], used by [OptimizerConfig.__post_init__]. *)
Definition NUM_SEMESTRES_TOTAL : Z := 14.
Definition SOLVER_TIMEOUT_MS : Z := 120000.

Record OptimizerConfig : Type := mkConfig {
  dados : DadosDisciplinas;
  todas_disciplinas_info : list (string * Disciplina);
  creditos_minimos : CreditosMinimos;
  creditos_maximos_por_semestre : Z;
  disciplinas_concluidas_ids : list string;
  semestre_inicio : Z;
  total_creditos_curso : Z;
  num_semestres_total_arg : option Z;
  solver_timeout_ms_arg : option Z
}.

(** The two fields after [__post_init__]. *)
Definition num_semestres_total (cfg : OptimizerConfig) : Z :=
  match num_semestres_total_arg cfg with
  | Some n => n
  | None => NUM_SEMESTRES_TOTAL
  end.

Definition solver_timeout_ms (cfg : OptimizerConfig) : Z :=
  match solver_timeout_ms_arg cfg with
  | Some n => n
  | None => SOLVER_TIMEOUT_MS
  end.

(** The result record of [models/grade.py]. *)
Record DisciplinaAlocada : Type := mkAlocada {
  al_nome : string;
  al_turma : string;
  al_horarios : list string;
  al_creditos : Z
}.

Record GradeResultado : Type := mkResultado {
  grade : list (Z * list DisciplinaAlocada);
  creditos_por_semestre : list (Z * Z);
  status : ResultStatus;
  objetivo_value : option Q;
  tempo_execucao : Q
}.

Record ACursar : Type := mkACursar {
  obrigatorias : list string;
  optativas : list string;
  todas : list string
}.

Section Builder.

(** [str.lower], a Python built-in (Unicode case mapping). *)
Variable lower : string -> string.

Variable cfg : OptimizerConfig.

(** [range(semestre_inicio, num_semestres_total + 1)] *)
Definition semestres : list Z :=
  Py.range (semestre_inicio cfg) (num_semestres_total cfg + 1).

Definition concluida (d_id : string) : bool :=
  Py.mem String.eqb d_id (disciplinas_concluidas_ids cfg).

Definition _preparar_disciplinas_a_cursar : ACursar :=
  let obrigatorias_a_cursar :=
    filter (fun d_id => negb (concluida d_id)) (obrigatorias_ids (dados cfg)) in
  let optativas_a_cursar :=
    filter (fun d_id => negb (concluida d_id)) (optativas_ids (dados cfg)) in
  mkACursar obrigatorias_a_cursar optativas_a_cursar
            (obrigatorias_a_cursar ++ optativas_a_cursar).

Definition _calcular_creditos_minimos_restantes : CreditosMinimos :=
  let creditos_feitos :=
    fold_left
      (fun (feitos : CreditosMinimos) d_id =>
         match Py.get String.eqb (todas_disciplinas_info cfg) d_id with
         | Some disciplina =>
             let credito_disciplina := creditos disciplina in
             let tipo := lower (match tipo disciplina with Some t => t | None => ""%string end) in
             if Py.str_in "restrita" tipo then
               mkMinimos (restrita feitos + credito_disciplina) (condicionada feitos) (livre feitos)
             else if Py.str_in "condicionada" tipo then
               mkMinimos (restrita feitos) (condicionada feitos + credito_disciplina) (livre feitos)
             else if Py.str_in "livre" tipo || Py.startswith d_id "ARTIFICIAL" then
               mkMinimos (restrita feitos) (condicionada feitos) (livre feitos + credito_disciplina)
             else feitos
         | None => feitos
         end)
      (disciplinas_concluidas_ids cfg) (mkMinimos 0 0 0) in
  mkMinimos
    (Z.max 0 (restrita (creditos_minimos cfg) - restrita creditos_feitos))
    (Z.max 0 (condicionada (creditos_minimos cfg) - condicionada creditos_feitos))
    (Z.max 0 (livre (creditos_minimos cfg) - livre creditos_feitos)).

(** *** [_criar_variaveis_decisao] *)

(** The keys inserted into [alocacao], in the order of the three loops. *)
Definition alocacao_insercoes (disciplinas_todas : list string) : list Key :=
  flat_map
    (fun d_id =>
       flat_map
         (fun t_id => map (fun s => (d_id, s, t_id)) semestres)
         (Py.get_default String.eqb (turmas_por_disciplina (dados cfg)) d_id []))
    disciplinas_todas.

Definition criar_alocacao (disciplinas_todas : list string) : list Key :=
  Py.keys_of key_eqb (alocacao_insercoes disciplinas_todas).

Definition dummy_value : Z := num_semestres_total cfg + 2.

(** The expression stored in [cursada_vars[d_id]]. *)
Definition cursada_de (alocacao : list Key) (d_id : string) : LinearExpr :=
  let vars_disciplina := vars_where alocacao (do_curso d_id) in
  if Py.is_empty vars_disciplina then EVar (cursada_zero d_id)
  else ESum vars_disciplina.

(** [[s * var for (d, s, t), var in alocacao.items() if d == d_id]] *)
Definition termos_semestre (alocacao : list Key) (d_id : string) : list LinearExpr :=
  map (fun k => EMul (inject_Z (key_s k)) (EVar (alocacao_var k)))
      (filter (do_curso d_id) alocacao).

(** The constraint one iteration of the second loop adds for [d_id]. *)
Definition ligacao (alocacao : list Key) (d_id : string) : Constraint :=
  let vars_disciplina := vars_where alocacao (do_curso d_id) in
  if Py.is_empty vars_disciplina then
    EVar (semestre_var d_id) ==' EInt dummy_value
  else
    EVar (semestre_var d_id) ==' 
      EAdd (ESum (termos_semestre alocacao d_id))
           (EMul (inject_Z dummy_value) (ESub (EInt 1) (ESum vars_disciplina))).

Record Variaveis : Type := mkVariaveis {
  alocacao : list Key;
  semestre_da_disciplina : list string;          (* keys of the dict *)
  cursada_vars : list (string * LinearExpr);
  declaradas : list VarDecl;
  ligacoes : list Constraint
}.

Definition _criar_variaveis_decisao (a_cursar : ACursar) : Variaveis :=
  let disciplinas_todas := todas a_cursar in
  let alocacao := criar_alocacao disciplinas_todas in
  let semestre_da_disciplina := Py.keys_of String.eqb disciplinas_todas in
  mkVariaveis
    alocacao
    semestre_da_disciplina
    (Py.comprehension String.eqb disciplinas_todas (cursada_de alocacao))
    (map (fun k => BoolVar (alocacao_var k)) alocacao
     ++ map (fun d_id => IntVar (semestre_inicio cfg) (num_semestres_total cfg + 1)
                                (semestre_var d_id))
            semestre_da_disciplina
     ++ flat_map
          (fun d_id =>
             if Py.is_empty (vars_where alocacao (do_curso d_id))
             then [IntVar 0 0 (cursada_zero d_id)] else [])
          disciplinas_todas)
    (map (ligacao alocacao) disciplinas_todas).

(** *** The constraint groups R1 to R6 *)

(** R1; the second component is the list of courses a warning is logged
    for. *)
Definition _adicionar_restricao_obrigatorias (obrigatorias : list string)
    (alocacao : list Key) : list Constraint * list string :=
  fold_left
    (fun (acc : list Constraint * list string) d_id =>
       let vars_obrigatoria := vars_where alocacao (do_curso d_id) in
       if Py.is_empty vars_obrigatoria then (fst acc, snd acc ++ [d_id])
       else (fst acc ++ [ESum vars_obrigatoria ==' EInt 1], snd acc))
    obrigatorias ([], []).

Definition _adicionar_restricao_optativas (optativas : list string)
    (alocacao : list Key) : list Constraint :=
  flat_map
    (fun d_id =>
       let vars_optativa := vars_where alocacao (do_curso d_id) in
       if Py.is_empty vars_optativa then []
       else [ESum vars_optativa <=' EInt 1])
    optativas.

(** One of the three blocks of R3, for the id list of one category. *)
Definition restricao_creditos_categoria (cursada_vars : list (string * LinearExpr))
    (ids : list string) (minimo : Z) : list Constraint :=
  if Py.is_empty ids then []
  else
    let termos :=
      flat_map
        (fun d_id =>
           match Py.get String.eqb (disciplinas (dados cfg)) d_id,
                 Py.get String.eqb cursada_vars d_id with
           | Some disc, Some cursada => [EMul (inject_Z (creditos disc)) cursada]
           | _, _ => []
           end)
        ids in
    if Py.is_empty termos then [] else [ESum termos >=' EInt minimo].

Definition _adicionar_restricao_creditos_minimos
    (cursada_vars : list (string * LinearExpr))
    (creditos_minimos_restantes : CreditosMinimos) : list Constraint :=
  restricao_creditos_categoria cursada_vars (restritas_ids (dados cfg))
    (restrita creditos_minimos_restantes)
  ++ restricao_creditos_categoria cursada_vars (condicionadas_ids (dados cfg))
       (condicionada creditos_minimos_restantes)
  ++ restricao_creditos_categoria cursada_vars (livres_ids (dados cfg))
       (livre creditos_minimos_restantes).

Definition m_prereq : Z := num_semestres_total cfg + 2.

Definition _adicionar_restricao_prerequisitos (disciplinas_todas : list string)
    (cursada_vars : list (string * LinearExpr)) : list Constraint :=
  flat_map
    (fun d_id =>
       match Py.get String.eqb (disciplinas (dados cfg)) d_id with
       | None => []
       | Some disc_info =>
           flat_map
             (fun prereq_id =>
                if concluida prereq_id then []
                else if Py.mem String.eqb prereq_id disciplinas_todas then
                  match Py.get String.eqb cursada_vars prereq_id,
                        Py.get String.eqb cursada_vars d_id with
                  | Some cursada_pre, Some cursada_d =>
                      [ cursada_pre >=' cursada_d;
                        ESub (EVar (semestre_var d_id)) (EVar (semestre_var prereq_id))
                        >=' ESub (EInt 1)
                                 (EMul (inject_Z m_prereq) (ESub (EInt 1) cursada_d)) ]
                  | _, _ => []
                  end
                else [])
             (prerequisitos disc_info)
       end)
    disciplinas_todas.

Definition _adicionar_restricao_conflitos_horario (alocacao : list Key)
    : list Constraint :=
  flat_map
    (fun s =>
       flat_map
         (fun (entry : string * list LinearExpr) =>
            let turmas_conflitantes := snd entry in
            if (1 <? Z.of_nat (List.length turmas_conflitantes))
            then [ESum turmas_conflitantes <=' EInt 1] else [])
         (horarios_do_semestre (horarios_por_turma (dados cfg)) alocacao s))
    semestres.

(** [termos_de_credito_s] of R6 for term [s]. *)
Definition termos_de_credito (alocacao : list Key) (s : Z) : list LinearExpr :=
  flat_map
    (fun (entry : string * Disciplina) =>
       let d_id := fst entry in
       let cursada_neste_semestre_vars :=
         vars_where alocacao (do_curso_no_semestre d_id s) in
       if Py.is_empty cursada_neste_semestre_vars then []
       else [EMul (inject_Z (creditos (snd entry))) (ESum cursada_neste_semestre_vars)])
    (disciplinas (dados cfg)).

Definition creditos_cursados_no_semestre (alocacao : list Key) (s : Z) : LinearExpr :=
  let termos_de_credito_s := termos_de_credito alocacao s in
  if Py.is_empty termos_de_credito_s then EVar (creditos_zero s)
  else ESum termos_de_credito_s.

(** R6: the constraints, and the zero variables it declares. *)
Definition _adicionar_restricao_limite_creditos (alocacao : list Key)
    : list Constraint * list VarDecl :=
  (map (fun s => creditos_cursados_no_semestre alocacao s
                 <=' EInt (creditos_maximos_por_semestre cfg))
       semestres,
   flat_map (fun s => if Py.is_empty (termos_de_credito alocacao s)
                      then [IntVar 0 0 (creditos_zero s)] else [])
            semestres).

Definition m_obj : Z := num_semestres_total cfg + 2.

(** [_definir_funcao_objetivo]: the constraints on [semestre_maximo]. *)
Definition _definir_funcao_objetivo (cursada_vars : list (string * LinearExpr))
    : list Constraint :=
  map (fun (entry : string * LinearExpr) =>
         EVar semestre_maximo
         >=' ESub (EVar (semestre_var (fst entry)))
                  (EMul (inject_Z m_obj) (ESub (EInt 1) (snd entry))))
      cursada_vars.

(** The model that [resolver] hands to the solver: the variables and
    constraints in the order of the calls. *)
Definition construir_modelo : Model :=
  let a_cursar := _preparar_disciplinas_a_cursar in
  let restantes := _calcular_creditos_minimos_restantes in
  let vs := _criar_variaveis_decisao a_cursar in
  let r6 := _adicionar_restricao_limite_creditos (alocacao vs) in
  mkModel
    (declaradas vs ++ snd r6
     ++ [IntVar (semestre_inicio cfg) (num_semestres_total cfg) semestre_maximo])
    (ligacoes vs
     ++ fst (_adicionar_restricao_obrigatorias (obrigatorias a_cursar) (alocacao vs))
     ++ _adicionar_restricao_optativas (optativas a_cursar) (alocacao vs)
     ++ _adicionar_restricao_creditos_minimos (cursada_vars vs) restantes
     ++ _adicionar_restricao_prerequisitos (todas a_cursar) (cursada_vars vs)
     ++ _adicionar_restricao_conflitos_horario (alocacao vs)
     ++ fst r6
     ++ _definir_funcao_objetivo (cursada_vars vs))
    semestre_maximo.

(** The [alocacao] dict that [resolver] gets from
    [_criar_variaveis_decisao]. *)
Definition alocacao_do_modelo : list Key :=
  alocacao (_criar_variaveis_decisao _preparar_disciplinas_a_cursar).

(** *** [_processar_resultados] *)

(** The loop over [alocacao.items()]: the state is [grade],
    [creditos_por_semestre] and the ids a warning was logged for. *)
Definition processar_alocacao (sol : SolveResult) (alocacao : list Key)
    (grade0 : list (Z * list DisciplinaAlocada)) (creditos0 : list (Z * Z))
    : Exc (list (Z * list DisciplinaAlocada) * list (Z * Z) * list string) :=
  fold_left
    (fun acc k =>
       st <- acc ;;
       let '(grade, creditos_por_semestre, avisos) := st in
       if chosen (solution_value sol) (alocacao_var k) then
         match Py.get String.eqb (disciplinas (dados cfg)) (key_d k) with
         | None => Return (grade, creditos_por_semestre, avisos ++ [key_d k])
         | Some disc =>
             let disciplina_alocada :=
               mkAlocada (nome disc) (key_t k)
                 (Py.get_default String.eqb (horarios_por_turma (dados cfg)) (key_t k) [])
                 (creditos disc) in
             grade' <- of_option KeyError
                         (Py.update Z.eqb grade (key_s k)
                            (fun g => g ++ [disciplina_alocada])) ;;
             creditos' <- of_option KeyError
                            (Py.update Z.eqb creditos_por_semestre (key_s k)
                               (fun c => c + creditos disc)) ;;
             Return (grade', creditos', avisos)
         end
       else Return st)
    alocacao (Return (grade0, creditos0, [])).

(** [tempo] stands for [time.time() - start_time]. *)
Definition _processar_resultados (sol : SolveResult) (alocacao : list Key)
    (tempo : Q) : Exc GradeResultado :=
  let status := solve_status sol in
  if status_eqb status OPTIMAL || status_eqb status FEASIBLE then
    let grade := Py.comprehension Z.eqb semestres (fun _ => @nil DisciplinaAlocada) in
    let creditos_por_semestre := Py.comprehension Z.eqb semestres (fun _ => 0) in
    st <- processar_alocacao sol alocacao grade creditos_por_semestre ;;
    let '(grade, creditos_por_semestre, _) := st in
    let grade_filtrada :=
      filter (fun sg : Z * list DisciplinaAlocada => negb (Py.is_empty (snd sg))) grade in
    Return (mkResultado grade_filtrada creditos_por_semestre status
              (Some (objective_value sol)) tempo)
  else
    Return (mkResultado [] [] status None tempo).

(** [OptimizerService(cfg).resolver()]: [scip] tells whether
    [CreateSolver('SCIP')] gave a solver, [solve] is the solver run. *)
Definition resolver (scip : bool) (solve : Model -> Z -> SolveResult) (tempo : Q)
    : Exc GradeResultado :=
  if negb scip then Raise RuntimeError
  else
    let sol := solve construir_modelo (solver_timeout_ms cfg) in
    _processar_resultados sol alocacao_do_modelo tempo.

End Builder.

End Services.

(** ** [backend/optimizerSCIP.py] and [backend/main.py] *)

Module Backend.

(** The dict appended to [grade[s]]. *)
Record DisciplinaObj : Type := mkObj {
  obj_id : string;
  obj_nome : string;
  obj_turma : string;
  obj_horarios : list string;
  obj_creditos : Z;
  obj_tipo : string
}.

(** [creditos_por_tipo], by its five fixed keys. *)
Record CreditosPorTipo : Type := mkPorTipo {
  t_obrigatoria : Z;
  t_restrita : Z;
  t_condicionada : Z;
  t_livre : Z;
  t_outros : Z
}.

(** The Python values that occur in the tuples [resolver_grade] returns. *)
Inductive PyValue : Type :=
| PyNone
| PyInt (n : Z)
| PyFloat (q : Q)
| PyGrade (g : list (Z * list DisciplinaObj))
| PyCreditos (c : list (Z * Z))
| PyPorTipo (c : CreditosPorTipo).

(** The integer value of a [pywraplp.Solver] status constant. *)
Definition status_code (st : ResultStatus) : Z :=
  match st with
  | OPTIMAL => 0
  | FEASIBLE => 1
  | INFEASIBLE => 2
  | UNBOUNDED => 3
  | ABNORMAL => 4
  | MODEL_INVALID => 5
  | NOT_SOLVED => 6
  end.

(** [key in tipo] chain of the credit report (case-sensitive). *)
Definition somar_tipo (tipo : string) (cred : Z) (c : CreditosPorTipo) : CreditosPorTipo :=
  if Py.str_in "Obrigatória" tipo then
    mkPorTipo (t_obrigatoria c + cred) (t_restrita c) (t_condicionada c) (t_livre c) (t_outros c)
  else if Py.str_in "Restrita" tipo then
    mkPorTipo (t_obrigatoria c) (t_restrita c + cred) (t_condicionada c) (t_livre c) (t_outros c)
  else if Py.str_in "Condicionada" tipo then
    mkPorTipo (t_obrigatoria c) (t_restrita c) (t_condicionada c + cred) (t_livre c) (t_outros c)
  else if Py.str_in "Livre" tipo then
    mkPorTipo (t_obrigatoria c) (t_restrita c) (t_condicionada c) (t_livre c + cred) (t_outros c)
  else
    mkPorTipo (t_obrigatoria c) (t_restrita c) (t_condicionada c) (t_livre c) (t_outros c + cred).

Section Builder.

Variable dados : DadosDisciplinas.
Variable creditos_minimos : CreditosMinimos.
Variable NUM_SEMESTRES : Z.
Variable CREDITOS_MAXIMOS_POR_SEMESTRE : Z.
Variable disciplinas_cursadas : list string.

(** [d_id in cursadas_set] *)
Definition cursada (d_id : string) : bool :=
  Py.mem String.eqb d_id disciplinas_cursadas.

(** [len(cursadas_set)] *)
Definition count_cursadas_past : Z :=
  Z.of_nat (List.length (Py.keys_of String.eqb disciplinas_cursadas)).

Definition ids_optativas : list string :=
  restritas_ids dados ++ condicionadas_ids dados ++ livres_ids dados.

(** [range(1, NUM_SEMESTRES + 1)] *)
Definition semestres : list Z := Py.range 1 (NUM_SEMESTRES + 1).

(** The courses of the catalog that are not in [cursadas_set], in dict
    order: the iterations that do not [continue]. *)
Definition a_cursar : list (string * Disciplina) :=
  filter (fun entry => negb (cursada (fst entry))) (disciplinas dados).

(** The parity test of the variable loop. *)
Definition oferta_no_semestre (d_id : string) (s : Z) : bool :=
  let periodos_validos :=
    Py.get_default String.eqb (periodos_validos_por_disciplina dados) d_id [1; 2] in
  let oferta_em_impar := Py.mem Z.eqb 1 periodos_validos in
  let oferta_em_par := Py.mem Z.eqb 2 periodos_validos in
  let is_semestre_impar := negb (Z.eqb (s mod 2) 0) in
  (is_semestre_impar && oferta_em_impar) || (negb is_semestre_impar && oferta_em_par).

Definition alocacao_insercoes : list Key :=
  flat_map
    (fun entry : string * Disciplina =>
       let d_id := fst entry in
       flat_map
         (fun t_id =>
            map (fun s => (d_id, s, t_id))
                (filter (oferta_no_semestre d_id) semestres))
         (Py.get_default String.eqb (turmas_por_disciplina dados) d_id []))
    a_cursar.

Definition alocacao : list Key := Py.keys_of key_eqb alocacao_insercoes.

(** [semestre_da_disciplina[d_id]] for a key [d_id] of [disciplinas]: [0]
    for a completed course, an [IntVar] otherwise. The dict has exactly the
    keys of [disciplinas]. *)
Definition semestre_da_disciplina (d_id : string) : LinearExpr :=
  if cursada d_id then EInt 0 else EVar (semestre_var d_id).

(** [cursada_vars[d_id]] for a key [d_id] of [disciplinas], once the loop of
    R2 has run: [1] for a completed course, the sum of its variables
    otherwise. The dict has exactly the keys of [disciplinas]. *)
Definition cursada_vars (d_id : string) : LinearExpr :=
  if cursada d_id then EInt 1
  else ESum (vars_where alocacao (do_curso d_id)).

(** The declared variables; the source declares the [IntVar] of a course
    right after its [BoolVar]s, the list groups them by kind. *)
Definition declaradas : list VarDecl :=
  map (fun k => BoolVar (alocacao_var k)) alocacao
  ++ map (fun entry : string * Disciplina =>
            IntVar 1 (NUM_SEMESTRES + 1) (semestre_var (fst entry)))
         a_cursar
  ++ [IntVar 1 NUM_SEMESTRES semestre_maximo].

(** R1.1 and R1.2 *)
Definition r1_obrigatorias : list Constraint :=
  flat_map
    (fun d_id =>
       if cursada d_id then []
       else [ESum (vars_where alocacao (do_curso d_id)) ==' EInt 1])
    (obrigatorias_ids dados).

Definition r1_optativas : list Constraint :=
  flat_map
    (fun d_id =>
       if cursada d_id then []
       else [ESum (vars_where alocacao (do_curso d_id)) <=' EInt 1])
    ids_optativas.

(** [[s * var for (d, s, t), var in alocacao.items() if d == d_id]] *)
Definition termos_semestre (d_id : string) : list LinearExpr :=
  map (fun k => EMul (inject_Z (key_s k)) (EVar (alocacao_var k)))
      (filter (do_curso d_id) alocacao).

(** R2 *)
Definition r2_ligacao : list Constraint :=
  map (fun entry : string * Disciplina =>
         let d_id := fst entry in
         let cursada_var := ESum (vars_where alocacao (do_curso d_id)) in
         EVar (semestre_var d_id) ==' 
           EAdd (ESum (termos_semestre d_id))
                (EMul (inject_Z (NUM_SEMESTRES + 1)) (ESub (EInt 1) cursada_var)))
      a_cursar.

(** [n * e] where [e] may be a Python int. *)
Definition py_mul (n : Z) (e : LinearExpr) : LinearExpr :=
  match e with
  | ECst c => ECst (inject_Z n * c)
  | _ => EMul (inject_Z n) e
  end.

(** One line of R3; a [KeyError] when an id of the category is not a key of
    [disciplinas]. *)
Definition r3_categoria (ids : list string) (minimo : Z) : Exc (list Constraint) :=
  if Py.is_empty ids then Return []
  else
    termos <-
      fold_left
        (fun acc d_id =>
           ts <- acc ;;
           disc <- of_option KeyError (Py.get String.eqb (disciplinas dados) d_id) ;;
           Return (ts ++ [py_mul (creditos disc) (cursada_vars d_id)]))
        ids (Return []) ;;
    Return [ESum termos >=' EInt minimo].

Definition r3_creditos_minimos : Exc (list Constraint) :=
  a <- r3_categoria (restritas_ids dados) (restrita creditos_minimos) ;;
  b <- r3_categoria (condicionadas_ids dados) (condicionada creditos_minimos) ;;
  c <- r3_categoria (livres_ids dados) (livre creditos_minimos) ;;
  Return (a ++ b ++ c).

Definition M_prereq : Z := NUM_SEMESTRES + 1.

(** [isinstance(var_pre, int) and var_pre == 1] *)
Definition is_int_one (e : LinearExpr) : bool :=
  match e with
  | ECst c => Qeq_bool c 1
  | _ => false
  end.

(** R4 *)
Definition r4_prerequisitos : list Constraint :=
  flat_map
    (fun entry : string * Disciplina =>
       let d_id := fst entry in
       flat_map
         (fun prereq_id =>
            if negb (Py.has String.eqb (disciplinas dados) prereq_id) then []
            else
              let var_d := cursada_vars d_id in
              let var_pre := cursada_vars prereq_id in
              let sem_d := semestre_da_disciplina d_id in
              let sem_pre := semestre_da_disciplina prereq_id in
              (if is_int_one var_pre then [] else [var_pre >=' var_d])
              ++ [ESub sem_d sem_pre
                  >=' ESub (EInt 1)
                           (EMul (inject_Z M_prereq) (ESub (EInt 1) var_d))])
         (prerequisitos (snd entry)))
    a_cursar.

(** R5 *)
Definition r5_conflitos : list Constraint :=
  flat_map
    (fun s =>
       map (fun entry : string * list LinearExpr => ESum (snd entry) <=' EInt 1)
           (horarios_do_semestre (horarios_por_turma dados) alocacao s))
    semestres.

(** R6 *)
Definition termos_de_credito (s : Z) : list LinearExpr :=
  flat_map
    (fun entry : string * Disciplina =>
       let d_id := fst entry in
       let cursada_neste_semestre_vars :=
         vars_where alocacao (do_curso_no_semestre d_id s) in
       if Py.is_empty cursada_neste_semestre_vars then []
       else [EMul (inject_Z (creditos (snd entry))) (ESum cursada_neste_semestre_vars)])
    a_cursar.

Definition r6_limite_creditos : list Constraint :=
  flat_map
    (fun s =>
       let termos := termos_de_credito s in
       if Py.is_empty termos then []
       else [ESum termos <=' EInt CREDITOS_MAXIMOS_POR_SEMESTRE])
    semestres.

(** R7, the internship rule *)
Definition id_estagio : string := "EEWU00".

Definition total_disciplinas : Z := Z.of_nat (List.length (disciplinas dados)).

(** [total_disciplinas / 2.0] *)
Definition metade_total : Q := (inject_Z total_disciplinas / 2)%Q.

Definition M_estagio : Z := total_disciplinas + 1.

(** [vars_concluidas_antes_s] for term [s] *)
Definition vars_concluidas_antes (s : Z) : list LinearExpr :=
  flat_map
    (fun entry : string * Disciplina =>
       let d_other := fst entry in
       if cursada d_other then []
       else if String.eqb d_other id_estagio then []
       else
         flat_map
           (fun sem_past =>
              flat_map
                (fun t_other =>
                   if Py.mem key_eqb (d_other, sem_past, t_other) alocacao
                   then [EVar (alocacao_var (d_other, sem_past, t_other))]
                   else [])
                (Py.get_default String.eqb (turmas_por_disciplina dados) d_other []))
           (Py.range 1 s))
    (disciplinas dados).

Definition r7_estagio : list Constraint :=
  if Py.has String.eqb (disciplinas dados) id_estagio && negb (cursada id_estagio) then
    flat_map
      (fun s =>
         let vars_estagio_s := vars_where alocacao (do_curso_no_semestre id_estagio s) in
         if Py.is_empty vars_estagio_s then []
         else
           let is_estagio_in_s := ESum vars_estagio_s in
           let total_concluidas_antes_s :=
             EAdd (EInt count_cursadas_past) (ESum (vars_concluidas_antes s)) in
           [total_concluidas_antes_s
            >=' ESub (ECst metade_total)
                     (EMul (inject_Z M_estagio) (ESub (EInt 1) is_estagio_in_s))])
      semestres
  else [].

Definition M_obj : Z := NUM_SEMESTRES + 1.

(** The constraints on [semestre_maximo]. *)
Definition objetivo : list Constraint :=
  map (fun entry : string * Disciplina =>
         let d_id := fst entry in
         EVar semestre_maximo
         >=' ESub (semestre_da_disciplina d_id)
                  (EMul (inject_Z M_obj) (ESub (EInt 1) (cursada_vars d_id))))
      a_cursar.

(** The model handed to [solver.Solve()]; building it raises [KeyError]
    when R3 does. *)
Definition construir_modelo : Exc Model :=
  r3 <- r3_creditos_minimos ;;
  Return (mkModel declaradas
            (r1_obrigatorias ++ r1_optativas ++ r2_ligacao ++ r3 ++ r4_prerequisitos
             ++ r5_conflitos ++ r6_limite_creditos ++ r7_estagio ++ objetivo)
            semestre_maximo).

(** *** Decoding the solution *)

(** Credits of the courses already taken, by category. *)
Definition creditos_ja_cursados : CreditosPorTipo :=
  fold_left
    (fun c d_id =>
       match Py.get String.eqb (disciplinas dados) d_id with
       | Some disc =>
           somar_tipo (match tipo disc with Some t => t | None => "Outros"%string end)
                      (creditos disc) c
       | None => c
       end)
    (Py.keys_of String.eqb disciplinas_cursadas) (mkPorTipo 0 0 0 0 0).

Definition processar_alocacao (sol : SolveResult)
    : Exc (list (Z * list DisciplinaObj) * list (Z * Z) * CreditosPorTipo) :=
  fold_left
    (fun acc k =>
       st <- acc ;;
       let '(grade, creditos_por_semestre, creditos_por_tipo) := st in
       if chosen (solution_value sol) (alocacao_var k) then
         disc_data <- of_option KeyError (Py.get String.eqb (disciplinas dados) (key_d k)) ;;
         let horarios := Py.get_default String.eqb (horarios_por_turma dados) (key_t k) [] in
         let disciplina_obj :=
           mkObj (key_d k) (nome disc_data) (key_t k) horarios (creditos disc_data)
                 (match tipo disc_data with Some t => t | None => "Desconhecido"%string end) in
         grade' <- of_option KeyError
                     (Py.update Z.eqb grade (key_s k) (fun g => g ++ [disciplina_obj])) ;;
         creditos' <- of_option KeyError
                        (Py.update Z.eqb creditos_por_semestre (key_s k)
                           (fun c => c + creditos disc_data)) ;;
         Return (grade', creditos',
                 somar_tipo (match tipo disc_data with Some t => t | None => "Outros"%string end)
                            (creditos disc_data) creditos_por_tipo)
       else Return st)
    alocacao
    (Return (Py.comprehension Z.eqb semestres (fun _ => @nil DisciplinaObj),
             Py.comprehension Z.eqb semestres (fun _ => 0),
             creditos_ja_cursados)).

(** [resolver_grade]: the returned tuple is the list of its components.
    [scip] tells whether [CreateSolver('SCIP')] gave a solver. *)
Definition resolver_grade (scip : bool) (solve : Model -> SolveResult)
    : Exc (list PyValue) :=
  if negb scip then Return [PyNone; PyNone; PyInt (-1); PyNone]
  else
    modelo <- construir_modelo ;;
    let sol := solve modelo in
    let status := solve_status sol in
    if status_eqb status OPTIMAL || status_eqb status FEASIBLE then
      st <- processar_alocacao sol ;;
      let '(grade, creditos_por_semestre, creditos_por_tipo) := st in
      Return [PyGrade grade; PyCreditos creditos_por_semestre; PyInt (status_code status);
              PyFloat (objective_value sol); PyPorTipo creditos_por_tipo]
    else
      Return [PyNone; PyNone; PyInt (status_code status); PyNone; PyNone].

End Builder.

(** *** [main.py]: the [/optimize] handler *)

Inductive SolutionStatusText : Type :=
| Text (s : string)
| StrOf (n : Z).                     (* [str(status)] *)

Record SemestreData : Type := mkSemestreData {
  sd_semestre : Z;
  sd_disciplinas : list DisciplinaObj;
  sd_creditos : Z
}.

Inductive Response : Type :=
| Success (solution_status : string) (final : PyValue)
          (schedule : list SemestreData) (credits_summary : PyValue)
| Error (solution_status : SolutionStatusText) (message : string).

(** The result of the handler: a response, an [HTTPException] with its
    status code, or an uncaught Python exception. *)
Inductive HandlerResult : Type :=
| Responds (r : Response)
| HTTPException (code : Z)
| Uncaught (e : PyError).

(** The five-name unpacking of the tuple. *)
Definition unpack5 (t : list PyValue)
    : Exc (PyValue * PyValue * PyValue * PyValue * PyValue) :=
  match t with
  | [a; b; c; d; e] => Return (a, b, c, d, e)
  | _ => Raise ValueError
  end.

Definition formatar_grade (grade : list (Z * list DisciplinaObj)) (creditos : list (Z * Z))
    : Exc (list SemestreData) :=
  fold_left
    (fun acc (entry : Z * list DisciplinaObj) =>
       fs <- acc ;;
       c <- of_option KeyError (Py.get Z.eqb creditos (fst entry)) ;;
       Return (fs ++ [mkSemestreData (fst entry) (snd entry) c]))
    grade (Return []).

Definition optimize_schedule (dados_globais : option DadosDisciplinas)
    (scip : bool) (solve : Model -> SolveResult) (taken_courses : list string)
    : HandlerResult :=
  match dados_globais with
  | None => HTTPException 500
  | Some dados =>
      let NUM_SEMESTRES := 10 in
      let CREDITOS_MAXIMOS_POR_SEMESTRE := 32 in
      let CREDITOS_MINIMOS := mkMinimos 4 40 8 in
      match resolver_grade dados CREDITOS_MINIMOS NUM_SEMESTRES
              CREDITOS_MAXIMOS_POR_SEMESTRE taken_courses scip solve with
      | Raise e => Uncaught e
      | Return t =>
          match unpack5 t with
          | Raise e => Uncaught e
          | Return (grade, creditos, status, obj_value, creditos_por_tipo) =>
              match status with
              | PyInt st =>
                  if Z.eqb st (status_code OPTIMAL) || Z.eqb st (status_code FEASIBLE) then
                    match grade, creditos with
                    | PyGrade g, PyCreditos c =>
                        match formatar_grade g c with
                        | Raise e => Uncaught e
                        | Return formatted_grade =>
                            Responds
                              (Success (if Z.eqb st (status_code OPTIMAL)
                                        then "OPTIMAL" else "FEASIBLE")
                                       obj_value formatted_grade creditos_por_tipo)
                        end
                    | _, _ => Uncaught TypeError
                    end
                  else
                    Responds
                      (Error (if Z.eqb st (status_code INFEASIBLE)
                              then Text "INFEASIBLE" else StrOf st)
                             "No solution found.")
              | _ => Uncaught TypeError     (* the status is always an int *)
              end
          end
      end
  end.

End Backend.

(** ** The category classifiers *)

Module DataLoader.

Record Categorias : Type := mkCategorias {
  obrigatorias : list string;
  restritas : list string;
  condicionadas : list string;
  livres : list string
}.

Section Classifier.

(** [str.lower], a Python built-in. *)
Variable lower : string -> string.

(** [_categorizar_disciplinas]; a record is the pair of its ["id"] and the
    rest of the dict. *)
Definition _categorizar_disciplinas (ds : list (string * Disciplina)) : Categorias :=
  fold_left
    (fun categorias (disciplina : string * Disciplina) =>
       let tipo :=
         lower (match tipo (snd disciplina) with Some t => t | None => ""%string end) in
       let disciplina_id := fst disciplina in
       if Py.str_in "período" tipo || Py.str_in "periodo" tipo then
         mkCategorias (obrigatorias categorias ++ [disciplina_id]) (restritas categorias)
                      (condicionadas categorias) (livres categorias)
       else if Py.str_in "restrita" tipo then
         mkCategorias (obrigatorias categorias) (restritas categorias ++ [disciplina_id])
                      (condicionadas categorias) (livres categorias)
       else if Py.str_in "condicionada" tipo then
         mkCategorias (obrigatorias categorias) (restritas categorias)
                      (condicionadas categorias ++ [disciplina_id]) (livres categorias)
       else if Py.str_in "livre" tipo || Py.startswith disciplina_id "ARTIFICIAL" then
         mkCategorias (obrigatorias categorias) (restritas categorias)
                      (condicionadas categorias) (livres categorias ++ [disciplina_id])
       else categorias)
    ds (mkCategorias [] [] [] []).

End Classifier.

End DataLoader.

(** [models/disciplina.py] *)
Module ModelsDisciplina.

Inductive TipoDisciplina : Type :=
| OBRIGATORIA | RESTRITA | CONDICIONADA | LIVRE | OUTRA.

Section Classifier.

Variable lower : string -> string.

Definition _parse_tipo (tipo_str : string) : TipoDisciplina :=
  let tipo_str := lower tipo_str in
  if Py.str_in "período" tipo_str || Py.str_in "periodo" tipo_str then OBRIGATORIA
  else if Py.str_in "restrita" tipo_str then RESTRITA
  else if Py.str_in "condicionada" tipo_str then CONDICIONADA
  else if Py.str_in "livre" tipo_str || Py.startswith tipo_str "artificial" then LIVRE
  else OUTRA.

(** The [tipo] field of [Disciplina.from_dict(data)]. *)
Definition from_dict_tipo (data : string * Disciplina) : TipoDisciplina :=
  _parse_tipo (match tipo (snd data) with Some t => t | None => ""%string end).

End Classifier.

End ModelsDisciplina.

(** ** Notions used to state the properties *)

(** The integer value of an expression whose constants are all ints. *)
Fixpoint evalZ (v : Var -> Z) (e : LinearExpr) : Z :=
  match e with
  | EVar x => v x
  | ECst c => Qnum c
  | ESum es => fold_right (fun e acc => evalZ v e + acc) 0 es
  | EMul c e => Qnum c * evalZ v e
  | EAdd a b => evalZ v a + evalZ v b
  | ESub a b => evalZ v a - evalZ v b
  end.

(** All constants of the expression are ints. *)
Fixpoint integral (e : LinearExpr) : bool :=
  match e with
  | EVar _ => true
  | ECst c => Pos.eqb (Qden c) 1
  | ESum es => forallb integral es
  | EMul c e => Pos.eqb (Qden c) 1 && integral e
  | EAdd a b => integral a && integral b
  | ESub a b => integral a && integral b
  end.

(** Sum of the solution values of the assignment variables of a key list. *)
Definition soma (v : Var -> Z) (ks : list Key) : Z :=
  fold_right (fun k acc => v (alocacao_var k) + acc) 0 ks.

(** Course [d] is taken: one of its assignment variables has value 1. *)
Definition taken (v : Var -> Z) (alocacao : list Key) (d : string) : Prop :=
  exists k, In k alocacao /\ key_d k = d /\ v (alocacao_var k) = 1.

(** The keys of a dict are pairwise distinct. *)
Definition dict_ok {K V : Type} (d : list (K * V)) : Prop := NoDup (map fst d).

(** The coverage constraint of a course without assignment variables. *)
Definition cobertura_vazia : Constraint := ESum [] ==' EInt 1.

(** ** Small instances used as examples *)

Module Exemplos.

(** A catalog of two required courses: [X], offered in odd terms only, and
    [Y], offered in even terms only, with prerequisite [X]. *)
Definition disc_X : Disciplina := mkDisciplina "Calculo I" 4 (Some "1º Período"%string) [].
Definition disc_Y : Disciplina :=
  mkDisciplina "Calculo II" 4 (Some "2º Período"%string) ["X"%string].

Definition dados_XY : DadosDisciplinas :=
  mkDados
    [("X"%string, disc_X); ("Y"%string, disc_Y)]
    [("X"%string, ["TX"%string]); ("Y"%string, ["TY"%string])]
    [("TX"%string, ["SEG-08"%string]); ("TY"%string, ["SEG-08"%string])]
    [("X"%string, [1]); ("Y"%string, [2])]
    ["X"%string; "Y"%string] [] [] [].

(** Two terms, starting at term 1, nothing completed. *)
Definition cfg_XY : Services.OptimizerConfig :=
  Services.mkConfig dados_XY [("X"%string, disc_X); ("Y"%string, disc_Y)]
    (mkMinimos 0 0 0) 32 [] 1 240 (Some 2) None.

(** [X] in term 1 and [Y] in term 2. *)
Definition sol_XY (x : Var) : Z :=
  match x with
  | alocacao_var (d, s, t) =>
      if (String.eqb d "X" && Z.eqb s 1) || (String.eqb d "Y" && Z.eqb s 2) then 1 else 0
  | semestre_var d => if String.eqb d "X" then 1 else 2
  | cursada_zero _ => 0
  | creditos_zero _ => 0
  | semestre_maximo => 2
  end.

(** A required course [X] and a free elective [E], both offered in every
    term. *)
Definition disc_E : Disciplina :=
  mkDisciplina "Topicos" 2 (Some "Livre Escolha"%string) [].

Definition dados_XE : DadosDisciplinas :=
  mkDados
    [("X"%string, disc_X); ("E"%string, disc_E)]
    [("X"%string, ["TX"%string]); ("E"%string, ["TE"%string])]
    [("TX"%string, ["SEG-08"%string]); ("TE"%string, ["TER-08"%string])]
    []
    ["X"%string] [] [] ["E"%string].

(** [X] in term 1, [E] not taken. *)
Definition sol_XE (x : Var) : Z :=
  match x with
  | alocacao_var (d, s, t) => if String.eqb d "X" && Z.eqb s 1 then 1 else 0
  | semestre_var d => if String.eqb d "X" then 1 else 3
  | cursada_zero _ => 0
  | creditos_zero _ => 0
  | semestre_maximo => 1
  end.

(** A required course without any offered section. *)
Definition dados_sem_oferta : DadosDisciplinas :=
  mkDados [("X"%string, disc_X)] [("X"%string, [])] [] [] ["X"%string] [] [] [].

Definition cfg_sem_oferta : Services.OptimizerConfig :=
  Services.mkConfig dados_sem_oferta [("X"%string, disc_X)]
    (mkMinimos 0 0 0) 32 [] 1 240 (Some 2) None.

(** The internship [EEWU00] and one other required course. *)
Definition disc_estagio : Disciplina :=
  mkDisciplina "Estagio" 4 (Some "9º Período"%string) [].

Definition dados_estagio : DadosDisciplinas :=
  mkDados
    [("X"%string, disc_X); ("EEWU00"%string, disc_estagio)]
    [("X"%string, ["TX"%string]); ("EEWU00"%string, ["TE"%string])]
    [("TX"%string, ["SEG-08"%string]); ("TE"%string, ["TER-08"%string])]
    []
    ["X"%string; "EEWU00"%string] [] [] [].

(** [X] in term 1 and the internship in term 2. *)
Definition sol_estagio (x : Var) : Z :=
  match x with
  | alocacao_var (d, s, t) =>
      if (String.eqb d "X" && Z.eqb s 1) || (String.eqb d "EEWU00" && Z.eqb s 2)
      then 1 else 0
  | semestre_var d => if String.eqb d "X" then 1 else 2
  | cursada_zero _ => 0
  | creditos_zero _ => 0
  | semestre_maximo => 2
  end.

(** The internship in term 1, [X] in term 2. *)
Definition sol_estagio_cedo (x : Var) : Z :=
  match x with
  | alocacao_var (d, s, t) =>
      if (String.eqb d "X" && Z.eqb s 2) || (String.eqb d "EEWU00" && Z.eqb s 1)
      then 1 else 0
  | semestre_var d => if String.eqb d "X" then 2 else 1
  | cursada_zero _ => 0
  | creditos_zero _ => 0
  | semestre_maximo => 2
  end.

Definition cfg_estagio : Services.OptimizerConfig :=
  Services.mkConfig dados_estagio [("X"%string, disc_X); ("EEWU00"%string, disc_estagio)]
    (mkMinimos 0 0 0) 32 [] 1 240 (Some 2) None.

(** [str.lower] on ASCII letters; other bytes are left as they are. *)
Definition lower_ascii_char (c : ascii) : ascii :=
  let n := nat_of_ascii c in
  if (Nat.leb 65 n && Nat.leb n 90)%bool then ascii_of_nat (n + 32) else c.

Fixpoint lower_ascii (s : string) : string :=
  match s with
  | EmptyString => EmptyString
  | String c r => String (lower_ascii_char c) (lower_ascii r)
  end.

End Exemplos.

(** The canonical categories of the specification. *)
Inductive Categoria : Type :=
| Required | RestrictedElective | ConditionedElective | FreeElective | Other.

Definition categoria_eqb (a b : Categoria) : bool :=
  match a, b with
  | Required, Required | RestrictedElective, RestrictedElective
  | ConditionedElective, ConditionedElective | FreeElective, FreeElective
  | Other, Other => true
  | _, _ => false
  end.

(** The classification rule in the words of the specification, with the
    markers of the source: the term-number marker is ["período"] or
    ["periodo"], the artificial-id prefix is ["ARTIFICIAL"]. *)
Definition categoria_da_spec (lower : string -> string) (record : string * Disciplina)
    : Categoria :=
  let label := lower (match tipo (snd record) with Some t => t | None => ""%string end) in
  if Py.str_in "período" label || Py.str_in "periodo" label then Required
  else if Py.str_in "restrita" label then RestrictedElective
  else if Py.str_in "condicionada" label then ConditionedElective
  else if Py.str_in "livre" label || Py.startswith (fst record) "ARTIFICIAL" then FreeElective
  else Other.

(** The ids of the records of one category, in order. *)
Definition ids_da_categoria (lower : string -> string) (c : Categoria)
    (ds : list (string * Disciplina)) : list string :=
  map fst (filter (fun r => categoria_eqb (categoria_da_spec lower r) c) ds).

(** The credits of a course of the catalog, 0 for an id that is not a key. *)
Definition credito_de (catalogo : list (string * Disciplina)) (d : string) : Z :=
  match Py.get String.eqb catalogo d with
  | Some disc => creditos disc
  | None => 0
  end.

(** The credits assigned to term [s] by a solution: the credits of the
    course of every assignment variable of term [s] whose value is above
    0.5. *)
Definition creditos_atribuidos (catalogo : list (string * Disciplina))
    (v : Var -> Z) (alocacao : list Key) (s : Z) : Z :=
  fold_right Z.add 0
    (map (fun k => if chosen v (alocacao_var k) then credito_de catalogo (key_d k) else 0)
         (filter (fun k => Z.eqb (key_s k) s) alocacao)).

(** Sum over the catalog of the credits of a course times a weight. *)
Definition soma_catalogo (catalogo : list (string * Disciplina)) (f : string -> Z) : Z :=
  fold_right (fun e acc => creditos (snd e) * f (fst e) + acc) 0 catalogo.

(** The model of a successful build. *)
Definition modelo_de (e : Exc Model) : Model :=
  match e with
  | Return m => m
  | Raise _ => mkModel [] [] semestre_maximo
  end.

(** The assignments that precede term [s] and are not the internship's:
    the keys of [alocacao] of another course and an earlier term. *)
Definition outra_antes (s : Z) (k : Key) : bool :=
  negb (String.eqb (key_d k) Backend.id_estagio) && Z.ltb (key_s k) s.

(** Number of assignments, in a solution, of other courses to terms
    strictly before [s]. *)
Definition cursadas_antes (v : Var -> Z) (alocacao : list Key) (s : Z) : Z :=
  soma v (filter (outra_antes s) alocacao).

(** The keys whose variables [vars_concluidas_antes] collects, in its
    order. *)
Definition chaves_concluidas_antes (dados : DadosDisciplinas) (NUM_SEMESTRES : Z)
    (disciplinas_cursadas : list string) (s : Z) : list Key :=
  flat_map
    (fun entry : string * Disciplina =>
       let d_other := fst entry in
       if Backend.cursada disciplinas_cursadas d_other then []
       else if String.eqb d_other Backend.id_estagio then []
       else
         flat_map
           (fun sem_past =>
              flat_map
                (fun t_other =>
                   if Py.mem key_eqb (d_other, sem_past, t_other)
                        (Backend.alocacao dados NUM_SEMESTRES disciplinas_cursadas)
                   then [(d_other, sem_past, t_other)]
                   else [])
                (Py.get_default String.eqb (turmas_por_disciplina dados) d_other []))
           (Py.range 1 s))
    (disciplinas dados).

(** ** Notions and models used by the further properties *)

(** Sum of the terms of the assignment variables of a key list, each weighted
    by its solution value. *)
Definition soma_s (v : Var -> Z) (ks : list Key) : Z :=
  fold_right (fun k acc => key_s k * v (alocacao_var k) + acc) 0 ks.

(** The keys of term [s] whose section occupies time slot [h], in dict
    order, once for every time the section lists the slot. *)
Definition ocupantes (horarios : list (string * list string)) (alocacao : list Key)
    (s : Z) (h : string) : list Key :=
  flat_map
    (fun k =>
       if Z.eqb (key_s k) s then
         map (fun _ => k)
             (filter (String.eqb h) (Py.get_default String.eqb horarios (key_t k) []))
       else [])
    alocacao.

(** The credits a solution counts for the courses of an id list: the credits
    of a course times the number of its assignments ([1] for a course that
    [feito] marks as done). *)
Definition creditos_contados (catalogo : list (string * Disciplina)) (v : Var -> Z)
    (alocacao : list Key) (feito : string -> bool) (ids : list string) : Z :=
  fold_right
    (fun d acc =>
       credito_de catalogo d
       * (if feito d then 1 else soma v (filter (do_curso d) alocacao)) + acc)
    0 ids.

(** The entries the services decoder appends to [grade[s]]: one for every
    assignment variable of term [s] with value above 0.5 whose course is a
    key of the catalog, in dict order. *)
Definition alocadas_no_semestre (dados : DadosDisciplinas) (v : Var -> Z)
    (alocacao : list Key) (s : Z) : list Services.DisciplinaAlocada :=
  flat_map
    (fun k =>
       if chosen v (alocacao_var k) && Z.eqb (key_s k) s then
         match Py.get String.eqb (disciplinas dados) (key_d k) with
         | Some disc =>
             [Services.mkAlocada (nome disc) (key_t k)
                (Py.get_default String.eqb (horarios_por_turma dados) (key_t k) [])
                (creditos disc)]
         | None => []
         end
       else [])
    alocacao.

(** The objects the backend decoder appends to [grade[s]]. *)
Definition objetos_no_semestre (dados : DadosDisciplinas) (v : Var -> Z)
    (alocacao : list Key) (s : Z) : list Backend.DisciplinaObj :=
  flat_map
    (fun k =>
       if chosen v (alocacao_var k) && Z.eqb (key_s k) s then
         match Py.get String.eqb (disciplinas dados) (key_d k) with
         | Some disc =>
             [Backend.mkObj (key_d k) (nome disc) (key_t k)
                (Py.get_default String.eqb (horarios_por_turma dados) (key_t k) [])
                (creditos disc)
                (match tipo disc with Some t => t | None => "Desconhecido"%string end)]
         | None => []
         end
       else [])
    alocacao.

(** Sum of the five counters of the credit report. *)
Definition total_por_tipo (c : Backend.CreditosPorTipo) : Z :=
  Backend.t_obrigatoria c + Backend.t_restrita c + Backend.t_condicionada c
  + Backend.t_livre c + Backend.t_outros c.

(** Credits of all the assignments a solution chooses. *)
Definition creditos_escolhidos (catalogo : list (string * Disciplina)) (v : Var -> Z)
    (alocacao : list Key) : Z :=
  fold_right Z.add 0
    (map (fun k => if chosen v (alocacao_var k) then credito_de catalogo (key_d k) else 0)
         alocacao).

(** Sum of the credits of the objects of one term. *)
Definition creditos_dos_objetos (l : list Backend.DisciplinaObj) : Z :=
  fold_right Z.add 0 (map Backend.obj_creditos l).

(** Credits of the completed courses that are keys of the catalog, each
    counted once. *)
Definition creditos_das_cursadas (catalogo : list (string * Disciplina))
    (disciplinas_cursadas : list string) : Z :=
  fold_right Z.add 0
    (map (credito_de catalogo) (Py.keys_of String.eqb disciplinas_cursadas)).

(** ** [services/data_loader.py]: filtering and the offers *)

Module DataLoaderDados.

(** One record of [ofertas.json]. The keys [horario] and [periodo] may be
    absent. *)
Record Oferta : Type := mkOferta {
  disciplina_id : string;
  turma_id : string;
  horario : option (list string);
  periodo : option string
}.

(** The dict [_processar_ofertas] returns, by its four keys. *)
Record OfertasProcessadas : Type := mkProcessadas {
  p_disciplinas : list (string * Disciplina);
  p_turmas_por_disciplina : list (string * list string);
  p_horarios_por_turma : list (string * list string);
  p_periodos_validos : list (string * list Z)
}.

(** [s.split(',')] *)
Fixpoint split_virgula (s : string) : list string :=
  match s with
  | EmptyString => [EmptyString]
  | String c r =>
      if Ascii.eqb c ","%char then EmptyString :: split_virgula r
      else match split_virgula r with
           | h :: t => String c h :: t
           | [] => [String c EmptyString]
           end
  end.

(** [_filtrar_disciplinas_concluidas]; a record is the pair of its ["id"]
    and the rest of the dict. *)
Definition _filtrar_disciplinas_concluidas (disciplinas_data : list (string * Disciplina))
    (disciplinas_concluidas : list string) : list (string * Disciplina) :=
  flat_map
    (fun disciplina : string * Disciplina =>
       if negb (Py.mem String.eqb (fst disciplina) disciplinas_concluidas) then
         [(fst disciplina,
           mkDisciplina (nome (snd disciplina)) (creditos (snd disciplina))
             (tipo (snd disciplina))
             (filter (fun p => negb (Py.mem String.eqb p disciplinas_concluidas))
                     (prerequisitos (snd disciplina))))]
       else [])
    disciplinas_data.

Section Loader.

(** Python built-ins on strings: [str.lower], [str.strip] and [int] of a
    string, which raises [ValueError] on a malformed number. *)
Variable lower : string -> string.
Variable strip : string -> string.
Variable int : string -> Exc Z.

(** [{int(p.strip()) for p in periodo.split(',') if p.strip()}] *)
Definition periodos_da_oferta (periodo : string) : Exc (list Z) :=
  fold_left
    (fun acc p =>
       ps <- acc ;;
       if String.eqb (strip p) "" then Return ps
       else n <- int (strip p) ;; Return (Py.insert_key Z.eqb ps n))
    (split_virgula periodo) (Return []).

(** The loop of [_processar_ofertas] over the offers: the state is
    [turmas_por_disciplina], [horarios_por_turma] and [periodos_validos]. *)
Definition processar_oferta
    (acc : Exc (list (string * list string) * list (string * list string)
                * list (string * list Z)))
    (oferta : Oferta)
    : Exc (list (string * list string) * list (string * list string)
           * list (string * list Z)) :=
  st <- acc ;;
  let '(turmas_por_disciplina, horarios_por_turma, periodos_validos) := st in
  let d_id := disciplina_id oferta in
  let t_id := turma_id oferta in
  match Py.get String.eqb turmas_por_disciplina d_id with
  | None => Return st
  | Some turmas =>
      let turmas_por_disciplina' :=
        Py.set String.eqb turmas_por_disciplina d_id (turmas ++ [t_id]) in
      let horarios_por_turma' :=
        Py.set String.eqb horarios_por_turma t_id
          (match horario oferta with Some h => h | None => [] end) in
      match periodo oferta with
      | Some p =>
          if String.eqb p "" then
            Return (turmas_por_disciplina', horarios_por_turma', periodos_validos)
          else
            periodos <- periodos_da_oferta p ;;
            Return (turmas_por_disciplina', horarios_por_turma',
                    Py.set String.eqb periodos_validos d_id
                      (fold_left (Py.insert_key Z.eqb) periodos
                         (Py.get_default String.eqb periodos_validos d_id [])))
      | None => Return (turmas_por_disciplina', horarios_por_turma', periodos_validos)
      end
  end.

Definition _processar_ofertas (ofertas_data : list Oferta)
    (disciplinas : list (string * Disciplina)) : Exc OfertasProcessadas :=
  let disciplinas_dict :=
    fold_left (fun acc (d : string * Disciplina) => Py.set String.eqb acc (fst d) (snd d))
              disciplinas [] in
  let disciplinas_ofertadas_ids := map disciplina_id ofertas_data in
  let disciplinas_com_oferta :=
    filter (fun e : string * Disciplina =>
              Py.mem String.eqb (fst e) disciplinas_ofertadas_ids)
           disciplinas_dict in
  let turmas_por_disciplina :=
    Py.comprehension String.eqb (map fst disciplinas_com_oferta)
      (fun _ => @nil string) in
  st <- fold_left processar_oferta ofertas_data
          (Return (turmas_por_disciplina, [], [])) ;;
  let '(turmas_por_disciplina, horarios_por_turma, periodos_validos) := st in
  Return (mkProcessadas disciplinas_com_oferta turmas_por_disciplina
            horarios_por_turma periodos_validos).

(** [DataLoader.carregar_dados]; the two JSON files are given by their
    contents. [None] stands for an omitted [disciplinas_concluidas]. *)
Definition carregar_dados (disciplinas_data : list (string * Disciplina))
    (ofertas_data : list Oferta) (disciplinas_concluidas : option (list string))
    : Exc DadosDisciplinas :=
  let disciplinas_concluidas :=
    match disciplinas_concluidas with Some l => l | None => [] end in
  let disciplinas_filtradas :=
    _filtrar_disciplinas_concluidas disciplinas_data disciplinas_concluidas in
  let categorias := DataLoader._categorizar_disciplinas lower disciplinas_filtradas in
  ofertas_processadas <- _processar_ofertas ofertas_data disciplinas_filtradas ;;
  let com_oferta (d_id : string) :=
    Py.mem String.eqb d_id (map fst (p_disciplinas ofertas_processadas)) in
  Return (mkDados
            (p_disciplinas ofertas_processadas)
            (p_turmas_por_disciplina ofertas_processadas)
            (p_horarios_por_turma ofertas_processadas)
            (p_periodos_validos ofertas_processadas)
            (filter com_oferta (DataLoader.obrigatorias categorias))
            (filter com_oferta (DataLoader.restritas categorias))
            (filter com_oferta (DataLoader.condicionadas categorias))
            (filter com_oferta (DataLoader.livres categorias))).

End Loader.

End DataLoaderDados.

(** The section ids of the offers of course [d], in the order of the offers. *)
Definition turmas_ofertadas (ofertas : list DataLoaderDados.Oferta) (d : string)
    : list string :=
  map DataLoaderDados.turma_id
      (filter (fun o => String.eqb (DataLoaderDados.disciplina_id o) d) ofertas).

(** ** [utils/validators.py] *)

Module Validators.

(** An argument as far as [isinstance(x, int)] tells: an int, a bool (a
    subclass of int) or an object of another type. *)
Inductive Arg : Type :=
| ArgInt (n : Z)
| ArgBool (b : bool)
| ArgOutro.

Definition int_value (a : Arg) : option Z :=
  match a with
  | ArgInt n => Some n
  | ArgBool b => Some (if b then 1 else 0)
  | ArgOutro => None
  end.

(** [validate_semestre(numero, min_val, max_val)]; the defaults are
    [min_val = 1] and [max_val = None]. *)
Definition validate_semestre (numero : Arg) (min_val : Z) (max_val : option Z) : Exc bool :=
  match int_value numero with
  | None => Raise TypeError
  | Some n =>
      let max_val :=
        match max_val with
        | Some m => if Z.eqb m 0 then Services.NUM_SEMESTRES_TOTAL else m
        | None => Services.NUM_SEMESTRES_TOTAL
        end in
      if negb ((min_val <=? n) && (n <=? max_val)) then Raise ValueError
      else Return true
  end.

End Validators.

(** ** [models/grade.py]: the properties of [GradeResultado] *)

Module ModelsGrade.



(** [DadosDisciplinas.todas_disciplinas_ids] *)
Definition todas_disciplinas_ids (dados : DadosDisciplinas) : list string :=
  ((obrigatorias_ids dados ++ restritas_ids dados) ++ condicionadas_ids dados)
  ++ livres_ids dados.

End ModelsGrade.

(** The configuration [app.py] builds for the optimiser: the loaded data,
    the start term, and the defaults of [config.py] for the horizon and the
    time limit. *)
Definition config_da_aplicacao (dados : DadosDisciplinas)
    (todas_disciplinas_info : list (string * Disciplina))
    (creditos_minimos : CreditosMinimos) (creditos_maximos total_creditos : Z)
    (disciplinas_concluidas_ids : list string) (semestre_inicio : Z)
    : Services.OptimizerConfig :=
  Services.mkConfig dados todas_disciplinas_info creditos_minimos creditos_maximos
    disciplinas_concluidas_ids semestre_inicio total_creditos None None.

(** ** [models/disciplina.py]: [Disciplina.from_dict] and [to_dict] *)

Module ModelsDisciplinaDict.

(** The values of the dicts: [None], an int, a str or a list of str. *)
Inductive Valor : Type :=
| VNone
| VInt (n : Z)
| VStr (s : string)
| VLista (l : list string).

(** An instance of the dataclass; the fields without conversion hold the
    value they were given. *)
Record Instancia : Type := mkInstancia {
  i_id : Valor;
  i_nome : Valor;
  i_creditos : Z;
  i_tipo : ModelsDisciplina.TipoDisciplina;
  i_prerequisitos : Valor;
  i_periodo_sugerido : Valor
}.

(** The outcome of [from_dict]: an instance, one of the modelled
    exceptions, or an [AttributeError]. *)
Inductive Resultado : Type :=
| Ok (d : Instancia)
| Erro (e : PyError)
| ErroAtributo.

(** [TipoDisciplina.value] *)
Definition valor_do_tipo (t : ModelsDisciplina.TipoDisciplina) : string :=
  match t with
  | ModelsDisciplina.OBRIGATORIA => "obrigatoria"
  | ModelsDisciplina.RESTRITA => "restrita"
  | ModelsDisciplina.CONDICIONADA => "condicionada"
  | ModelsDisciplina.LIVRE => "livre"
  | ModelsDisciplina.OUTRA => "outra"
  end.

Section FromDict.

(** [str.lower], and [int] of a str. *)
Variable lower : string -> string.
Variable int : string -> Exc Z.

(** [int(v)] *)
Definition int_do_valor (v : Valor) : Exc Z :=
  match v with
  | VInt n => Return n
  | VStr s => int s
  | VNone => Raise TypeError
  | VLista _ => Raise TypeError
  end.

Definition from_dict (data : list (string * Valor)) : Resultado :=
  match Py.get_default String.eqb data "tipo"%string (VStr ""%string) with
  | VStr tipo_str =>
      let tipo := ModelsDisciplina._parse_tipo lower tipo_str in
      match Py.get String.eqb data "id"%string with
      | None => Erro KeyError
      | Some id =>
          let nome := Py.get_default String.eqb data "nome"%string (VStr ""%string) in
          match int_do_valor (Py.get_default String.eqb data "creditos"%string (VInt 0)) with
          | Raise e => Erro e
          | Return creditos =>
              Ok (mkInstancia id nome creditos tipo
                    (Py.get_default String.eqb data "prerequisitos"%string (VLista []))
                    (Py.get_default String.eqb data "periodo"%string VNone))
          end
      end
  | _ => ErroAtributo
  end.

End FromDict.

Definition to_dict (self : Instancia) : list (string * Valor) :=
  [("id"%string, i_id self);
   ("nome"%string, i_nome self);
   ("creditos"%string, VInt (i_creditos self));
   ("tipo"%string, VStr (valor_do_tipo (i_tipo self)));
   ("prerequisitos"%string, i_prerequisitos self);
   ("periodo_sugerido"%string, i_periodo_sugerido self)].

End ModelsDisciplinaDict.

(** ** More small instances *)

Module Exemplos2.

(** Two required courses whose sections meet in the same time slot; no
    restriction on the parity of the terms. *)
Definition dados_conflito : DadosDisciplinas :=
  mkDados
    [("X"%string, Exemplos.disc_X); ("Y"%string, Exemplos.disc_Y)]
    [("X"%string, ["TX"%string]); ("Y"%string, ["TY"%string])]
    [("TX"%string, ["SEG-08"%string]); ("TY"%string, ["SEG-08"%string])]
    []
    ["X"%string; "Y"%string] [] [] [].

(** A required course [X], a restricted elective [R] already completed and
    a restricted elective [S]. *)
Definition disc_R : Disciplina :=
  mkDisciplina "Redes" 4 (Some "Escolha Restrita"%string) [].
Definition disc_S : Disciplina :=
  mkDisciplina "Sinais" 2 (Some "Escolha Restrita"%string) [].

Definition dados_XRS : DadosDisciplinas :=
  mkDados
    [("X"%string, Exemplos.disc_X); ("R"%string, disc_R); ("S"%string, disc_S)]
    [("X"%string, ["TX"%string]); ("R"%string, ["TR"%string]); ("S"%string, ["TS"%string])]
    [("TX"%string, ["SEG-08"%string]); ("TR"%string, ["TER-08"%string]);
     ("TS"%string, ["QUA-08"%string])]
    []
    ["X"%string] ["R"%string; "S"%string] [] [].

(** [X] and [S] in term 1. *)
Definition sol_XS (x : Var) : Z :=
  match x with
  | alocacao_var (d, s, t) =>
      if (String.eqb d "X" || String.eqb d "S") && Z.eqb s 1 then 1 else 0
  | semestre_var d => 1
  | cursada_zero _ => 0
  | creditos_zero _ => 0
  | semestre_maximo => 1
  end.

(** A required course [X] and two restricted electives [R] and [S]; [R] is
    completed and no longer in the loaded data. *)
Definition dados_XS : DadosDisciplinas :=
  mkDados
    [("X"%string, Exemplos.disc_X); ("S"%string, disc_S)]
    [("X"%string, ["TX"%string]); ("S"%string, ["TS"%string])]
    [("TX"%string, ["SEG-08"%string]); ("TS"%string, ["QUA-08"%string])]
    []
    ["X"%string] ["S"%string] [] [].

Definition cfg_XS : Services.OptimizerConfig :=
  Services.mkConfig dados_XS
    [("X"%string, Exemplos.disc_X); ("R"%string, disc_R);
     ("S"%string, disc_S)]
    (mkMinimos 6 0 0) 32 ["R"%string] 1 240 (Some 1) None.


End Exemplos2.

(** Instances of the two JSON files. *)
Module ExemplosCarga.

Definition ofertas_XY : list DataLoaderDados.Oferta :=
  [DataLoaderDados.mkOferta "X" "TX" (Some ["SEG-08"%string]) None;
   DataLoaderDados.mkOferta "Y" "TY" (Some ["SEG-08"%string]) None;
   DataLoaderDados.mkOferta "W" "TW" None None].

(** [X] and [Y] have offers, [Z] has none; the offer of [W] is of no course
    of the catalog. *)
Definition disciplinas_XYZ : list (string * Disciplina) :=
  [("X"%string, Exemplos.disc_X); ("Y"%string, Exemplos.disc_Y);
   ("Z"%string, mkDisciplina "Calculo III" 4 (Some "3º Período"%string) ["Y"%string])].

(** [str.strip] and [int] are not called on offers without [periodo]. *)
Definition strip_id (s : string) : string := s.
Definition int_erro (s : string) : Exc Z := Raise ValueError.

End ExemplosCarga.

(** * Properties *)

(** ** Lists, dicts and ranges *)

Lemma key_eqb_eq (a b : Key) : key_eqb a b = true <-> a = b.
Proof.
  destruct a as [[d s] t], b as [[d' s'] t'].
  unfold key_eqb, key_d, key_s, key_t; simpl.
  rewrite !andb_true_iff, !String.eqb_eq, Z.eqb_eq.
  split.
  - intros [[-> ->] ->]; reflexivity.
  - intros H; inversion H; auto.
Qed.

Section DictFacts.
Context {K : Type} (eqb : K -> K -> bool).
Hypothesis eqb_spec : forall a b, eqb a b = true <-> a = b.

Lemma eqb_refl' (a : K) : eqb a a = true.
Proof. apply eqb_spec; reflexivity. Qed.

Lemma mem_In (k : K) (xs : list K) : Py.mem eqb k xs = true <-> In k xs.
Proof.
  unfold Py.mem. rewrite existsb_exists. split.
  - intros [x [Hin Hx]]. apply eqb_spec in Hx. subst; assumption.
  - intros Hin. exists k. split; [assumption | apply eqb_refl'].
Qed.

Lemma mem_false (k : K) (xs : list K) : Py.mem eqb k xs = false <-> ~ In k xs.
Proof.
  rewrite <- mem_In. destruct (Py.mem eqb k xs); split; congruence.
Qed.

Lemma fold_insert_key_In (l acc : list K) (k : K) :
  In k (fold_left (Py.insert_key eqb) l acc) <-> In k acc \/ In k l.
Proof.
  revert acc. induction l as [|x l IH]; intros acc; simpl.
  - tauto.
  - rewrite IH. unfold Py.insert_key.
    destruct (Py.mem eqb x acc) eqn:E.
    + apply mem_In in E. split; [tauto|].
      intros [H|[H|H]]; subst; auto.
    + rewrite in_app_iff; simpl. tauto.
Qed.

Lemma fold_insert_key_NoDup (l acc : list K) :
  NoDup acc -> NoDup (fold_left (Py.insert_key eqb) l acc).
Proof.
  revert acc. induction l as [|x l IH]; intros acc Hacc; simpl; [assumption|].
  apply IH. unfold Py.insert_key.
  destruct (Py.mem eqb x acc) eqn:E; [assumption|].
  apply mem_false in E.
  apply NoDup_app; [assumption | repeat constructor; simpl; tauto | ].
  intros y Hy [Hx|[]]. subst. contradiction.
Qed.

Lemma keys_of_In (l : list K) (k : K) : In k (Py.keys_of eqb l) <-> In k l.
Proof. unfold Py.keys_of. rewrite fold_insert_key_In. simpl. tauto. Qed.

Lemma keys_of_NoDup (l : list K) : NoDup (Py.keys_of eqb l).
Proof. apply fold_insert_key_NoDup. constructor. Qed.

Lemma fold_insert_key_id (l acc : list K) :
  NoDup (acc ++ l) -> fold_left (Py.insert_key eqb) l acc = acc ++ l.
Proof.
  revert acc. induction l as [|x l IH]; intros acc H; simpl.
  - rewrite app_nil_r. reflexivity.
  - assert (Hx : Py.mem eqb x acc = false).
    { apply mem_false. intro Hin.
      apply NoDup_remove_2 in H. apply H. apply in_or_app. left; assumption. }
    unfold Py.insert_key at 2. rewrite Hx.
    rewrite IH; rewrite <- app_assoc; simpl; auto.
Qed.

(** Inserting distinct keys leaves them in order. *)
Lemma keys_of_NoDup_id (l : list K) : NoDup l -> Py.keys_of eqb l = l.
Proof. intros H. unfold Py.keys_of. rewrite fold_insert_key_id; auto. Qed.

Context {V : Type}.

Lemma get_set_same (d : list (K * V)) (k : K) (v : V) :
  Py.get eqb (Py.set eqb d k v) k = Some v.
Proof.
  induction d as [|[k' v'] d IH]; simpl.
  - rewrite eqb_refl'. reflexivity.
  - destruct (eqb k k') eqn:E; simpl; rewrite E; auto.
Qed.

Lemma get_set_other (d : list (K * V)) (k k0 : K) (v : V) :
  k0 <> k -> Py.get eqb (Py.set eqb d k v) k0 = Py.get eqb d k0.
Proof.
  intros Hne. induction d as [|[k' v'] d IH]; simpl.
  - destruct (eqb k0 k) eqn:E; [apply eqb_spec in E; contradiction | reflexivity].
  - destruct (eqb k k') eqn:E; simpl.
    + apply eqb_spec in E. subst k'.
      destruct (eqb k0 k) eqn:E'; [apply eqb_spec in E'; contradiction | reflexivity].
    + destruct (eqb k0 k'); auto.
Qed.

Lemma fold_set_get (f : K -> V) (ks : list K) (d : list (K * V)) (k : K) :
  Py.get eqb (fold_left (fun d k => Py.set eqb d k (f k)) ks d) k
  = if Py.mem eqb k ks then Some (f k) else Py.get eqb d k.
Proof.
  revert d. induction ks as [|x ks IH]; intros d; simpl; [reflexivity|].
  rewrite IH. destruct (eqb k x) eqn:E; simpl.
  - apply eqb_spec in E. subst x.
    destruct (Py.mem eqb k ks); [reflexivity | apply get_set_same].
  - destruct (Py.mem eqb k ks); [reflexivity|].
    apply get_set_other. intro; subst. rewrite eqb_refl' in E. discriminate.
Qed.

(** Lookup in a dict comprehension. *)
Lemma get_comprehension (f : K -> V) (ks : list K) (k : K) :
  Py.get eqb (Py.comprehension eqb ks f) k
  = if Py.mem eqb k ks then Some (f k) else None.
Proof. unfold Py.comprehension. rewrite fold_set_get. reflexivity. Qed.

Lemma get_None (d : list (K * V)) (k : K) :
  Py.get eqb d k = None <-> ~ In k (map fst d).
Proof.
  induction d as [|[k' v'] d IH]; simpl; [tauto|].
  destruct (eqb k k') eqn:E.
  - apply eqb_spec in E. subst. split; [discriminate | intros H; exfalso; auto].
  - rewrite IH. split.
    + intros H [H1|H1]; [subst; rewrite eqb_refl' in E; discriminate | auto].
    + intros H H1. apply H. right; assumption.
Qed.

Lemma In_get_NoDup (d : list (K * V)) (k : K) (v : V) :
  NoDup (map fst d) -> In (k, v) d -> Py.get eqb d k = Some v.
Proof.
  induction d as [|[k' v'] d IH]; simpl; [tauto|].
  intros Hnd [H|H].
  - inversion H; subst. rewrite eqb_refl'. reflexivity.
  - inversion Hnd as [|? ? Hnotin Hnd']; subst.
    destruct (eqb k k') eqn:E.
    + apply eqb_spec in E. subst. exfalso. apply Hnotin.
      apply in_map_iff. exists (k', v). auto.
    + auto.
Qed.

Lemma update_Some (d : list (K * V)) (k : K) (upd : V -> V) :
  In k (map fst d) -> exists d', Py.update eqb d k upd = Some d' /\ map fst d' = map fst d.
Proof.
  induction d as [|[k' v'] d IH]; simpl; [tauto|].
  intros H. destruct (eqb k k') eqn:E.
  - eexists; split; reflexivity.
  - destruct H as [H|H]; [subst; rewrite eqb_refl' in E; discriminate|].
    destruct (IH H) as [d' [Hd' Hk]]. rewrite Hd'.
    eexists; split; [reflexivity|]. simpl. rewrite Hk. reflexivity.
Qed.

Lemma fold_set_keys (f : K -> V) (ks : list K) (d : list (K * V)) (k : K) :
  In k (map fst (fold_left (fun d k => Py.set eqb d k (f k)) ks d))
  <-> In k (map fst d) \/ In k ks.
Proof.
  revert d. induction ks as [|x ks IH]; intros d; simpl; [tauto|].
  rewrite IH.
  assert (Hset : forall y, In y (map fst (Py.set eqb d x (f x)))
                           <-> In y (map fst d) \/ y = x).
  { clear IH. induction d as [|[k' v'] d IHd]; intros y; simpl.
    - split; [intros [H|[]]; auto | intros [[]|H]; auto].
    - destruct (eqb x k') eqn:E; simpl.
      + apply eqb_spec in E. subst. split; [tauto|].
        intros [[H|H]|H]; subst; auto.
      + rewrite IHd. tauto. }
  rewrite Hset. split; intros H; intuition (subst; auto).
Qed.

Lemma comprehension_keys (f : K -> V) (ks : list K) (k : K) :
  In k (map fst (Py.comprehension eqb ks f)) <-> In k ks.
Proof. unfold Py.comprehension. rewrite fold_set_keys. simpl. tauto. Qed.
End DictFacts.

Lemma range_In (a b s : Z) : In s (Py.range a b) <-> a <= s < b.
Proof.
  unfold Py.range. rewrite in_map_iff. split.
  - intros [i [Hi Hin]]. apply in_seq in Hin. lia.
  - intros H. exists (Z.to_nat (s - a)). split; [lia|].
    apply in_seq. lia.
Qed.

Lemma range_NoDup (a b : Z) : NoDup (Py.range a b).
Proof.
  unfold Py.range. generalize (seq_NoDup (Z.to_nat (b - a)) 0).
  generalize (seq 0 (Z.to_nat (b - a))) as l.
  induction l as [|x l IH]; simpl; intros H; constructor.
  - inversion H; subst. rewrite in_map_iff. intros [y [Hy Hin]].
    assert (y = x) by lia. subst. contradiction.
  - inversion H; auto.
Qed.

Lemma is_empty_true {A : Type} (xs : list A) : Py.is_empty xs = true <-> xs = [].
Proof. destruct xs; simpl; split; congruence. Qed.

Lemma is_empty_map {A B : Type} (f : A -> B) (xs : list A) :
  Py.is_empty (map f xs) = Py.is_empty xs.
Proof. destruct xs; reflexivity. Qed.

(** ** Evaluation of expressions *)

Lemma den_one (c : Q) : Pos.eqb (Qden c) 1 = true -> c = inject_Z (Qnum c).
Proof.
  destruct c as [n d]. unfold Qden, Qnum, inject_Z. intros H.
  apply Pos.eqb_eq in H. subst. reflexivity.
Qed.

Lemma eval_integral (v : Var -> Z) :
  forall e, integral e = true -> (eval v e == inject_Z (evalZ v e))%Q.
Proof.
  fix IH 1. intros [x|c|es|c e|a b|a b]; cbn [integral eval evalZ]; intros H.
  - reflexivity.
  - rewrite (den_one c H) at 1. reflexivity.
  - induction es as [|e es IHes]; cbn [forallb fold_right] in *; [reflexivity|].
    apply andb_true_iff in H as [H1 H2].
    rewrite (IH e H1), (IHes H2), inject_Z_plus. reflexivity.
  - apply andb_true_iff in H as [H1 H2]. rewrite (IH e H2), inject_Z_mult.
    rewrite (den_one c H1) at 1. reflexivity.
  - apply andb_true_iff in H as [H1 H2].
    rewrite (IH a H1), (IH b H2), inject_Z_plus. reflexivity.
  - apply andb_true_iff in H as [H1 H2].
    rewrite (IH a H1), (IH b H2). unfold Z.sub, Qminus.
    rewrite inject_Z_plus, inject_Z_opp. reflexivity.
Qed.

(** A constraint over ints is an integer comparison. *)
Lemma holds_integral (v : Var -> Z) (c : Constraint) :
  integral (lhs c) = true -> integral (rhs c) = true ->
  holds v c ->
  match rel c with
  | Le => evalZ v (lhs c) <= evalZ v (rhs c)
  | Ge => evalZ v (rhs c) <= evalZ v (lhs c)
  | Eq => evalZ v (lhs c) = evalZ v (rhs c)
  end.
Proof.
  intros Hl Hr. unfold holds.
  destruct (rel c); rewrite (eval_integral v _ Hl), (eval_integral v _ Hr).
  - intros H. rewrite Zle_Qle; assumption.
  - intros H. rewrite Zle_Qle; assumption.
  - intros H. unfold Qeq in H. simpl in H. lia.
Qed.

Lemma integral_vars_where (al : list Key) (p : Key -> bool) :
  forallb integral (vars_where al p) = true.
Proof.
  unfold vars_where. induction (filter p al); simpl; auto.
Qed.

Lemma evalZ_vars_where (v : Var -> Z) (al : list Key) (p : Key -> bool) :
  evalZ v (ESum (vars_where al p)) = soma v (filter p al).
Proof.
  unfold vars_where. simpl. induction (filter p al); simpl; congruence.
Qed.

Lemma in_boundsb_sound (v : Var -> Z) (d : VarDecl) :
  in_boundsb v d = true -> in_bounds v d.
Proof. unfold in_boundsb, in_bounds. intros H. apply andb_true_iff in H. lia. Qed.

Lemma holdsb_sound (v : Var -> Z) (c : Constraint) : holdsb v c = true -> holds v c.
Proof.
  unfold holdsb, holds. destruct (rel c); intros H.
  - apply Qle_bool_iff; assumption.
  - apply Qle_bool_iff; assumption.
  - apply Qeq_bool_iff; assumption.
Qed.

(** The boolean check decides feasibility. *)
Lemma feasibleb_sound (v : Var -> Z) (m : Model) : feasibleb v m = true -> feasible v m.
Proof.
  unfold feasibleb, feasible. intros H. apply andb_true_iff in H as [H1 H2].
  rewrite forallb_forall in H1, H2. split; apply Forall_forall; intros x Hx.
  - apply in_boundsb_sound; auto.
  - apply holdsb_sound; auto.
Qed.

(** With values in [0..1], a sum of at least 1 has a variable at 1. *)
Lemma soma_pos_taken (v : Var -> Z) (ks : list Key) :
  (forall k, In k ks -> 0 <= v (alocacao_var k) <= 1) ->
  1 <= soma v ks -> exists k, In k ks /\ v (alocacao_var k) = 1.
Proof.
  induction ks as [|k ks IH]; simpl; intros Hb Hs; [lia|].
  destruct (Z.eq_dec (v (alocacao_var k)) 1) as [E|E].
  - exists k. auto.
  - assert (0 <= v (alocacao_var k) <= 1) by (apply Hb; auto).
    destruct IH as [k' [Hin Hk']]; [intros; apply Hb; auto | lia |].
    exists k'. auto.
Qed.

Lemma soma_nonneg (v : Var -> Z) (ks : list Key) :
  (forall k, In k ks -> 0 <= v (alocacao_var k) <= 1) -> 0 <= soma v ks.
Proof.
  induction ks as [|k ks IH]; simpl; intros Hb; [lia|].
  assert (0 <= v (alocacao_var k) <= 1) by (apply Hb; auto).
  assert (0 <= soma v ks) by (apply IH; intros; apply Hb; auto).
  lia.
Qed.

Lemma soma_ge_member (v : Var -> Z) (ks : list Key) (k : Key) :
  (forall k, In k ks -> 0 <= v (alocacao_var k) <= 1) ->
  In k ks -> v (alocacao_var k) <= soma v ks.
Proof.
  induction ks as [|k' ks IH]; simpl; intros Hb Hin; [tauto|].
  assert (0 <= v (alocacao_var k') <= 1) by (apply Hb; auto).
  assert (0 <= soma v ks) by (apply soma_nonneg; intros; apply Hb; auto).
  destruct Hin as [->|Hin]; [lia|].
  assert (v (alocacao_var k) <= soma v ks) by (apply IH; auto).
  lia.
Qed.

(** ** The services builder: variables and constraint groups *)

Section ServicesFacts.

Variable cfg : Services.OptimizerConfig.

Let a_cursar := Services._preparar_disciplinas_a_cursar cfg.
Let vs := Services._criar_variaveis_decisao cfg a_cursar.
Let al := Services.alocacao vs.

Lemma services_concluida_false (d : string) :
  Services.concluida cfg d = false <-> ~ In d (Services.disciplinas_concluidas_ids cfg).
Proof. apply mem_false. apply String.eqb_eq. Qed.

Lemma services_todas_In (d : string) :
  In d (Services.todas a_cursar)
  <-> In d (obrigatorias_ids (Services.dados cfg) ++ optativas_ids (Services.dados cfg))
      /\ ~ In d (Services.disciplinas_concluidas_ids cfg).
Proof.
  unfold a_cursar, Services._preparar_disciplinas_a_cursar. simpl.
  rewrite !in_app_iff, !filter_In, !negb_true_iff, !services_concluida_false.
  tauto.
Qed.

Lemma services_semestres_In (s : Z) :
  In s (Services.semestres cfg)
  <-> Services.semestre_inicio cfg <= s <= Services.num_semestres_total cfg.
Proof. unfold Services.semestres. rewrite range_In. lia. Qed.

(** The keys of [alocacao]. *)
Lemma services_alocacao_In (d : string) (s : Z) (t : string) :
  In (d, s, t) al
  <-> In d (Services.todas a_cursar)
      /\ In t (Py.get_default String.eqb
                 (turmas_por_disciplina (Services.dados cfg)) d [])
      /\ In s (Services.semestres cfg).
Proof.
  unfold al, vs, Services._criar_variaveis_decisao; simpl.
  unfold Services.criar_alocacao.
  rewrite (keys_of_In key_eqb key_eqb_eq).
  unfold Services.alocacao_insercoes. rewrite in_flat_map. split.
  - intros [d' [Hd' H]]. apply in_flat_map in H as [t' [Ht' H]].
    apply in_map_iff in H as [s' [E Hs']]. inversion E; subst. auto.
  - intros [Hd [Ht Hs]]. exists d. split; [assumption|].
    apply in_flat_map. exists t. split; [assumption|].
    apply in_map_iff. exists s. auto.
Qed.

Lemma services_alocacao_NoDup : NoDup al.
Proof. apply (keys_of_NoDup key_eqb key_eqb_eq). Qed.

(** A key of course [d] makes the list of [d]'s variables non-empty. *)
Lemma vars_where_nonempty (alocacao : list Key) (p : Key -> bool) (k : Key) :
  In k alocacao -> p k = true -> Py.is_empty (vars_where alocacao p) = false.
Proof.
  intros Hin Hp. unfold vars_where. rewrite is_empty_map.
  assert (H : In k (filter p alocacao)) by (apply filter_In; auto).
  destruct (filter p alocacao); [contradiction | reflexivity].
Qed.

Lemma do_curso_true (d : string) (k : Key) : do_curso d k = true <-> key_d k = d.
Proof. unfold do_curso. apply String.eqb_eq. Qed.

(** R1 as a whole: the constraints it adds and the warnings it logs. *)
Lemma services_obrigatorias_fold (obs : list string) (alocacao : list Key)
    (acc : list Constraint * list string) :
  fold_left
    (fun (acc : list Constraint * list string) d_id =>
       let vars_obrigatoria := vars_where alocacao (do_curso d_id) in
       if Py.is_empty vars_obrigatoria then (fst acc, snd acc ++ [d_id])
       else (fst acc ++ [ESum vars_obrigatoria ==' EInt 1], snd acc))
    obs acc
  = (fst acc
     ++ map (fun d_id => ESum (vars_where alocacao (do_curso d_id)) ==' EInt 1)
            (filter (fun d_id => negb (Py.is_empty (vars_where alocacao (do_curso d_id)))) obs),
     snd acc
     ++ filter (fun d_id => Py.is_empty (vars_where alocacao (do_curso d_id))) obs).
Proof.
  revert acc. induction obs as [|d obs IH]; intros [cs ws]; simpl.
  - rewrite !app_nil_r. reflexivity.
  - rewrite IH. destruct (Py.is_empty (vars_where alocacao (do_curso d))); simpl;
      rewrite <- ?app_assoc; reflexivity.
Qed.

Lemma services_obrigatorias_spec (obs : list string) (alocacao : list Key) :
  Services._adicionar_restricao_obrigatorias obs alocacao
  = (map (fun d_id => ESum (vars_where alocacao (do_curso d_id)) ==' EInt 1)
         (filter (fun d_id => negb (Py.is_empty (vars_where alocacao (do_curso d_id)))) obs),
     filter (fun d_id => Py.is_empty (vars_where alocacao (do_curso d_id))) obs).
Proof.
  unfold Services._adicionar_restricao_obrigatorias.
  rewrite services_obrigatorias_fold. reflexivity.
Qed.

Lemma services_obrigatorias_a_cursar_In (d : string) :
  In d (Services.obrigatorias a_cursar)
  <-> In d (obrigatorias_ids (Services.dados cfg)) /\ Services.concluida cfg d = false.
Proof.
  unfold a_cursar, Services._preparar_disciplinas_a_cursar; simpl.
  rewrite filter_In, negb_true_iff. tauto.
Qed.

Lemma services_optativas_a_cursar_In (d : string) :
  In d (Services.optativas a_cursar)
  <-> In d (optativas_ids (Services.dados cfg)) /\ Services.concluida cfg d = false.
Proof.
  unfold a_cursar, Services._preparar_disciplinas_a_cursar; simpl.
  rewrite filter_In, negb_true_iff. tauto.
Qed.

Lemma services_todas_split (d : string) :
  In d (Services.todas a_cursar)
  <-> In d (Services.obrigatorias a_cursar) \/ In d (Services.optativas a_cursar).
Proof.
  unfold a_cursar, Services._preparar_disciplinas_a_cursar; simpl.
  apply in_app_iff.
Qed.

Variable lower : string -> string.

Lemma services_constraints :
  constraints (Services.construir_modelo lower cfg)
  = Services.ligacoes vs
    ++ fst (Services._adicionar_restricao_obrigatorias (Services.obrigatorias a_cursar) al)
    ++ Services._adicionar_restricao_optativas (Services.optativas a_cursar) al
    ++ Services._adicionar_restricao_creditos_minimos cfg (Services.cursada_vars vs)
         (Services._calcular_creditos_minimos_restantes lower cfg)
    ++ Services._adicionar_restricao_prerequisitos cfg (Services.todas a_cursar)
         (Services.cursada_vars vs)
    ++ Services._adicionar_restricao_conflitos_horario cfg al
    ++ fst (Services._adicionar_restricao_limite_creditos cfg al)
    ++ Services._definir_funcao_objetivo cfg (Services.cursada_vars vs).
Proof. reflexivity. Qed.

(** The linking constraint of a course of [todas]. *)
Lemma services_ligacao_In (d : string) :
  In d (Services.todas a_cursar) ->
  In (Services.ligacao cfg al d) (constraints (Services.construir_modelo lower cfg)).
Proof.
  intros Hd. rewrite services_constraints. apply in_or_app. left.
  unfold vs at 1, Services._criar_variaveis_decisao; simpl.
  apply in_map_iff. exists d. auto.
Qed.

(** No group other than R1 adds an equality whose left side is a sum. *)
Lemma services_sem_cobertura_vazia :
  ~ In cobertura_vazia
      (Services.ligacoes vs
       ++ Services._adicionar_restricao_optativas (Services.optativas a_cursar) al
       ++ Services._adicionar_restricao_creditos_minimos cfg (Services.cursada_vars vs)
            (Services._calcular_creditos_minimos_restantes lower cfg)
       ++ Services._adicionar_restricao_prerequisitos cfg (Services.todas a_cursar)
            (Services.cursada_vars vs)
       ++ Services._adicionar_restricao_conflitos_horario cfg al
       ++ fst (Services._adicionar_restricao_limite_creditos cfg al)
       ++ Services._definir_funcao_objetivo cfg (Services.cursada_vars vs)).
Proof.
  unfold cobertura_vazia. rewrite !in_app_iff.
  intros [H|[H|[H|[H|[H|[H|H]]]]]].
  - unfold vs, Services._criar_variaveis_decisao in H; simpl in H.
    apply in_map_iff in H as [d [E _]]. unfold Services.ligacao in E.
    destruct (Py.is_empty _); discriminate.
  - unfold Services._adicionar_restricao_optativas in H.
    apply in_flat_map in H as [d [_ H]].
    destruct (Py.is_empty _); simpl in H; [tauto|].
    destruct H as [H|[]]; discriminate.
  - unfold Services._adicionar_restricao_creditos_minimos in H.
    rewrite !in_app_iff in H.
    assert (Hcat : forall ids m,
               ~ In (ESum [] ==' EInt 1)
                    (Services.restricao_creditos_categoria cfg (Services.cursada_vars vs) ids m)).
    { intros ids m Hin. unfold Services.restricao_creditos_categoria in Hin.
      destruct (Py.is_empty ids); simpl in Hin; [tauto|].
      destruct (Py.is_empty _); simpl in Hin; [tauto|].
      destruct Hin as [Hin|[]]; discriminate. }
    destruct H as [H|[H|H]]; eapply Hcat; eassumption.
  - unfold Services._adicionar_restricao_prerequisitos in H.
    apply in_flat_map in H as [d [_ H]].
    destruct (Py.get String.eqb _ d); simpl in H; [|tauto].
    apply in_flat_map in H as [p [_ H]].
    destruct (Services.concluida cfg p); simpl in H; [tauto|].
    destruct (Py.mem String.eqb p _); simpl in H; [|tauto].
    destruct (Py.get String.eqb _ p); simpl in H; [|tauto].
    destruct (Py.get String.eqb _ d); simpl in H; [|tauto].
    destruct H as [H|[H|[]]]; discriminate.
  - unfold Services._adicionar_restricao_conflitos_horario in H.
    apply in_flat_map in H as [s [_ H]].
    apply in_flat_map in H as [e [_ H]].
    destruct (1 <? _); simpl in H; [|tauto].
    destruct H as [H|[]]; discriminate.
  - unfold Services._adicionar_restricao_limite_creditos in H; simpl in H.
    apply in_map_iff in H as [s [E _]]. discriminate.
  - unfold Services._definir_funcao_objetivo in H.
    apply in_map_iff in H as [e [E _]]. discriminate.
Qed.

End ServicesFacts.

(** ** The backend builder: variables and constraint groups *)

Section BackendFacts.

Variable dados : DadosDisciplinas.
Variable creditos_minimos : CreditosMinimos.
Variable NUM_SEMESTRES : Z.
Variable CREDITOS_MAXIMOS_POR_SEMESTRE : Z.
Variable disciplinas_cursadas : list string.

Let al := Backend.alocacao dados NUM_SEMESTRES disciplinas_cursadas.

Lemma backend_cursada_false (d : string) :
  Backend.cursada disciplinas_cursadas d = false <-> ~ In d disciplinas_cursadas.
Proof. apply mem_false. apply String.eqb_eq. Qed.

Lemma backend_a_cursar_In (d : string) (info : Disciplina) :
  In (d, info) (Backend.a_cursar dados disciplinas_cursadas)
  <-> In (d, info) (disciplinas dados) /\ ~ In d disciplinas_cursadas.
Proof.
  unfold Backend.a_cursar. rewrite filter_In, negb_true_iff; simpl.
  rewrite backend_cursada_false. tauto.
Qed.

Lemma backend_semestres_In (s : Z) :
  In s (Backend.semestres NUM_SEMESTRES) <-> 1 <= s <= NUM_SEMESTRES.
Proof. unfold Backend.semestres. rewrite range_In. lia. Qed.

(** The keys of [alocacao]. *)
Lemma backend_alocacao_In (d : string) (s : Z) (t : string) :
  In (d, s, t) al
  <-> (exists info, In (d, info) (disciplinas dados))
      /\ ~ In d disciplinas_cursadas
      /\ In t (Py.get_default String.eqb (turmas_por_disciplina dados) d [])
      /\ 1 <= s <= NUM_SEMESTRES
      /\ Backend.oferta_no_semestre dados d s = true.
Proof.
  unfold al, Backend.alocacao. rewrite (keys_of_In key_eqb key_eqb_eq).
  unfold Backend.alocacao_insercoes. rewrite in_flat_map. split.
  - intros [[d' info] [Hd' H]]. simpl in H.
    apply in_flat_map in H as [t' [Ht' H]].
    apply in_map_iff in H as [s' [E Hs']]. inversion E; subst.
    apply filter_In in Hs' as [Hs' Hof].
    apply backend_a_cursar_In in Hd' as [Hd1 Hd2].
    apply backend_semestres_In in Hs'.
    repeat split; try tauto; try lia. exists info; assumption.
  - intros [[info Hd] [Hc [Ht [Hs Hof]]]]. exists (d, info). split.
    + apply backend_a_cursar_In. auto.
    + simpl. apply in_flat_map. exists t. split; [assumption|].
      apply in_map_iff. exists s. split; [reflexivity|].
      apply filter_In. split; [apply backend_semestres_In; lia | assumption].
Qed.

Lemma backend_alocacao_NoDup : NoDup al.
Proof. apply (keys_of_NoDup key_eqb key_eqb_eq). Qed.

Lemma backend_constraints (m : Model) :
  Backend.construir_modelo dados creditos_minimos NUM_SEMESTRES
    CREDITOS_MAXIMOS_POR_SEMESTRE disciplinas_cursadas = Return m ->
  exists r3,
    Backend.r3_creditos_minimos dados creditos_minimos NUM_SEMESTRES disciplinas_cursadas
    = Return r3
    /\ variables m = Backend.declaradas dados NUM_SEMESTRES disciplinas_cursadas
    /\ constraints m
       = Backend.r1_obrigatorias dados NUM_SEMESTRES disciplinas_cursadas
         ++ Backend.r1_optativas dados NUM_SEMESTRES disciplinas_cursadas
         ++ Backend.r2_ligacao dados NUM_SEMESTRES disciplinas_cursadas
         ++ r3
         ++ Backend.r4_prerequisitos dados NUM_SEMESTRES disciplinas_cursadas
         ++ Backend.r5_conflitos dados NUM_SEMESTRES disciplinas_cursadas
         ++ Backend.r6_limite_creditos dados NUM_SEMESTRES
              CREDITOS_MAXIMOS_POR_SEMESTRE disciplinas_cursadas
         ++ Backend.r7_estagio dados NUM_SEMESTRES disciplinas_cursadas
         ++ Backend.objetivo dados NUM_SEMESTRES disciplinas_cursadas.
Proof.
  unfold Backend.construir_modelo.
  destruct (Backend.r3_creditos_minimos _ _ _ _) as [r3|e]; simpl; [|discriminate].
  intros [= <-]. exists r3. auto.
Qed.

(** The coverage constraint of R1.1 is added for every required course
    that is not completed, whatever its variables. *)
Lemma backend_r1_In (d : string) :
  In d (obrigatorias_ids dados) -> ~ In d disciplinas_cursadas ->
  In (ESum (vars_where al (do_curso d)) ==' EInt 1)
     (Backend.r1_obrigatorias dados NUM_SEMESTRES disciplinas_cursadas).
Proof.
  intros Hd Hc. unfold Backend.r1_obrigatorias. apply in_flat_map.
  exists d. split; [assumption|].
  apply backend_cursada_false in Hc. rewrite Hc. left; reflexivity.
Qed.

(** The linking constraint of R2, with the dummy term [NUM_SEMESTRES + 1]. *)
Lemma backend_r2_In (d : string) (info : Disciplina) :
  In (d, info) (disciplinas dados) -> ~ In d disciplinas_cursadas ->
  In (EVar (semestre_var d) ==' 
        EAdd (ESum (Backend.termos_semestre dados NUM_SEMESTRES disciplinas_cursadas d))
             (EMul (inject_Z (NUM_SEMESTRES + 1))
                   (ESub (EInt 1) (ESum (vars_where al (do_curso d))))))
     (Backend.r2_ligacao dados NUM_SEMESTRES disciplinas_cursadas).
Proof.
  intros Hd Hc. unfold Backend.r2_ligacao. apply in_map_iff.
  exists (d, info). split; [reflexivity|]. apply backend_a_cursar_In. auto.
Qed.

End BackendFacts.

(** ** C1: the linking constraint *)

(** In the backend model of a catalog with a free elective [E] that is not
    taken, the completion term of [E] is 3 at two terms: the model is
    satisfied, and the linking equation with the dummy term [2 + 2] is
    not. *)
Lemma C1_counterexample :
  In ("E"%string, 1, "TE"%string) (Backend.alocacao Exemplos.dados_XE 2 [])
  /\ feasible Exemplos.sol_XE
       (modelo_de (Backend.construir_modelo Exemplos.dados_XE (mkMinimos 0 0 0) 2 32 []))
  /\ ~ holds Exemplos.sol_XE
         (EVar (semestre_var "E") ==' 
            EAdd (ESum (Backend.termos_semestre Exemplos.dados_XE 2 [] "E"))
                 (EMul (inject_Z (2 + 2))
                       (ESub (EInt 1)
                             (ESum (vars_where (Backend.alocacao Exemplos.dados_XE 2 [])
                                               (do_curso "E")))))).
Proof.
  split; [vm_compute; auto|]. split; [apply feasibleb_sound; vm_compute; reflexivity|].
  unfold holds. vm_compute. intros H. discriminate H.
Qed.

(** C1 (amended). Every course that has an assignment variable (only
    courses that are not completed have one) comes with the linking
    constraint
    [semestre[d] == Sum(s * alocacao[d,s,t]) + (1 - cursada[d]) * dummy],
    where [cursada[d]] is the sum of the assignment variables of [d], which
    are exactly the variables stored under the keys of course [d]; [dummy]
    is [num_semestres_total + 2] in the model of the services builder and
    [NUM_SEMESTRES + 1] in the model of the backend builder. *)
Theorem C1_linking_constraint (lower : string -> string)
    (cfg : Services.OptimizerConfig) (d : string) (s : Z) (t : string)
    (dados : DadosDisciplinas) (creditos_minimos : CreditosMinimos)
    (NUM_SEMESTRES CREDITOS_MAXIMOS : Z) (disciplinas_cursadas : list string)
    (m : Model) (d' : string) (s' : Z) (t' : string) :
  (In (d, s, t) (Services.alocacao_do_modelo cfg) ->
   ~ In d (Services.disciplinas_concluidas_ids cfg)
   /\ In (EVar (semestre_var d) ==' 
            EAdd (ESum (map (fun k => EMul (inject_Z (key_s k)) (EVar (alocacao_var k)))
                            (filter (do_curso d) (Services.alocacao_do_modelo cfg))))
                 (EMul (inject_Z (Services.num_semestres_total cfg + 2))
                       (ESub (EInt 1)
                             (ESum (vars_where (Services.alocacao_do_modelo cfg)
                                               (do_curso d))))))
         (constraints (Services.construir_modelo lower cfg))
   /\ (forall k, In (EVar (alocacao_var k))
                    (vars_where (Services.alocacao_do_modelo cfg) (do_curso d))
                 <-> In k (Services.alocacao_do_modelo cfg) /\ key_d k = d))
  /\ (Backend.construir_modelo dados creditos_minimos NUM_SEMESTRES CREDITOS_MAXIMOS
        disciplinas_cursadas = Return m ->
      In (d', s', t') (Backend.alocacao dados NUM_SEMESTRES disciplinas_cursadas) ->
      ~ In d' disciplinas_cursadas
      /\ In (EVar (semestre_var d') ==' 
               EAdd (ESum (map (fun k => EMul (inject_Z (key_s k)) (EVar (alocacao_var k)))
                               (filter (do_curso d')
                                  (Backend.alocacao dados NUM_SEMESTRES
                                     disciplinas_cursadas))))
                    (EMul (inject_Z (NUM_SEMESTRES + 1))
                          (ESub (EInt 1)
                                (ESum (vars_where
                                         (Backend.alocacao dados NUM_SEMESTRES
                                            disciplinas_cursadas)
                                         (do_curso d'))))))
            (constraints m)).
Proof.
  split.
  - intros Hk. pose proof Hk as Hk'.
    apply services_alocacao_In in Hk' as [Hd _].
    split; [| split].
    + destruct (proj1 (services_todas_In cfg d) Hd) as [_ H]. exact H.
    + pose proof (services_ligacao_In cfg lower d Hd) as H.
      unfold Services.ligacao in H.
      fold (Services.alocacao_do_modelo cfg) in H.
      rewrite (vars_where_nonempty _ (do_curso d) (d, s, t) Hk) in H.
      * exact H.
      * apply do_curso_true. reflexivity.
    + intros k. unfold vars_where. rewrite in_map_iff. split.
      * intros [k' [E Hin]]. inversion E; subst.
        apply filter_In in Hin as [Hin Hp]. apply do_curso_true in Hp. auto.
      * intros [Hin E]. exists k. split; [reflexivity|].
        apply filter_In. split; [assumption | apply do_curso_true; assumption].
  - intros Hm Hk.
    apply backend_alocacao_In in Hk as ([info Hd] & Hc & _).
    split; [exact Hc|].
    destruct (backend_constraints _ _ _ _ _ _ Hm) as [r3 [_ [_ Hcs]]].
    rewrite Hcs. do 2 (apply in_or_app; right). apply in_or_app. left.
    exact (backend_r2_In dados NUM_SEMESTRES disciplinas_cursadas d' info Hd Hc).
Qed.

Lemma C1_linking_constraint_witness :
  In (EVar (semestre_var "X") ==' 
        EAdd (ESum (map (fun k => EMul (inject_Z (key_s k)) (EVar (alocacao_var k)))
                        (filter (do_curso "X") (Services.alocacao_do_modelo Exemplos.cfg_XY))))
             (EMul (inject_Z (Services.num_semestres_total Exemplos.cfg_XY + 2))
                   (ESub (EInt 1)
                         (ESum (vars_where (Services.alocacao_do_modelo Exemplos.cfg_XY)
                                           (do_curso "X"))))))
     (constraints (Services.construir_modelo Exemplos.lower_ascii Exemplos.cfg_XY))
  /\ In (EVar (semestre_var "E") ==' 
           EAdd (ESum (map (fun k => EMul (inject_Z (key_s k)) (EVar (alocacao_var k)))
                           (filter (do_curso "E") (Backend.alocacao Exemplos.dados_XE 2 []))))
                (EMul (inject_Z (2 + 1))
                      (ESub (EInt 1)
                            (ESum (vars_where (Backend.alocacao Exemplos.dados_XE 2 [])
                                              (do_curso "E"))))))
        (constraints (modelo_de (Backend.construir_modelo Exemplos.dados_XE
                                   (mkMinimos 0 0 0) 2 32 []))).
Proof.
  destruct (C1_linking_constraint Exemplos.lower_ascii Exemplos.cfg_XY "X" 1 "TX"
              Exemplos.dados_XE (mkMinimos 0 0 0) 2 32 []
              (modelo_de (Backend.construir_modelo Exemplos.dados_XE
                            (mkMinimos 0 0 0) 2 32 []))
              "E" 1 "TE") as [Hs Hb].
  split.
  - apply Hs. vm_compute. auto.
  - apply Hb; [vm_compute; reflexivity | vm_compute; auto].
Defined.

(** ** C2: which assignment variables exist *)

(** The keys of [alocacao] in the two builders. The services builder
    creates [alocacao[(d, s, t)]] exactly when [d] is a required or elective
    course that is not completed, [t] is one of its sections and [s] lies in
    [semestre_inicio .. num_semestres_total]. The backend builder creates it
    exactly when [d] is a course of the catalog that is not completed, [t] is
    one of its sections, [s] lies in [1 .. NUM_SEMESTRES] and the parity of
    [s] is among the valid periods of the course (both parities when none is
    recorded). *)
Lemma alocacao_keys (cfg : Services.OptimizerConfig)
    (dados : DadosDisciplinas) (NUM_SEMESTRES : Z) (disciplinas_cursadas : list string)
    (d : string) (s : Z) (t : string) :
  (In (d, s, t) (Services.alocacao_do_modelo cfg)
   <-> In d (obrigatorias_ids (Services.dados cfg) ++ optativas_ids (Services.dados cfg))
       /\ ~ In d (Services.disciplinas_concluidas_ids cfg)
       /\ In t (Py.get_default String.eqb
                  (turmas_por_disciplina (Services.dados cfg)) d [])
       /\ Services.semestre_inicio cfg <= s <= Services.num_semestres_total cfg)
  /\ (In (d, s, t) (Backend.alocacao dados NUM_SEMESTRES disciplinas_cursadas)
      <-> (exists info, In (d, info) (disciplinas dados))
          /\ ~ In d disciplinas_cursadas
          /\ In t (Py.get_default String.eqb (turmas_por_disciplina dados) d [])
          /\ 1 <= s <= NUM_SEMESTRES
          /\ Backend.oferta_no_semestre dados d s = true).
Proof.
  split.
  - unfold Services.alocacao_do_modelo.
    rewrite services_alocacao_In, services_todas_In, services_semestres_In. tauto.
  - apply backend_alocacao_In.
Qed.

(** C2. The services builder applies no parity test: for the course [X],
    whose sections are offered in odd terms only, it creates the variable of
    term 2; the backend builder, given the same catalog, does not. *)
Theorem C2_services_ignores_parity :
  Backend.oferta_no_semestre Exemplos.dados_XY "X" 2 = false
  /\ In ("X"%string, 2, "TX"%string) (Services.alocacao_do_modelo Exemplos.cfg_XY)
  /\ ~ In ("X"%string, 2, "TX"%string) (Backend.alocacao Exemplos.dados_XY 2 []).
Proof.
  split; [reflexivity|]. split; [vm_compute; auto|].
  vm_compute. intros [H|[H|[]]]; discriminate H.
Qed.

(** ** C5: coverage of the required courses *)

(** A required course without sections: the services model has no
    coverage constraint for it. *)
Lemma C5_counterexample :
  In "X"%string (obrigatorias_ids (Services.dados Exemplos.cfg_sem_oferta))
  /\ ~ In "X"%string (Services.disciplinas_concluidas_ids Exemplos.cfg_sem_oferta)
  /\ ~ In (ESum (vars_where (Services.alocacao_do_modelo Exemplos.cfg_sem_oferta)
                            (do_curso "X"))
           ==' EInt 1)
          (constraints (Services.construir_modelo Exemplos.lower_ascii
                          Exemplos.cfg_sem_oferta)).
Proof.
  split; [vm_compute; auto|]. split; [vm_compute; tauto|].
  vm_compute. intros [H|[H|[H|[H|[]]]]]; discriminate.
Qed.

(** C5 (amended). For a required course that is not completed: when it has
    an assignment variable, both builders add the coverage constraint
    [Sum(alocacao[d,*,*]) == 1]. When it has none, the services builder logs
    a warning for it and adds no coverage constraint, and the backend builder
    adds the coverage constraint over the empty sum, which no solution
    satisfies, without logging anything. *)
Theorem C5_required_coverage (lower : string -> string)
    (cfg : Services.OptimizerConfig) (d : string)
    (dados : DadosDisciplinas) (creditos_minimos : CreditosMinimos)
    (NUM_SEMESTRES CREDITOS_MAXIMOS : Z) (disciplinas_cursadas : list string)
    (d' : string) (m : Model) :
  In d (obrigatorias_ids (Services.dados cfg)) ->
  ~ In d (Services.disciplinas_concluidas_ids cfg) ->
  In d' (obrigatorias_ids dados) ->
  ~ In d' disciplinas_cursadas ->
  Backend.construir_modelo dados creditos_minimos NUM_SEMESTRES CREDITOS_MAXIMOS
    disciplinas_cursadas = Return m ->
  (vars_where (Services.alocacao_do_modelo cfg) (do_curso d) <> [] ->
   In (ESum (vars_where (Services.alocacao_do_modelo cfg) (do_curso d)) ==' EInt 1)
      (constraints (Services.construir_modelo lower cfg)))
  /\ (vars_where (Services.alocacao_do_modelo cfg) (do_curso d) = [] ->
      In d (snd (Services._adicionar_restricao_obrigatorias
                   (Services.obrigatorias (Services._preparar_disciplinas_a_cursar cfg))
                   (Services.alocacao_do_modelo cfg)))
      /\ ~ In cobertura_vazia (constraints (Services.construir_modelo lower cfg)))
  /\ In (ESum (vars_where (Backend.alocacao dados NUM_SEMESTRES disciplinas_cursadas)
                          (do_curso d'))
         ==' EInt 1)
        (constraints m)
  /\ (vars_where (Backend.alocacao dados NUM_SEMESTRES disciplinas_cursadas)
                 (do_curso d') = [] ->
      forall v, ~ feasible v m).
Proof.
  intros Hd Hc Hd' Hc' Hm.
  assert (Hob : In d (Services.obrigatorias (Services._preparar_disciplinas_a_cursar cfg))).
  { apply (proj2 (services_obrigatorias_a_cursar_In cfg d)). split; [assumption|].
    apply (proj2 (services_concluida_false cfg d)); assumption. }
  assert (Hback : In (ESum (vars_where (Backend.alocacao dados NUM_SEMESTRES
                                          disciplinas_cursadas) (do_curso d'))
                      ==' EInt 1) (constraints m)).
  { apply backend_constraints in Hm as [r3 [_ [_ Hcs]]]. rewrite Hcs.
    apply in_or_app. left. apply backend_r1_In; assumption. }
  split; [| split; [| split]].
  - intros Hne. rewrite services_constraints. apply in_or_app. right.
    apply in_or_app. left. rewrite services_obrigatorias_spec. cbn [fst snd].
    apply in_map_iff. exists d. split; [reflexivity|].
    apply filter_In. split; [assumption|].
    apply negb_true_iff. unfold Services.alocacao_do_modelo in Hne.
    revert Hne. destruct (vars_where _ (do_curso d)); [congruence | reflexivity].
  - intros He. split.
    + rewrite services_obrigatorias_spec. cbn [fst snd].
      apply filter_In. split; [assumption|].
      unfold Services.alocacao_do_modelo in He. apply is_empty_true. exact He.
    + rewrite services_constraints. intros Hin.
      apply in_app_or in Hin as [Hin|Hin].
      * apply (services_sem_cobertura_vazia cfg lower). apply in_or_app. left. exact Hin.
      * apply in_app_or in Hin as [Hin|Hin].
        -- rewrite services_obrigatorias_spec in Hin. cbn [fst snd] in Hin.
           apply in_map_iff in Hin as [x [E Hx]].
           apply filter_In in Hx as [_ Hx]. apply negb_true_iff in Hx.
           pose proof (f_equal (fun c => match lhs c with
                                         | ESum l => Py.is_empty l
                                         | _ => false
                                         end) E) as E'.
           cbv beta in E'. cbn [lhs cobertura_vazia Py.is_empty] in E'.
           rewrite Hx in E'. discriminate.
        -- apply (services_sem_cobertura_vazia cfg lower). apply in_or_app. right. exact Hin.
  - exact Hback.
  - intros He v [_ Hf]. rewrite He in Hback.
    rewrite Forall_forall in Hf. apply Hf in Hback.
    unfold holds in Hback. simpl in Hback. discriminate.
Qed.

Lemma C5_required_coverage_witness :
  exists m,
    Backend.construir_modelo Exemplos.dados_XY (mkMinimos 0 0 0) 2 32 [] = Return m
    /\ In (ESum (vars_where (Services.alocacao_do_modelo Exemplos.cfg_XY) (do_curso "X"))
           ==' EInt 1)
          (constraints (Services.construir_modelo Exemplos.lower_ascii Exemplos.cfg_XY))
    /\ In (ESum (vars_where (Backend.alocacao Exemplos.dados_XY 2 []) (do_curso "X"))
           ==' EInt 1)
          (constraints m).
Proof.
  eexists. split; [vm_compute; reflexivity|].
  assert (H1 : In "X"%string (obrigatorias_ids (Services.dados Exemplos.cfg_XY)))
    by (vm_compute; auto).
  assert (H2 : ~ In "X"%string (Services.disciplinas_concluidas_ids Exemplos.cfg_XY))
    by (vm_compute; tauto).
  assert (H3 : In "X"%string (obrigatorias_ids Exemplos.dados_XY)) by (vm_compute; auto).
  assert (H4 : ~ In "X"%string (@nil string)) by (simpl; tauto).
  destruct (C5_required_coverage Exemplos.lower_ascii Exemplos.cfg_XY "X"
              Exemplos.dados_XY (mkMinimos 0 0 0) 2 32 [] "X" _ H1 H2 H3 H4 eq_refl)
    as [Hs [_ [Hb _]]].
  split; [apply Hs; vm_compute; discriminate | exact Hb].
Defined.

(** ** C7, C9, C10: decoding the solver result *)

Lemma sem_solucao_eqb (st : ResultStatus) :
  st <> OPTIMAL -> st <> FEASIBLE ->
  status_eqb st OPTIMAL || status_eqb st FEASIBLE = false.
Proof. destruct st; simpl; congruence. Qed.

(** C7. When the status is neither OPTIMAL nor FEASIBLE the services decoder
    returns a result with an empty [grade], an empty [creditos_por_semestre],
    that status and no objective value; the backend returns the tuple
    [(None, None, status, None, None)]: no schedule, the status, no
    objective value. *)
Theorem C7_no_solution_result (cfg : Services.OptimizerConfig) (sol : SolveResult)
    (alocacao : list Key) (tempo : Q)
    (dados : DadosDisciplinas) (creditos_minimos : CreditosMinimos)
    (NUM_SEMESTRES CREDITOS_MAXIMOS : Z) (disciplinas_cursadas : list string)
    (solve : Model -> SolveResult) (m : Model) :
  solve_status sol <> OPTIMAL ->
  solve_status sol <> FEASIBLE ->
  Backend.construir_modelo dados creditos_minimos NUM_SEMESTRES CREDITOS_MAXIMOS
    disciplinas_cursadas = Return m ->
  solve m = sol ->
  Services._processar_resultados cfg sol alocacao tempo
  = Return (Services.mkResultado [] [] (solve_status sol) None tempo)
  /\ Backend.resolver_grade dados creditos_minimos NUM_SEMESTRES CREDITOS_MAXIMOS
       disciplinas_cursadas true solve
     = Return [Backend.PyNone; Backend.PyNone;
               Backend.PyInt (Backend.status_code (solve_status sol));
               Backend.PyNone; Backend.PyNone].
Proof.
  intros H1 H2 Hm Hs. split.
  - unfold Services._processar_resultados.
    rewrite (sem_solucao_eqb _ H1 H2). reflexivity.
  - unfold Backend.resolver_grade. simpl. rewrite Hm. simpl. rewrite Hs.
    rewrite (sem_solucao_eqb _ H1 H2). reflexivity.
Qed.

Lemma C7_no_solution_result_witness :
  exists m,
    Services._processar_resultados Exemplos.cfg_XY
      (mkSolveResult INFEASIBLE Exemplos.sol_XY 0)
      (Services.alocacao_do_modelo Exemplos.cfg_XY) 0
    = Return (Services.mkResultado [] [] INFEASIBLE None 0)
    /\ Backend.construir_modelo Exemplos.dados_XY (mkMinimos 0 0 0) 2 32 [] = Return m
    /\ Backend.resolver_grade Exemplos.dados_XY (mkMinimos 0 0 0) 2 32 [] true
         (fun _ => mkSolveResult INFEASIBLE Exemplos.sol_XY 0)
       = Return [Backend.PyNone; Backend.PyNone; Backend.PyInt 2;
                 Backend.PyNone; Backend.PyNone].
Proof.
  eexists.
  assert (Hm : Backend.construir_modelo Exemplos.dados_XY (mkMinimos 0 0 0) 2 32 []
               = Return _) by (vm_compute; reflexivity).
  destruct (C7_no_solution_result Exemplos.cfg_XY
              (mkSolveResult INFEASIBLE Exemplos.sol_XY 0)
              (Services.alocacao_do_modelo Exemplos.cfg_XY) 0
              Exemplos.dados_XY (mkMinimos 0 0 0) 2 32 []
              (fun _ => mkSolveResult INFEASIBLE Exemplos.sol_XY 0) _
              ltac:(simpl; discriminate) ltac:(simpl; discriminate) Hm eq_refl)
    as [Hs Hb].
  split; [exact Hs | split; [exact Hm | exact Hb]].
Defined.

(** Two comprehensions over the same keys have the same key list. *)
Lemma set_same_keys {A B : Type} (d : list (Z * A)) (d' : list (Z * B))
    (k : Z) (a : A) (b : B) :
  map fst d = map fst d' ->
  map fst (Py.set Z.eqb d k a) = map fst (Py.set Z.eqb d' k b).
Proof.
  revert d'. induction d as [|[k1 v1] d IHd]; intros [|[k2 v2] d'] H;
    simpl in *; try discriminate; [reflexivity|].
  injection H as -> H. destruct (k =? k2); simpl; [congruence|].
  f_equal. apply IHd. exact H.
Qed.

Lemma comprehension_same_keys {A B : Type} (ks : list Z) (f : Z -> A) (g : Z -> B) :
  map fst (Py.comprehension Z.eqb ks f) = map fst (Py.comprehension Z.eqb ks g).
Proof.
  unfold Py.comprehension.
  assert (H : map fst (@nil (Z * A)) = map fst (@nil (Z * B))) by reflexivity.
  revert H. generalize (@nil (Z * A)) (@nil (Z * B)).
  induction ks as [|k ks IH]; intros d d' H; simpl; [exact H|].
  apply IH. apply set_same_keys. exact H.
Qed.

(** The loop of the services decoder never raises when every key of
    [alocacao] has its term among the keys of [grade] and of
    [creditos_por_semestre], and it keeps the keys of both dicts. *)
Lemma services_processar_alocacao_ok (cfg : Services.OptimizerConfig) (sol : SolveResult)
    (alocacao : list Key) :
  forall (grade0 : list (Z * list Services.DisciplinaAlocada)) (creditos0 : list (Z * Z))
         (avisos0 : list string),
    (forall k, In k alocacao -> In (key_s k) (map fst grade0)) ->
    map fst creditos0 = map fst grade0 ->
    exists grade1 creditos1 avisos1,
      fold_left
        (fun acc k =>
           st <- acc ;;
           let '(grade, creditos_por_semestre, avisos) := st in
           if chosen (solution_value sol) (alocacao_var k) then
             match Py.get String.eqb (disciplinas (Services.dados cfg)) (key_d k) with
             | None => Return (grade, creditos_por_semestre, avisos ++ [key_d k])
             | Some disc =>
                 let disciplina_alocada :=
                   Services.mkAlocada (nome disc) (key_t k)
                     (Py.get_default String.eqb
                        (horarios_por_turma (Services.dados cfg)) (key_t k) [])
                     (creditos disc) in
                 grade' <- of_option KeyError
                             (Py.update Z.eqb grade (key_s k)
                                (fun g => g ++ [disciplina_alocada])) ;;
                 creditos' <- of_option KeyError
                                (Py.update Z.eqb creditos_por_semestre (key_s k)
                                   (fun c => c + creditos disc)) ;;
                 Return (grade', creditos', avisos)
             end
           else Return st)
        alocacao (Return (grade0, creditos0, avisos0))
      = Return (grade1, creditos1, avisos1)
      /\ map fst grade1 = map fst grade0.
Proof.
  induction alocacao as [|k ks IH]; intros g0 c0 w0 Hk Hc; simpl.
  - exists g0, c0, w0. auto.
  - destruct (chosen (solution_value sol) (alocacao_var k)).
    + destruct (Py.get String.eqb (disciplinas (Services.dados cfg)) (key_d k)) as [disc|].
      * assert (Hin : In (key_s k) (map fst g0)) by (apply Hk; left; reflexivity).
        destruct (update_Some Z.eqb Z.eqb_eq g0 (key_s k)
                    (fun g => g ++ [Services.mkAlocada (nome disc) (key_t k)
                       (Py.get_default String.eqb
                          (horarios_por_turma (Services.dados cfg)) (key_t k) [])
                       (creditos disc)]) Hin) as [g1 [Hg1 Hk1]].
        rewrite <- Hc in Hin.
        destruct (update_Some Z.eqb Z.eqb_eq c0 (key_s k)
                    (fun c => c + creditos disc) Hin) as [c1 [Hc1 Hk2]].
        rewrite Hg1, Hc1. simpl.
        destruct (IH g1 c1 w0) as [g [c [w [Hf Hkeys]]]].
        -- intros k' Hk'. rewrite Hk1. apply Hk. right; exact Hk'.
        -- congruence.
        -- exists g, c, w. split; [exact Hf | congruence].
      * apply IH; [intros k' Hk'; apply Hk; right; exact Hk' | assumption].
    + apply IH; [intros k' Hk'; apply Hk; right; exact Hk' | assumption].
Qed.

Lemma services_processar_alocacao_total (cfg : Services.OptimizerConfig)
    (sol : SolveResult) (alocacao : list Key)
    (grade0 : list (Z * list Services.DisciplinaAlocada)) (creditos0 : list (Z * Z)) :
  (forall k, In k alocacao -> In (key_s k) (map fst grade0)) ->
  map fst creditos0 = map fst grade0 ->
  exists grade1 creditos1 avisos1,
    Services.processar_alocacao cfg sol alocacao grade0 creditos0
    = Return (grade1, creditos1, avisos1)
    /\ map fst grade1 = map fst grade0.
Proof.
  intros Hk Hc. unfold Services.processar_alocacao.
  apply services_processar_alocacao_ok; assumption.
Qed.

(** The services result: no term with an empty list. *)
Lemma services_no_empty_terms (lower : string -> string) (cfg : Services.OptimizerConfig)
    (solve : Model -> Z -> SolveResult) (tempo : Q) :
  solve_status (solve (Services.construir_modelo lower cfg)
                      (Services.solver_timeout_ms cfg)) = OPTIMAL
  \/ solve_status (solve (Services.construir_modelo lower cfg)
                         (Services.solver_timeout_ms cfg)) = FEASIBLE ->
  exists r,
    Services.resolver lower cfg true solve tempo = Return r
    /\ forall s g, In (s, g) (Services.grade r) -> g <> [].
Proof.
  intros Hst. unfold Services.resolver. cbn [negb].
  set (sol := solve _ _) in *.
  unfold Services._processar_resultados.
  assert (E : status_eqb (solve_status sol) OPTIMAL
              || status_eqb (solve_status sol) FEASIBLE = true).
  { destruct Hst as [-> | ->]; reflexivity. }
  rewrite E.
  destruct (services_processar_alocacao_total cfg sol (Services.alocacao_do_modelo cfg)
              (Py.comprehension Z.eqb (Services.semestres cfg)
                 (fun _ => @nil Services.DisciplinaAlocada))
              (Py.comprehension Z.eqb (Services.semestres cfg) (fun _ => 0)))
    as [g [c [w [Hf _]]]].
  - intros [[d s] t] Hk. cbn [key_s fst snd].
    apply (comprehension_keys Z.eqb Z.eqb_eq).
    apply services_alocacao_In in Hk. tauto.
  - apply comprehension_same_keys.
  - rewrite Hf. cbn [bind]. eexists. split; [reflexivity|]. cbn [Services.grade].
    intros s l Hin. apply filter_In in Hin as [_ Hne]. cbn [snd] in Hne.
    destruct l; [discriminate | discriminate].
Qed.

Lemma update_keys {K V : Type} (eqb : K -> K -> bool) (d d' : list (K * V))
    (k : K) (upd : V -> V) :
  Py.update eqb d k upd = Some d' -> map fst d' = map fst d.
Proof.
  revert d'. induction d as [|[k' v'] d IH]; intros d' H; simpl in H; [discriminate|].
  destruct (eqb k k').
  - injection H as <-. reflexivity.
  - destruct (Py.update eqb d k upd) as [r|]; [|discriminate].
    injection H as <-. simpl. rewrite (IH r eq_refl). reflexivity.
Qed.

Lemma set_keys {K V : Type} (eqb : K -> K -> bool) (d : list (K * V)) (k : K) (v : V) :
  map fst (Py.set eqb d k v) = Py.insert_key eqb (map fst d) k.
Proof.
  unfold Py.insert_key, Py.mem.
  induction d as [|[k' v'] d IH]; [reflexivity|].
  cbn [Py.set map fst existsb]. destruct (eqb k k'); [reflexivity|].
  cbn [map fst orb]. rewrite IH. destruct (existsb (eqb k) (map fst d)); reflexivity.
Qed.

(** The keys of a comprehension over distinct keys, in order. *)
Lemma comprehension_key_list {K V : Type} (eqb : K -> K -> bool)
    (eqb_spec : forall a b, eqb a b = true <-> a = b) (ks : list K) (f : K -> V) :
  NoDup ks -> map fst (Py.comprehension eqb ks f) = ks.
Proof.
  intros Hnd. rewrite <- (keys_of_NoDup_id eqb eqb_spec ks Hnd) at 2.
  unfold Py.comprehension, Py.keys_of.
  change (@nil K) with (map fst (@nil (K * V))).
  generalize (@nil (K * V)). induction ks as [|k ks IH]; intros d; [reflexivity|].
  cbn [fold_left]. inversion Hnd; subst. rewrite (IH H2). rewrite set_keys. reflexivity.
Qed.

(** The loop of the backend decoder keeps the keys of [grade]. *)
Lemma backend_processar_keys (dados : DadosDisciplinas) (sol : SolveResult)
    (alocacao : list Key) :
  forall (acc : Exc (list (Z * list Backend.DisciplinaObj) * list (Z * Z)
                     * Backend.CreditosPorTipo))
         g c p,
    fold_left
      (fun acc k =>
         st <- acc ;;
         let '(grade, creditos_por_semestre, creditos_por_tipo) := st in
         if chosen (solution_value sol) (alocacao_var k) then
           disc_data <- of_option KeyError
                          (Py.get String.eqb (disciplinas dados) (key_d k)) ;;
           let horarios :=
             Py.get_default String.eqb (horarios_por_turma dados) (key_t k) [] in
           let disciplina_obj :=
             Backend.mkObj (key_d k) (nome disc_data) (key_t k) horarios
               (creditos disc_data)
               (match tipo disc_data with
                | Some t => t
                | None => "Desconhecido"%string
                end) in
           grade' <- of_option KeyError
                       (Py.update Z.eqb grade (key_s k)
                          (fun g => g ++ [disciplina_obj])) ;;
           creditos' <- of_option KeyError
                          (Py.update Z.eqb creditos_por_semestre (key_s k)
                             (fun c => c + creditos disc_data)) ;;
           Return (grade', creditos',
                   Backend.somar_tipo
                     (match tipo disc_data with
                      | Some t => t
                      | None => "Outros"%string
                      end)
                     (creditos disc_data) creditos_por_tipo)
         else Return st)
      alocacao acc
    = Return (g, c, p) ->
    exists g0 c0 p0, acc = Return (g0, c0, p0) /\ map fst g = map fst g0.
Proof.
  induction alocacao as [|k ks IH]; intros acc g c p H.
  - simpl in H. exists g, c, p. auto.
  - cbn [fold_left] in H. apply IH in H as [g1 [c1 [p1 [H Hk]]]].
    destruct acc as [[[g0 c0] p0]|e]; [|discriminate].
    exists g0, c0, p0. split; [reflexivity|]. rewrite Hk. clear Hk IH.
    cbn [bind] in H.
    destruct (chosen (solution_value sol) (alocacao_var k)).
    + destruct (Py.get String.eqb (disciplinas dados) (key_d k)) as [disc|];
        [|discriminate].
      cbn [of_option bind] in H.
      destruct (Py.update Z.eqb g0 (key_s k) _) as [g'|] eqn:Eg; [|discriminate].
      cbn [of_option bind] in H.
      destruct (Py.update Z.eqb c0 (key_s k) _) as [c'|]; [|discriminate].
      cbn [of_option bind] in H. injection H as <- _ _.
      exact (update_keys _ _ _ _ _ Eg).
    + injection H as <- _ _. reflexivity.
Qed.

(** The backend tuple of a solved model: its [grade] has every term of
    [1 .. NUM_SEMESTRES] as a key. *)
Lemma backend_grade_all_terms (dados : DadosDisciplinas) (creditos_minimos : CreditosMinimos)
    (NUM_SEMESTRES CREDITOS_MAXIMOS : Z) (disciplinas_cursadas : list string)
    (solve : Model -> SolveResult) (g : list (Z * list Backend.DisciplinaObj))
    (c st o p : Backend.PyValue) :
  Backend.resolver_grade dados creditos_minimos NUM_SEMESTRES CREDITOS_MAXIMOS
    disciplinas_cursadas true solve
  = Return [Backend.PyGrade g; c; st; o; p] ->
  map fst g = Py.range 1 (NUM_SEMESTRES + 1).
Proof.
  unfold Backend.resolver_grade. cbn [negb].
  destruct (Backend.construir_modelo _ _ _ _ _) as [m|e]; cbn [bind]; [|discriminate].
  destruct (status_eqb _ OPTIMAL || status_eqb _ FEASIBLE); [|discriminate].
  destruct (Backend.processar_alocacao dados NUM_SEMESTRES disciplinas_cursadas (solve m))
    as [[[g' c'] p']|e] eqn:E; cbn [bind]; [|discriminate].
  intros H. injection H as <- _ _ _ _.
  unfold Backend.processar_alocacao in E.
  apply backend_processar_keys in E as [g0 [c0 [p0 [E Hk]]]].
  injection E as <- _ _. rewrite Hk.
  apply (comprehension_key_list Z.eqb Z.eqb_eq). apply range_NoDup.
Qed.

(** The backend decoder does not filter: with three terms and the courses
    in terms 1 and 2, term 3 stays in [grade] with an empty list. *)
Lemma C9_counterexample :
  exists g c o p,
    Backend.resolver_grade Exemplos.dados_XY (mkMinimos 0 0 0) 3 32 [] true
      (fun _ => mkSolveResult OPTIMAL Exemplos.sol_XY 2)
    = Return [Backend.PyGrade g; c; Backend.PyInt 0; o; p]
    /\ In (3, []) g.
Proof.
  do 4 eexists. split; [vm_compute; reflexivity|]. simpl. auto.
Qed.

(** C9 (amended). When the solver reports OPTIMAL or FEASIBLE, [resolver] of
    the services optimiser returns a result in which every term that is a key
    of [grade] has a non-empty list of courses: terms without assignments are
    left out. The tuple the backend [resolver_grade] returns for a solved
    model keeps every term of [1 .. NUM_SEMESTRES] as a key of its [grade],
    the terms without assignments included. *)
Theorem C9_empty_terms (lower : string -> string) (cfg : Services.OptimizerConfig)
    (solve : Model -> Z -> SolveResult) (tempo : Q)
    (dados : DadosDisciplinas) (creditos_minimos : CreditosMinimos)
    (NUM_SEMESTRES CREDITOS_MAXIMOS : Z) (disciplinas_cursadas : list string)
    (solve' : Model -> SolveResult) (g : list (Z * list Backend.DisciplinaObj))
    (c st o p : Backend.PyValue) :
  (solve_status (solve (Services.construir_modelo lower cfg)
                       (Services.solver_timeout_ms cfg)) = OPTIMAL
   \/ solve_status (solve (Services.construir_modelo lower cfg)
                          (Services.solver_timeout_ms cfg)) = FEASIBLE ->
   exists r,
     Services.resolver lower cfg true solve tempo = Return r
     /\ forall s g, In (s, g) (Services.grade r) -> g <> [])
  /\ (Backend.resolver_grade dados creditos_minimos NUM_SEMESTRES CREDITOS_MAXIMOS
        disciplinas_cursadas true solve'
      = Return [Backend.PyGrade g; c; st; o; p] ->
      map fst g = Py.range 1 (NUM_SEMESTRES + 1)).
Proof.
  split.
  - apply services_no_empty_terms.
  - apply backend_grade_all_terms.
Qed.

Lemma C9_empty_terms_witness :
  (exists r,
     Services.resolver Exemplos.lower_ascii Exemplos.cfg_XY true
       (fun _ _ => mkSolveResult OPTIMAL Exemplos.sol_XY 2) 0 = Return r
     /\ forall s g, In (s, g) (Services.grade r) -> g <> [])
  /\ exists g : list (Z * list Backend.DisciplinaObj),
       map fst g = Py.range 1 (3 + 1)
       /\ In (3, []) g.
Proof.
  pose (res := Backend.resolver_grade Exemplos.dados_XY (mkMinimos 0 0 0) 3 32 [] true
                 (fun _ => mkSolveResult OPTIMAL Exemplos.sol_XY 2)).
  assert (E : exists g c st o p, res = Return [Backend.PyGrade g; c; st; o; p]
                                 /\ In (3, []) g).
  { do 5 eexists. split; [vm_compute; reflexivity|]. simpl. auto. }
  destruct E as [g [c [st [o [p [E Hin]]]]]].
  destruct (C9_empty_terms Exemplos.lower_ascii Exemplos.cfg_XY
              (fun _ _ => mkSolveResult OPTIMAL Exemplos.sol_XY 2) 0
              Exemplos.dados_XY (mkMinimos 0 0 0) 3 32 []
              (fun _ => mkSolveResult OPTIMAL Exemplos.sol_XY 2) g c st o p)
    as [Hs Hb].
  split.
  - apply Hs. left. reflexivity.
  - exists g. split; [apply Hb; exact E | exact Hin].
Defined.

(** C10. Without a SCIP solver [resolver_grade] returns the four-element
    tuple [(None, None, -1, None)]; whenever the solver runs, the tuple it
    returns has five elements; and the [/optimize] handler, which unpacks five
    names, ends in an uncaught [ValueError] when the solver is missing: no
    error response is produced. *)
Theorem C10_solver_unavailable_tuple (dados : DadosDisciplinas)
    (creditos_minimos : CreditosMinimos) (NUM_SEMESTRES CREDITOS_MAXIMOS : Z)
    (disciplinas_cursadas : list string) (solve : Model -> SolveResult) :
  Backend.resolver_grade dados creditos_minimos NUM_SEMESTRES CREDITOS_MAXIMOS
    disciplinas_cursadas false solve
  = Return [Backend.PyNone; Backend.PyNone; Backend.PyInt (-1); Backend.PyNone]
  /\ match Backend.resolver_grade dados creditos_minimos NUM_SEMESTRES CREDITOS_MAXIMOS
             disciplinas_cursadas true solve with
     | Return t => List.length t = 5%nat
     | Raise _ => True
     end
  /\ Backend.optimize_schedule (Some dados) false solve disciplinas_cursadas
     = Backend.Uncaught ValueError.
Proof.
  split; [reflexivity | split; [| reflexivity]].
  unfold Backend.resolver_grade. cbn [negb].
  destruct (Backend.construir_modelo _ _ _ _ _) as [m|e]; cbn [bind]; [|exact I].
  destruct (status_eqb _ OPTIMAL || status_eqb _ FEASIBLE); [|reflexivity].
  destruct (Backend.processar_alocacao _ _ _ _) as [[[g c] p]|e]; cbn [bind];
    [reflexivity | exact I].
Qed.

(** ** C8: the category of a course record *)

Lemma categorizar_fold (lower : string -> string) (ds : list (string * Disciplina)) :
  forall acc : DataLoader.Categorias,
    fold_left
      (fun categorias (disciplina : string * Disciplina) =>
         let tipo :=
           lower (match tipo (snd disciplina) with Some t => t | None => ""%string end) in
         let disciplina_id := fst disciplina in
         if Py.str_in "período" tipo || Py.str_in "periodo" tipo then
           DataLoader.mkCategorias
             (DataLoader.obrigatorias categorias ++ [disciplina_id])
             (DataLoader.restritas categorias)
             (DataLoader.condicionadas categorias) (DataLoader.livres categorias)
         else if Py.str_in "restrita" tipo then
           DataLoader.mkCategorias
             (DataLoader.obrigatorias categorias)
             (DataLoader.restritas categorias ++ [disciplina_id])
             (DataLoader.condicionadas categorias) (DataLoader.livres categorias)
         else if Py.str_in "condicionada" tipo then
           DataLoader.mkCategorias
             (DataLoader.obrigatorias categorias) (DataLoader.restritas categorias)
             (DataLoader.condicionadas categorias ++ [disciplina_id])
             (DataLoader.livres categorias)
         else if Py.str_in "livre" tipo || Py.startswith disciplina_id "ARTIFICIAL" then
           DataLoader.mkCategorias
             (DataLoader.obrigatorias categorias) (DataLoader.restritas categorias)
             (DataLoader.condicionadas categorias)
             (DataLoader.livres categorias ++ [disciplina_id])
         else categorias)
      ds acc
    = DataLoader.mkCategorias
        (DataLoader.obrigatorias acc ++ ids_da_categoria lower Required ds)
        (DataLoader.restritas acc ++ ids_da_categoria lower RestrictedElective ds)
        (DataLoader.condicionadas acc ++ ids_da_categoria lower ConditionedElective ds)
        (DataLoader.livres acc ++ ids_da_categoria lower FreeElective ds).
Proof.
  induction ds as [|r ds IH]; intros acc.
  - destruct acc. unfold ids_da_categoria. simpl. rewrite !app_nil_r. reflexivity.
  - cbn [fold_left]. rewrite IH. clear IH.
    unfold ids_da_categoria. cbn [filter]. unfold categoria_da_spec.
    cbv zeta beta.
    set (label := lower (match tipo (snd r) with Some t => t | None => ""%string end)).
    destruct (Py.str_in "período" label || Py.str_in "periodo" label);
      [|destruct (Py.str_in "restrita" label);
        [|destruct (Py.str_in "condicionada" label);
          [|destruct (Py.str_in "livre" label || Py.startswith (fst r) "ARTIFICIAL")]]];
      destruct acc; cbn [categoria_eqb map DataLoader.obrigatorias DataLoader.restritas
                         DataLoader.condicionadas DataLoader.livres];
      rewrite <- ?app_assoc; reflexivity.
Qed.

(** [_categorizar_disciplinas] puts the id of every record into the list
    of the category that the priority rules give it: a label with the
    term-number marker is required; else one with the restricted marker is a
    restricted elective; else one with the conditioned marker is a conditioned
    elective; else a label with the free marker, or an id that starts with
    the artificial prefix, is a free elective; a record of any other kind is
    put into no list. *)
Lemma categorizar_disciplinas_regras (lower : string -> string) (ds : list (string * Disciplina)) :
  DataLoader._categorizar_disciplinas lower ds
  = DataLoader.mkCategorias
      (ids_da_categoria lower Required ds)
      (ids_da_categoria lower RestrictedElective ds)
      (ids_da_categoria lower ConditionedElective ds)
      (ids_da_categoria lower FreeElective ds).
Proof.
  unfold DataLoader._categorizar_disciplinas. rewrite categorizar_fold. reflexivity.
Qed.

(** [Disciplina._parse_tipo] follows the same rules on the label, except
    that it tests whether the label, not the id, starts with the artificial
    prefix. *)
Lemma parse_tipo_regras (lower : string -> string) (tipo_str : string) :
  ModelsDisciplina._parse_tipo lower tipo_str
  = let label := lower tipo_str in
    if Py.str_in "período" label || Py.str_in "periodo" label then ModelsDisciplina.OBRIGATORIA
    else if Py.str_in "restrita" label then ModelsDisciplina.RESTRITA
    else if Py.str_in "condicionada" label then ModelsDisciplina.CONDICIONADA
    else if Py.str_in "livre" label || String.prefix "artificial" label
         then ModelsDisciplina.LIVRE
    else ModelsDisciplina.OUTRA.
Proof. reflexivity. Qed.

(** C8. For a record whose id starts with the artificial prefix and whose
    label has none of the markers, the rules give the free-elective category
    and [_categorizar_disciplinas] lists the id as a free elective, but
    [Disciplina.from_dict], through [_parse_tipo], gives it the category
    [OUTRA]. *)
Theorem C8_parse_tipo_artificial :
  let record := ("ARTIFICIAL01"%string,
                 mkDisciplina "Atividade" 4 (Some "Optativa"%string) []) in
  categoria_da_spec Exemplos.lower_ascii record = FreeElective
  /\ DataLoader.livres (DataLoader._categorizar_disciplinas Exemplos.lower_ascii [record])
     = ["ARTIFICIAL01"%string]
  /\ ModelsDisciplina.from_dict_tipo Exemplos.lower_ascii record = ModelsDisciplina.OUTRA.
Proof. vm_compute. auto. Qed.

(** ** Solutions of the services model *)

Lemma integral_EInt (n : Z) : integral (EInt n) = true.
Proof. reflexivity. Qed.

Lemma evalZ_EInt (v : Var -> Z) (n : Z) : evalZ v (EInt n) = n.
Proof. reflexivity. Qed.

Lemma integral_ESum_vars (al : list Key) (p : Key -> bool) :
  integral (ESum (vars_where al p)) = true.
Proof. cbn [integral]. apply integral_vars_where. Qed.

Lemma integral_cursada_de (al : list Key) (d : string) :
  integral (Services.cursada_de al d) = true.
Proof.
  unfold Services.cursada_de. destruct (Py.is_empty _); [reflexivity|].
  apply integral_ESum_vars.
Qed.

(** A constraint of a feasible model holds. *)
Lemma feasible_holds (v : Var -> Z) (m : Model) (c : Constraint) :
  feasible v m -> In c (constraints m) -> holds v c.
Proof. intros [_ H] Hin. rewrite Forall_forall in H. auto. Qed.

Lemma feasible_bounds (v : Var -> Z) (m : Model) (d : VarDecl) :
  feasible v m -> In d (variables m) -> decl_lb d <= v (decl_var d) <= decl_ub d.
Proof. intros [H _] Hin. rewrite Forall_forall in H. apply H. exact Hin. Qed.

(** An integer constraint of a feasible model, as a comparison in [Z]. *)
Lemma feasible_holdsZ (v : Var -> Z) (m : Model) (l r : LinearExpr) (rl : Rel) :
  feasible v m -> In (mkConstraint l rl r) (constraints m) ->
  integral l = true -> integral r = true ->
  match rl with
  | Le => evalZ v l <= evalZ v r
  | Ge => evalZ v r <= evalZ v l
  | Eq => evalZ v l = evalZ v r
  end.
Proof.
  intros Hf Hin Hl Hr.
  exact (holds_integral v (mkConstraint l rl r) Hl Hr (feasible_holds v m _ Hf Hin)).
Qed.

Section ServicesSolutions.

Variable cfg : Services.OptimizerConfig.
Variable lower : string -> string.
Variable v : Var -> Z.
Hypothesis Hfeas : feasible v (Services.construir_modelo lower cfg).

Let a_cursar := Services._preparar_disciplinas_a_cursar cfg.
Let al := Services.alocacao_do_modelo cfg.

Lemma services_variables :
  variables (Services.construir_modelo lower cfg)
  = Services.declaradas (Services._criar_variaveis_decisao cfg a_cursar)
    ++ snd (Services._adicionar_restricao_limite_creditos cfg al)
    ++ [IntVar (Services.semestre_inicio cfg) (Services.num_semestres_total cfg)
          semestre_maximo].
Proof. reflexivity. Qed.

(** Every assignment variable has value 0 or 1. *)
Lemma services_alocacao_bounds (k : Key) :
  In k al -> 0 <= v (alocacao_var k) <= 1.
Proof.
  intros Hk.
  apply (feasible_bounds v _ (BoolVar (alocacao_var k)) Hfeas).
  rewrite services_variables. apply in_or_app. left.
  unfold Services._criar_variaveis_decisao. cbn [Services.declaradas].
  apply in_or_app. left. apply in_map_iff. exists k. split; [reflexivity | exact Hk].
Qed.

Lemma services_filter_bounds (p : Key -> bool) (k : Key) :
  In k (filter p al) -> 0 <= v (alocacao_var k) <= 1.
Proof. intros H. apply filter_In in H as [H _]. apply services_alocacao_bounds; exact H. Qed.

(** The zero variable of a course without assignment variables. *)
Lemma services_cursada_zero (d : string) :
  In d (Services.todas a_cursar) ->
  Py.is_empty (vars_where al (do_curso d)) = true ->
  v (cursada_zero d) = 0.
Proof.
  intros Hd He.
  assert (H : 0 <= v (cursada_zero d) <= 0).
  { apply (feasible_bounds v _ (IntVar 0 0 (cursada_zero d)) Hfeas).
    rewrite services_variables. apply in_or_app. left.
    unfold Services._criar_variaveis_decisao. cbn [Services.declaradas].
    apply in_or_app. right. apply in_or_app. right.
    apply in_flat_map. exists d. split; [exact Hd|].
    unfold al, Services.alocacao_do_modelo, Services._criar_variaveis_decisao in He.
    cbn [Services.alocacao] in He. fold a_cursar in He.
    rewrite He. left; reflexivity. }
  lia.
Qed.

Lemma services_cursada_vars_get (d : string) :
  In d (Services.todas a_cursar) ->
  Py.get String.eqb (Services.cursada_vars (Services._criar_variaveis_decisao cfg a_cursar)) d
  = Some (Services.cursada_de al d).
Proof.
  intros Hd. unfold Services._criar_variaveis_decisao. cbn [Services.cursada_vars].
  rewrite (get_comprehension String.eqb String.eqb_eq).
  apply (mem_In String.eqb String.eqb_eq) in Hd. rewrite Hd. reflexivity.
Qed.

(** The value of [cursada_vars[d]] is the number of assignments of [d]. *)
Lemma services_cursada_value (d : string) :
  In d (Services.todas a_cursar) ->
  evalZ v (Services.cursada_de al d) = soma v (filter (do_curso d) al).
Proof.
  intros Hd. unfold Services.cursada_de.
  destruct (Py.is_empty (vars_where al (do_curso d))) eqn:E.
  - cbn [evalZ]. rewrite (services_cursada_zero d Hd E).
    apply is_empty_true in E. unfold vars_where in E.
    apply map_eq_nil in E. rewrite E. reflexivity.
  - apply evalZ_vars_where.
Qed.

(** R1 and R2 together: a course of [todas] is assigned at most once. *)
Lemma services_at_most_once (d : string) :
  In d (Services.todas a_cursar) -> soma v (filter (do_curso d) al) <= 1.
Proof.
  intros Hd.
  destruct (Py.is_empty (vars_where al (do_curso d))) eqn:E.
  { apply is_empty_true in E. unfold vars_where in E. apply map_eq_nil in E.
    rewrite E. simpl. lia. }
  apply services_todas_split in Hd as [Hd|Hd].
  - assert (Hin : In (ESum (vars_where al (do_curso d)) ==' EInt 1)
                     (constraints (Services.construir_modelo lower cfg))).
    { rewrite services_constraints. apply in_or_app. right. apply in_or_app. left.
      rewrite services_obrigatorias_spec. cbn [fst]. apply in_map_iff.
      exists d. split; [reflexivity|]. apply filter_In. split; [exact Hd|].
      fold (Services.alocacao_do_modelo cfg). fold al. rewrite E. reflexivity. }
    pose proof (feasible_holdsZ v _ _ _ _ Hfeas Hin
                  (integral_ESum_vars al (do_curso d)) (integral_EInt 1)) as H.
    cbv beta iota in H. rewrite evalZ_vars_where, evalZ_EInt in H. lia.
  - assert (Hin : In (ESum (vars_where al (do_curso d)) <=' EInt 1)
                     (constraints (Services.construir_modelo lower cfg))).
    { rewrite services_constraints. apply in_or_app. right. apply in_or_app. right.
      apply in_or_app. left. unfold Services._adicionar_restricao_optativas.
      apply in_flat_map. exists d. split; [exact Hd|].
      fold (Services.alocacao_do_modelo cfg). fold al. rewrite E. left; reflexivity. }
    pose proof (feasible_holdsZ v _ _ _ _ Hfeas Hin
                  (integral_ESum_vars al (do_curso d)) (integral_EInt 1)) as H.
    cbv beta iota in H. rewrite evalZ_vars_where, evalZ_EInt in H. lia.
Qed.

(** A taken course has at least one assignment. *)
Lemma services_taken_soma (d : string) :
  taken v al d -> 1 <= soma v (filter (do_curso d) al).
Proof.
  intros [k [Hk [Hd Hv]]]. rewrite <- Hv.
  apply soma_ge_member.
  - intros k'. apply services_filter_bounds.
  - apply filter_In. split; [exact Hk | apply do_curso_true; exact Hd].
Qed.

Lemma services_soma_taken (d : string) :
  1 <= soma v (filter (do_curso d) al) -> taken v al d.
Proof.
  intros H. destruct (soma_pos_taken v _ (services_filter_bounds (do_curso d)) H)
    as [k [Hk Hv]].
  apply filter_In in Hk as [Hk Hd]. apply do_curso_true in Hd.
  exists k. auto.
Qed.

(** The two constraints R4 adds for a prerequisite pair. *)
Lemma services_prereq_In (B A : string) (info : Disciplina) :
  In B (Services.todas a_cursar) -> In A (Services.todas a_cursar) ->
  Py.get String.eqb (disciplinas (Services.dados cfg)) B = Some info ->
  In A (prerequisitos info) ->
  ~ In A (Services.disciplinas_concluidas_ids cfg) ->
  In (Services.cursada_de al A >=' Services.cursada_de al B)
     (constraints (Services.construir_modelo lower cfg))
  /\ In (ESub (EVar (semestre_var B)) (EVar (semestre_var A))
         >=' ESub (EInt 1)
                  (EMul (inject_Z (Services.m_prereq cfg))
                        (ESub (EInt 1) (Services.cursada_de al B))))
        (constraints (Services.construir_modelo lower cfg)).
Proof.
  intros HB HA Hinfo Hpre Hc.
  assert (Hsub : forall c,
             In c [Services.cursada_de al A >=' Services.cursada_de al B;
                   ESub (EVar (semestre_var B)) (EVar (semestre_var A))
                   >=' ESub (EInt 1)
                            (EMul (inject_Z (Services.m_prereq cfg))
                                  (ESub (EInt 1) (Services.cursada_de al B)))] ->
             In c (constraints (Services.construir_modelo lower cfg))).
  { intros c Hin. rewrite services_constraints.
    do 4 (apply in_or_app; right). apply in_or_app. left.
    unfold Services._adicionar_restricao_prerequisitos.
    apply in_flat_map. exists B. split; [exact HB|].
    rewrite Hinfo. apply in_flat_map. exists A. split; [exact Hpre|].
    apply (services_concluida_false cfg) in Hc. rewrite Hc.
    pose proof HA as HA'. apply (mem_In String.eqb String.eqb_eq) in HA'.
    fold a_cursar. rewrite HA'.
    rewrite (services_cursada_vars_get A HA), (services_cursada_vars_get B HB).
    exact Hin. }
  split; apply Hsub; simpl; auto.
Qed.

(** Prerequisite order in a solution of the services model. *)
Lemma services_prerequisite_order (B A : string) (info : Disciplina) :
  In B (Services.todas a_cursar) -> In A (Services.todas a_cursar) ->
  Py.get String.eqb (disciplinas (Services.dados cfg)) B = Some info ->
  In A (prerequisitos info) ->
  ~ In A (Services.disciplinas_concluidas_ids cfg) ->
  taken v al B ->
  taken v al A /\ v (semestre_var A) < v (semestre_var B).
Proof.
  intros HB HA Hinfo Hpre Hc Htk.
  destruct (services_prereq_In B A info HB HA Hinfo Hpre Hc) as [H1 H2].
  apply (feasible_holdsZ v _ _ _ _ Hfeas) in H1;
    [| apply integral_cursada_de | apply integral_cursada_de].
  apply (feasible_holdsZ v _ _ _ _ Hfeas) in H2;
    [| reflexivity
     | cbn [integral]; rewrite integral_cursada_de; reflexivity].
  cbn [evalZ EInt Qnum inject_Z] in H1, H2.
  rewrite (services_cursada_value A HA), (services_cursada_value B HB) in H1.
  rewrite (services_cursada_value B HB) in H2.
  pose proof (services_taken_soma B Htk) as Hge.
  pose proof (services_at_most_once B HB) as Hle.
  split.
  - apply services_soma_taken. lia.
  - assert (E : soma v (filter (do_curso B) al) = 1) by lia.
    rewrite E in H2. lia.
Qed.

(** A course of [todas] without assignment variables leaves the services
    model without solution: its completion term is pinned to
    [num_semestres_total + 2], above the upper bound
    [num_semestres_total + 1] of the variable. *)
Lemma services_sem_variaveis_inviavel (d : string) :
  In d (Services.todas a_cursar) ->
  Py.is_empty (vars_where al (do_curso d)) = true ->
  False.
Proof.
  intros Hd He.
  pose proof (services_ligacao_In cfg lower d Hd) as Hin.
  unfold Services.ligacao in Hin.
  fold (Services.alocacao_do_modelo cfg) in Hin. fold al in Hin. rewrite He in Hin.
  apply (feasible_holdsZ v _ _ _ _ Hfeas) in Hin; [| reflexivity | reflexivity].
  cbn [evalZ EInt Qnum inject_Z] in Hin.
  assert (Hb : Services.semestre_inicio cfg <= v (semestre_var d)
               <= Services.num_semestres_total cfg + 1).
  { apply (feasible_bounds v _
             (IntVar (Services.semestre_inicio cfg)
                     (Services.num_semestres_total cfg + 1) (semestre_var d)) Hfeas).
    rewrite services_variables. apply in_or_app. left.
    unfold Services._criar_variaveis_decisao. cbn [Services.declaradas].
    apply in_or_app. right. apply in_or_app. left.
    apply in_map_iff. exists d. split; [reflexivity|].
    apply (keys_of_In String.eqb String.eqb_eq). exact Hd. }
  unfold Services.dummy_value in Hin. lia.
Qed.

End ServicesSolutions.

(** ** Solutions of the backend model *)

Section BackendSolutions.

Variable dados : DadosDisciplinas.
Variable creditos_minimos : CreditosMinimos.
Variable NUM_SEMESTRES : Z.
Variable CREDITOS_MAXIMOS_POR_SEMESTRE : Z.
Variable disciplinas_cursadas : list string.
Variable m : Model.
Variable v : Var -> Z.

Hypothesis Hm :
  Backend.construir_modelo dados creditos_minimos NUM_SEMESTRES
    CREDITOS_MAXIMOS_POR_SEMESTRE disciplinas_cursadas = Return m.
Hypothesis Hfeas : feasible v m.

Let al := Backend.alocacao dados NUM_SEMESTRES disciplinas_cursadas.

Lemma backend_alocacao_bounds (k : Key) : In k al -> 0 <= v (alocacao_var k) <= 1.
Proof.
  intros Hk. destruct (backend_constraints _ _ _ _ _ _ Hm) as [r3 [_ [Hv _]]].
  apply (feasible_bounds v _ (BoolVar (alocacao_var k)) Hfeas).
  rewrite Hv. unfold Backend.declaradas. apply in_or_app. left.
  apply in_map_iff. exists k. split; [reflexivity | exact Hk].
Qed.

Lemma backend_filter_bounds (p : Key -> bool) (k : Key) :
  In k (filter p al) -> 0 <= v (alocacao_var k) <= 1.
Proof. intros H. apply filter_In in H as [H _]. apply backend_alocacao_bounds; exact H. Qed.

Lemma backend_r4_In_model (c : Constraint) :
  In c (Backend.r4_prerequisitos dados NUM_SEMESTRES disciplinas_cursadas) ->
  In c (constraints m).
Proof.
  intros H. destruct (backend_constraints _ _ _ _ _ _ Hm) as [r3 [_ [_ Hc]]].
  rewrite Hc. do 4 (apply in_or_app; right). apply in_or_app. left. exact H.
Qed.

Lemma backend_cursada_vars_a_cursar (d : string) :
  ~ In d disciplinas_cursadas ->
  Backend.cursada_vars dados NUM_SEMESTRES disciplinas_cursadas d
  = ESum (vars_where al (do_curso d)).
Proof.
  intros H. unfold Backend.cursada_vars.
  apply backend_cursada_false in H. rewrite H. reflexivity.
Qed.

Lemma backend_semestre_a_cursar (d : string) :
  ~ In d disciplinas_cursadas ->
  Backend.semestre_da_disciplina disciplinas_cursadas d = EVar (semestre_var d).
Proof.
  intros H. unfold Backend.semestre_da_disciplina.
  apply backend_cursada_false in H. rewrite H. reflexivity.
Qed.

Lemma has_In {V : Type} (d : list (string * V)) (k : string) :
  Py.has String.eqb d k = true <-> In k (map fst d).
Proof.
  unfold Py.has. pose proof (get_None String.eqb String.eqb_eq d k) as H.
  destruct (Py.get String.eqb d k).
  - split; [|reflexivity]. intros _.
    destruct (in_dec string_dec k (map fst d)) as [Hi|Hn]; [exact Hi|].
    apply H in Hn. discriminate.
  - split; [discriminate|]. intros Hi. exfalso. apply (proj1 H eq_refl). exact Hi.
Qed.

(** Prerequisite order in a solution of the backend model. *)
Lemma backend_prerequisite_order (B A : string) (info : Disciplina) :
  In (B, info) (disciplinas dados) -> ~ In B disciplinas_cursadas ->
  In A (prerequisitos info) ->
  In A (map fst (disciplinas dados)) -> ~ In A disciplinas_cursadas ->
  taken v al B ->
  taken v al A /\ v (semestre_var A) < v (semestre_var B).
Proof.
  intros HB HcB Hpre HA HcA Htk.
  assert (Hsub : forall c,
             In c [ESum (vars_where al (do_curso A)) >=' ESum (vars_where al (do_curso B));
                   ESub (EVar (semestre_var B)) (EVar (semestre_var A))
                   >=' ESub (EInt 1)
                            (EMul (inject_Z (Backend.M_prereq NUM_SEMESTRES))
                                  (ESub (EInt 1) (ESum (vars_where al (do_curso B)))))] ->
             In c (constraints m)).
  { intros c Hin. apply backend_r4_In_model. unfold Backend.r4_prerequisitos.
    apply in_flat_map. exists (B, info). split.
    - apply backend_a_cursar_In. auto.
    - cbn [fst snd]. apply in_flat_map. exists A. split; [exact Hpre|].
      apply has_In in HA. rewrite HA. cbn [negb].
      rewrite (backend_cursada_vars_a_cursar A HcA), (backend_cursada_vars_a_cursar B HcB).
      rewrite (backend_semestre_a_cursar A HcA), (backend_semestre_a_cursar B HcB).
      cbn [Backend.is_int_one app]. exact Hin. }
  assert (H1 := Hsub _ (or_introl eq_refl)).
  assert (H2 := Hsub _ (or_intror (or_introl eq_refl))).
  apply (feasible_holdsZ v _ _ _ _ Hfeas) in H1;
    [| apply integral_ESum_vars | apply integral_ESum_vars].
  apply (feasible_holdsZ v _ _ _ _ Hfeas) in H2;
    [| reflexivity
     | cbn [integral]; rewrite integral_vars_where; reflexivity].
  rewrite !evalZ_vars_where in H1.
  cbn [evalZ EInt Qnum inject_Z] in H2.
  change (fold_right (fun e acc => evalZ v e + acc) 0 (vars_where al (do_curso B)))
    with (evalZ v (ESum (vars_where al (do_curso B)))) in H2.
  rewrite evalZ_vars_where in H2.
  assert (Hge : 1 <= soma v (filter (do_curso B) al)).
  { destruct Htk as [k [Hk [Hd Hv]]]. rewrite <- Hv. apply soma_ge_member.
    - intros k'. apply backend_filter_bounds.
    - apply filter_In. split; [exact Hk | apply do_curso_true; exact Hd]. }
  assert (HN : 1 <= NUM_SEMESTRES).
  { destruct Htk as [[[d s] t] [Hk _]]. apply backend_alocacao_In in Hk. lia. }
  split.
  - destruct (soma_pos_taken v _ (backend_filter_bounds (do_curso A))) as [k [Hk Hv]];
      [lia|].
    apply filter_In in Hk as [Hk Hd]. apply do_curso_true in Hd.
    exists k. auto.
  - unfold Backend.M_prereq in H2. nia.
Qed.

End BackendSolutions.

(** ** C3: prerequisite order *)

(** C3. Let course [B] list the prerequisite [A], let [A] not be completed
    and let both be courses of the model. In every solution of the services
    model and in every solution of the backend model: when [B] is taken (one
    of its assignment variables is 1), [A] is taken as well and the
    completion term of [B] is greater than that of [A]. *)
Theorem C3_prerequisite_order (lower : string -> string)
    (cfg : Services.OptimizerConfig)
    (dados : DadosDisciplinas) (creditos_minimos : CreditosMinimos)
    (NUM_SEMESTRES CREDITOS_MAXIMOS : Z) (disciplinas_cursadas : list string)
    (m : Model) (v : Var -> Z) (B A : string) (info : Disciplina) :
  (feasible v (Services.construir_modelo lower cfg) ->
   In B (Services.todas (Services._preparar_disciplinas_a_cursar cfg)) ->
   In A (Services.todas (Services._preparar_disciplinas_a_cursar cfg)) ->
   Py.get String.eqb (disciplinas (Services.dados cfg)) B = Some info ->
   In A (prerequisitos info) ->
   ~ In A (Services.disciplinas_concluidas_ids cfg) ->
   taken v (Services.alocacao_do_modelo cfg) B ->
   taken v (Services.alocacao_do_modelo cfg) A
   /\ v (semestre_var A) < v (semestre_var B))
  /\ (Backend.construir_modelo dados creditos_minimos NUM_SEMESTRES CREDITOS_MAXIMOS
        disciplinas_cursadas = Return m ->
      feasible v m ->
      In (B, info) (disciplinas dados) -> ~ In B disciplinas_cursadas ->
      In A (prerequisitos info) ->
      In A (map fst (disciplinas dados)) -> ~ In A disciplinas_cursadas ->
      taken v (Backend.alocacao dados NUM_SEMESTRES disciplinas_cursadas) B ->
      taken v (Backend.alocacao dados NUM_SEMESTRES disciplinas_cursadas) A
      /\ v (semestre_var A) < v (semestre_var B)).
Proof.
  split.
  - intros Hf. apply (services_prerequisite_order cfg lower v Hf).
  - intros Hm Hf. apply (backend_prerequisite_order _ _ _ _ _ m v Hm Hf).
Qed.

Lemma C3_prerequisite_order_witness :
  (taken Exemplos.sol_XY (Services.alocacao_do_modelo Exemplos.cfg_XY) "X"
   /\ Exemplos.sol_XY (semestre_var "X") < Exemplos.sol_XY (semestre_var "Y"))
  /\ (taken Exemplos.sol_XY (Backend.alocacao Exemplos.dados_XY 2 []) "X"
      /\ Exemplos.sol_XY (semestre_var "X") < Exemplos.sol_XY (semestre_var "Y")).
Proof.
  destruct (C3_prerequisite_order Exemplos.lower_ascii Exemplos.cfg_XY
              Exemplos.dados_XY (mkMinimos 0 0 0) 2 32 []
              (modelo_de (Backend.construir_modelo Exemplos.dados_XY
                            (mkMinimos 0 0 0) 2 32 []))
              Exemplos.sol_XY "Y" "X" Exemplos.disc_Y) as [Hs Hb].
  split.
  - apply Hs.
    + apply feasibleb_sound. vm_compute. reflexivity.
    + vm_compute. auto.
    + vm_compute. auto.
    + reflexivity.
    + simpl. auto.
    + simpl. tauto.
    + exists ("Y"%string, 2, "TY"%string). split; [vm_compute; auto|]. split; reflexivity.
  - apply Hb.
    + vm_compute. reflexivity.
    + apply feasibleb_sound. vm_compute. reflexivity.
    + simpl. auto.
    + simpl. tauto.
    + simpl. auto.
    + simpl. auto.
    + simpl. tauto.
    + exists ("Y"%string, 2, "TY"%string). split; [vm_compute; auto|]. split; reflexivity.
Defined.

(** ** C6: the per-term credit cap *)

Lemma chosen_leb (v : Var -> Z) (x : Var) : chosen v x = (1 <=? v x).
Proof.
  unfold chosen, Qle_bool. cbn [Qnum Qden inject_Z].
  destruct (Z.leb_spec (v x * 2) (1 * 1)); destruct (Z.leb_spec 1 (v x)); simpl; lia.
Qed.

Lemma soma_catalogo_ext (cat : list (string * Disciplina)) (f g : string -> Z) :
  (forall d, f d = g d) -> soma_catalogo cat f = soma_catalogo cat g.
Proof.
  intros H. induction cat as [|e cat IH]; simpl; [reflexivity|].
  rewrite H, IH. reflexivity.
Qed.

Lemma soma_catalogo_plus (cat : list (string * Disciplina)) (f g : string -> Z) :
  soma_catalogo cat (fun d => f d + g d) = soma_catalogo cat f + soma_catalogo cat g.
Proof. induction cat as [|e cat IH]; simpl; [reflexivity|]. rewrite IH. lia. Qed.

Lemma soma_catalogo_zero (cat : list (string * Disciplina)) :
  soma_catalogo cat (fun _ => 0) = 0.
Proof. induction cat as [|e cat IH]; simpl; [reflexivity|]. rewrite IH. lia. Qed.

Lemma soma_catalogo_ausente (cat : list (string * Disciplina)) (x : string) (c : Z) :
  ~ In x (map fst cat) ->
  soma_catalogo cat (fun d => if String.eqb x d then c else 0) = 0.
Proof.
  induction cat as [|[d disc] cat IH]; simpl; intros H; [reflexivity|].
  destruct (String.eqb_spec x d) as [->|Hne]; [exfalso; auto|].
  rewrite IH; [lia | tauto].
Qed.

(** With distinct keys, the sum against the indicator of one course is the
    credit of that course. *)
Lemma soma_catalogo_indicador (cat : list (string * Disciplina)) (x : string) (c : Z) :
  NoDup (map fst cat) ->
  soma_catalogo cat (fun d => if String.eqb x d then c else 0) = credito_de cat x * c.
Proof.
  unfold credito_de.
  induction cat as [|[d disc] cat IH]; simpl; intros H; [reflexivity|].
  inversion H as [|? ? Hnin Hnd]; subst.
  destruct (String.eqb_spec x d) as [->|Hne].
  - rewrite soma_catalogo_ausente; [lia | exact Hnin].
  - rewrite IH; [lia | exact Hnd].
Qed.

(** The nested sum of R6 is the sum of the credits assigned to the term. *)
Lemma soma_catalogo_atribuidos (cat : list (string * Disciplina)) (v : Var -> Z)
    (al : list Key) (s : Z) :
  NoDup (map fst cat) ->
  (forall k, In k al -> 0 <= v (alocacao_var k) <= 1) ->
  soma_catalogo cat (fun d => soma v (filter (do_curso_no_semestre d s) al))
  = creditos_atribuidos cat v al s.
Proof.
  intros Hnd. induction al as [|k al IH]; intros Hb.
  - simpl. apply soma_catalogo_zero.
  - assert (Hk : 0 <= v (alocacao_var k) <= 1) by (apply Hb; left; reflexivity).
    assert (IH' := IH (fun k' H => Hb k' (or_intror H))). clear IH.
    rewrite (soma_catalogo_ext cat _
               (fun d => (if String.eqb (key_d k) d
                          then (if Z.eqb (key_s k) s then v (alocacao_var k) else 0)
                          else 0)
                         + soma v (filter (do_curso_no_semestre d s) al))).
    + rewrite soma_catalogo_plus, IH', (soma_catalogo_indicador cat _ _ Hnd).
      unfold creditos_atribuidos. cbn [filter].
      destruct (Z.eqb (key_s k) s); cbn [map fold_right]; [|lia].
      rewrite chosen_leb.
      destruct (Z.leb_spec 1 (v (alocacao_var k))).
      * replace (v (alocacao_var k)) with 1 by lia. lia.
      * replace (v (alocacao_var k)) with 0 by lia. lia.
    + intros d. cbn [filter]. unfold do_curso_no_semestre at 1.
      destruct (String.eqb (key_d k) d); destruct (Z.eqb (key_s k) s);
        unfold soma; cbn [andb fold_right]; lia.
Qed.

(** The value of the credit terms that R6 collects for a term. *)
Lemma evalZ_termos_de_credito (cat : list (string * Disciplina)) (v : Var -> Z)
    (al : list Key) (s : Z) :
  evalZ v (ESum (flat_map
                   (fun entry : string * Disciplina =>
                      if Py.is_empty (vars_where al (do_curso_no_semestre (fst entry) s))
                      then []
                      else [EMul (inject_Z (creditos (snd entry)))
                                 (ESum (vars_where al (do_curso_no_semestre (fst entry) s)))])
                   cat))
  = soma_catalogo cat (fun d => soma v (filter (do_curso_no_semestre d s) al)).
Proof.
  induction cat as [|[d disc] cat IH]; [reflexivity|].
  cbn [flat_map fst snd soma_catalogo fold_right].
  change (fold_right (fun e acc => creditos (snd e) * soma v (filter (do_curso_no_semestre (fst e) s) al) + acc) 0 cat)
    with (soma_catalogo cat (fun d => soma v (filter (do_curso_no_semestre d s) al))).
  rewrite <- IH. clear IH.
  destruct (Py.is_empty (vars_where al (do_curso_no_semestre d s))) eqn:E.
  - apply is_empty_true in E. unfold vars_where in E. apply map_eq_nil in E.
    rewrite E. cbn [app soma fold_right]. lia.
  - cbn [app evalZ fold_right Qnum inject_Z].
    change (fold_right (fun e acc => evalZ v e + acc) 0
              (vars_where al (do_curso_no_semestre d s)))
      with (evalZ v (ESum (vars_where al (do_curso_no_semestre d s)))).
    rewrite evalZ_vars_where. reflexivity.
Qed.

Lemma integral_termos_de_credito (cat : list (string * Disciplina))
    (al : list Key) (s : Z) :
  integral (ESum (flat_map
                    (fun entry : string * Disciplina =>
                       if Py.is_empty (vars_where al (do_curso_no_semestre (fst entry) s))
                       then []
                       else [EMul (inject_Z (creditos (snd entry)))
                                  (ESum (vars_where al (do_curso_no_semestre (fst entry) s)))])
                    cat)) = true.
Proof.
  cbn [integral]. induction cat as [|[d disc] cat IH]; [reflexivity|].
  cbn [flat_map fst snd]. rewrite forallb_app, IH.
  destruct (Py.is_empty _); [reflexivity|].
  cbn [forallb integral Qden inject_Z]. rewrite integral_vars_where. reflexivity.
Qed.

(** The credit cap in a solution of the services model. *)
Lemma services_credit_cap (lower : string -> string) (cfg : Services.OptimizerConfig)
    (v : Var -> Z) (s : Z) :
  feasible v (Services.construir_modelo lower cfg) ->
  dict_ok (disciplinas (Services.dados cfg)) ->
  Services.semestre_inicio cfg <= s <= Services.num_semestres_total cfg ->
  creditos_atribuidos (disciplinas (Services.dados cfg)) v
    (Services.alocacao_do_modelo cfg) s
  <= Services.creditos_maximos_por_semestre cfg.
Proof.
  intros Hf Hnd Hs. apply services_semestres_In in Hs.
  set (al := Services.alocacao_do_modelo cfg).
  rewrite <- (soma_catalogo_atribuidos _ v al s Hnd (services_alocacao_bounds cfg lower v Hf)).
  rewrite <- evalZ_termos_de_credito.
  fold (Services.termos_de_credito cfg al s).
  assert (Hin : In (Services.creditos_cursados_no_semestre cfg al s
                    <=' EInt (Services.creditos_maximos_por_semestre cfg))
                   (constraints (Services.construir_modelo lower cfg))).
  { rewrite services_constraints. do 6 (apply in_or_app; right). apply in_or_app. left.
    unfold Services._adicionar_restricao_limite_creditos. cbn [fst].
    apply in_map_iff. exists s. split; [reflexivity | exact Hs]. }
  unfold Services.creditos_cursados_no_semestre in Hin.
  destruct (Py.is_empty (Services.termos_de_credito cfg al s)) eqn:E.
  - apply (feasible_holdsZ v _ _ _ _ Hf) in Hin; [| reflexivity | reflexivity].
    cbn [evalZ EInt Qnum inject_Z] in Hin.
    assert (Hz : 0 <= v (creditos_zero s) <= 0).
    { apply (feasible_bounds v _ (IntVar 0 0 (creditos_zero s)) Hf).
      rewrite services_variables. apply in_or_app. right. apply in_or_app. left.
      unfold Services._adicionar_restricao_limite_creditos. cbn [snd].
      apply in_flat_map. exists s. split; [exact Hs|].
      fold al. rewrite E. left; reflexivity. }
    apply is_empty_true in E. rewrite E. cbn [evalZ fold_right]. lia.
  - apply (feasible_holdsZ v _ _ _ _ Hf) in Hin;
      [| apply integral_termos_de_credito | reflexivity].
    exact Hin.
Qed.

Lemma get_filter_key {V : Type} (p : string -> bool) (d : list (string * V)) (k : string) :
  p k = true ->
  Py.get String.eqb (filter (fun e => p (fst e)) d) k = Py.get String.eqb d k.
Proof.
  intros Hp. induction d as [|[k' v'] d IH]; [reflexivity|].
  cbn [filter fst]. destruct (p k') eqn:E; cbn [Py.get].
  - rewrite IH. reflexivity.
  - destruct (String.eqb_spec k k') as [->|Hne]; [congruence | exact IH].
Qed.

Lemma NoDup_keys_filter {V : Type} (p : string * V -> bool) (d : list (string * V)) :
  NoDup (map fst d) -> NoDup (map fst (filter p d)).
Proof.
  induction d as [|e d IH]; intros H; [constructor|].
  inversion H as [|? ? Hnin Hnd]; subst. cbn [filter].
  destruct (p e); [|auto]. cbn [map]. constructor; [|auto].
  intros Hin. apply Hnin. apply in_map_iff in Hin as [x [Hx Hin]].
  apply filter_In in Hin as [Hin _]. apply in_map_iff. exists x. auto.
Qed.

Lemma creditos_atribuidos_ext (cat cat' : list (string * Disciplina)) (v : Var -> Z)
    (al : list Key) (s : Z) :
  (forall k, In k al -> credito_de cat (key_d k) = credito_de cat' (key_d k)) ->
  creditos_atribuidos cat v al s = creditos_atribuidos cat' v al s.
Proof.
  intros H. unfold creditos_atribuidos. induction al as [|k al IH]; [reflexivity|].
  cbn [filter]. assert (IH' := IH (fun k' Hk => H k' (or_intror Hk))).
  destruct (Z.eqb (key_s k) s); [|exact IH'].
  cbn [map fold_right]. rewrite IH', (H k (or_introl eq_refl)). reflexivity.
Qed.

(** The credit cap in a solution of the backend model. *)
Lemma backend_credit_cap (dados : DadosDisciplinas) (creditos_minimos : CreditosMinimos)
    (NUM_SEMESTRES CREDITOS_MAXIMOS : Z) (disciplinas_cursadas : list string)
    (m : Model) (v : Var -> Z) (s : Z) :
  Backend.construir_modelo dados creditos_minimos NUM_SEMESTRES CREDITOS_MAXIMOS
    disciplinas_cursadas = Return m ->
  feasible v m ->
  dict_ok (disciplinas dados) ->
  0 <= CREDITOS_MAXIMOS ->
  1 <= s <= NUM_SEMESTRES ->
  creditos_atribuidos (disciplinas dados) v
    (Backend.alocacao dados NUM_SEMESTRES disciplinas_cursadas) s
  <= CREDITOS_MAXIMOS.
Proof.
  intros Hm Hf Hnd Hcap Hs. apply backend_semestres_In in Hs.
  set (al := Backend.alocacao dados NUM_SEMESTRES disciplinas_cursadas).
  set (cat := Backend.a_cursar dados disciplinas_cursadas).
  rewrite <- (creditos_atribuidos_ext cat).
  - assert (Hnd' : NoDup (map fst cat)) by (apply NoDup_keys_filter; exact Hnd).
    rewrite <- (soma_catalogo_atribuidos _ v al s Hnd'
                  (backend_alocacao_bounds _ _ _ _ _ m v Hm Hf)).
    rewrite <- evalZ_termos_de_credito.
    change (evalZ v (ESum (Backend.termos_de_credito dados NUM_SEMESTRES
                             disciplinas_cursadas s)) <= CREDITOS_MAXIMOS).
    destruct (Py.is_empty (Backend.termos_de_credito dados NUM_SEMESTRES
                             disciplinas_cursadas s)) eqn:E.
    + apply is_empty_true in E. rewrite E. cbn [evalZ fold_right]. exact Hcap.
    + assert (Hin : In (ESum (Backend.termos_de_credito dados NUM_SEMESTRES
                                disciplinas_cursadas s)
                        <=' EInt CREDITOS_MAXIMOS) (constraints m)).
      { destruct (backend_constraints _ _ _ _ _ _ Hm) as [r3 [_ [_ Hc]]].
        rewrite Hc. do 6 (apply in_or_app; right). apply in_or_app. left.
        unfold Backend.r6_limite_creditos. apply in_flat_map.
        exists s. split; [exact Hs|]. rewrite E. left; reflexivity. }
      apply (feasible_holdsZ v _ _ _ _ Hf) in Hin;
        [| apply integral_termos_de_credito | reflexivity].
      exact Hin.
  - intros [[d s'] t] Hk. cbn [key_d fst]. unfold credito_de, cat, Backend.a_cursar.
    apply backend_alocacao_In in Hk as (_ & Hc & _).
    rewrite (get_filter_key (fun d => negb (Backend.cursada disciplinas_cursadas d))).
    + reflexivity.
    + apply negb_true_iff. apply backend_cursada_false. exact Hc.
Qed.

(** C6. In every solution of the services model, and in every solution of
    the backend model with a non-negative cap, the credits of the courses
    assigned to a term of the planning range sum to at most the per-term
    credit cap. The catalog is a dict: its keys are distinct. *)
Theorem C6_credit_cap (lower : string -> string) (cfg : Services.OptimizerConfig)
    (dados : DadosDisciplinas) (creditos_minimos : CreditosMinimos)
    (NUM_SEMESTRES CREDITOS_MAXIMOS : Z) (disciplinas_cursadas : list string)
    (m : Model) (v : Var -> Z) (s : Z) :
  (feasible v (Services.construir_modelo lower cfg) ->
   dict_ok (disciplinas (Services.dados cfg)) ->
   Services.semestre_inicio cfg <= s <= Services.num_semestres_total cfg ->
   creditos_atribuidos (disciplinas (Services.dados cfg)) v
     (Services.alocacao_do_modelo cfg) s
   <= Services.creditos_maximos_por_semestre cfg)
  /\ (Backend.construir_modelo dados creditos_minimos NUM_SEMESTRES CREDITOS_MAXIMOS
        disciplinas_cursadas = Return m ->
      feasible v m ->
      dict_ok (disciplinas dados) ->
      0 <= CREDITOS_MAXIMOS ->
      1 <= s <= NUM_SEMESTRES ->
      creditos_atribuidos (disciplinas dados) v
        (Backend.alocacao dados NUM_SEMESTRES disciplinas_cursadas) s
      <= CREDITOS_MAXIMOS).
Proof.
  split.
  - apply services_credit_cap.
  - apply backend_credit_cap.
Qed.

Lemma C6_credit_cap_witness :
  creditos_atribuidos (disciplinas Exemplos.dados_XY) Exemplos.sol_XY
    (Services.alocacao_do_modelo Exemplos.cfg_XY) 1 <= 32
  /\ creditos_atribuidos (disciplinas Exemplos.dados_XY) Exemplos.sol_XY
       (Backend.alocacao Exemplos.dados_XY 2 []) 1 <= 32.
Proof.
  destruct (C6_credit_cap Exemplos.lower_ascii Exemplos.cfg_XY
              Exemplos.dados_XY (mkMinimos 0 0 0) 2 32 []
              (modelo_de (Backend.construir_modelo Exemplos.dados_XY
                            (mkMinimos 0 0 0) 2 32 []))
              Exemplos.sol_XY 1) as [Hs Hb].
  split.
  - apply Hs.
    + apply feasibleb_sound. vm_compute. reflexivity.
    + unfold dict_ok. simpl. repeat constructor; simpl; intuition discriminate.
    + split; vm_compute; intros H; discriminate H.
  - apply Hb.
    + vm_compute. reflexivity.
    + apply feasibleb_sound. vm_compute. reflexivity.
    + unfold dict_ok. simpl. repeat constructor; simpl; intuition discriminate.
    + lia.
    + lia.
Defined.

(** ** C4: the internship rule *)

Lemma soma_app (v : Var -> Z) (a b : list Key) : soma v (a ++ b) = soma v a + soma v b.
Proof. induction a as [|k a IH]; simpl; [reflexivity|]. rewrite IH. lia. Qed.

(** [soma] does not depend on the order of the keys. *)
Lemma soma_mesmos_elementos (v : Var -> Z) :
  forall a b : list Key,
    NoDup a -> NoDup b -> (forall k, In k a <-> In k b) -> soma v a = soma v b.
Proof.
  induction a as [|k a IH]; intros b Ha Hb Hab.
  - destruct b as [|k b]; [reflexivity|]. exfalso. apply (Hab k). left; reflexivity.
  - assert (Hk : In k b) by (apply Hab; left; reflexivity).
    apply in_split in Hk as [b1 [b2 ->]].
    inversion Ha as [|? ? Hnin Ha']; subst.
    rewrite soma_app. cbn [soma fold_right]. fold (soma v b2). fold (soma v a).
    rewrite (IH (b1 ++ b2) Ha').
    + rewrite soma_app. lia.
    + apply NoDup_remove_1 in Hb. exact Hb.
    + intros k'. split.
      * intros Hin. assert (H : In k' (b1 ++ k :: b2)) by (apply Hab; right; exact Hin).
        apply in_app_or in H as [H|[H|H]]; apply in_or_app; auto.
        subst. contradiction.
      * intros Hin. assert (H : In k' (k :: a)).
        { apply Hab. apply in_app_or in Hin as [H|H]; apply in_or_app; simpl; auto. }
        destruct H as [H|H]; [|exact H]. subst.
        apply NoDup_remove_2 in Hb. contradiction.
Qed.

Lemma NoDup_flat_map_disjoint {A B : Type} (f : A -> list B) (l : list A) :
  NoDup l ->
  (forall a, In a l -> NoDup (f a)) ->
  (forall a a' b, In a l -> In a' l -> In b (f a) -> In b (f a') -> a = a') ->
  NoDup (flat_map f l).
Proof.
  induction l as [|a l IH]; intros Hl Hf Hinj; [constructor|].
  inversion Hl as [|? ? Hnin Hl']; subst. cbn [flat_map].
  apply NoDup_app.
  - apply Hf. left; reflexivity.
  - apply IH; [exact Hl' | intros; apply Hf; right; assumption |].
    intros x y b Hx Hy. apply Hinj; right; assumption.
  - intros b Hb Hb'. apply in_flat_map in Hb' as [a' [Ha' Hb']].
    assert (a = a') by (apply (Hinj a a' b); simpl; auto).
    subst. contradiction.
Qed.

Lemma map_flat_map_comm {A B C : Type} (g : B -> C) (f : A -> list B) (l : list A) :
  map g (flat_map f l) = flat_map (fun x => map g (f x)) l.
Proof.
  induction l as [|a l IH]; [reflexivity|].
  cbn [flat_map]. rewrite map_app, IH. reflexivity.
Qed.

Section Estagio.

Variable dados : DadosDisciplinas.
Variable NUM_SEMESTRES : Z.
Variable disciplinas_cursadas : list string.

Let al := Backend.alocacao dados NUM_SEMESTRES disciplinas_cursadas.

Lemma vars_concluidas_antes_chaves (s : Z) :
  Backend.vars_concluidas_antes dados NUM_SEMESTRES disciplinas_cursadas s
  = map (fun k => EVar (alocacao_var k))
        (chaves_concluidas_antes dados NUM_SEMESTRES disciplinas_cursadas s).
Proof.
  unfold Backend.vars_concluidas_antes, chaves_concluidas_antes.
  rewrite map_flat_map_comm. apply flat_map_ext. intros [d info]. cbn [fst].
  destruct (Backend.cursada disciplinas_cursadas d); [reflexivity|].
  destruct (String.eqb d Backend.id_estagio); [reflexivity|].
  rewrite map_flat_map_comm. apply flat_map_ext. intros sem.
  rewrite map_flat_map_comm. apply flat_map_ext. intros t.
  destruct (Py.mem key_eqb (d, sem, t) _); reflexivity.
Qed.

Lemma chaves_concluidas_antes_In (s : Z) (k : Key) :
  In k (chaves_concluidas_antes dados NUM_SEMESTRES disciplinas_cursadas s)
  <-> In k (filter (outra_antes s) al).
Proof.
  rewrite filter_In. unfold chaves_concluidas_antes, outra_antes.
  rewrite in_flat_map. split.
  - intros [[d info] [Hd H]]. cbn [fst] in H.
    destruct (Backend.cursada disciplinas_cursadas d); [contradiction|].
    destruct (String.eqb d Backend.id_estagio) eqn:Ee; [contradiction|].
    apply in_flat_map in H as [sem [Hsem H]].
    apply in_flat_map in H as [t [Ht H]].
    destruct (Py.mem key_eqb (d, sem, t) _) eqn:Em; [|contradiction].
    destruct H as [<-|[]]. apply (mem_In key_eqb key_eqb_eq) in Em.
    split; [exact Em|]. cbn [key_d key_s fst snd]. rewrite Ee.
    apply range_In in Hsem. apply andb_true_iff. split; [reflexivity|].
    apply Z.ltb_lt. lia.
  - intros [Hk Hp]. destruct k as [[d sem] t]. cbn [key_d key_s fst snd] in Hp.
    apply andb_true_iff in Hp as [Hne Hlt]. apply negb_true_iff in Hne.
    apply Z.ltb_lt in Hlt. pose proof Hk as Hk'.
    apply backend_alocacao_In in Hk' as ([info Hd] & Hc & Ht & Hs & _).
    exists (d, info). split; [exact Hd|]. cbn [fst].
    apply backend_cursada_false in Hc. rewrite Hc, Hne.
    apply in_flat_map. exists sem. split; [apply range_In; lia|].
    apply in_flat_map. exists t. split; [exact Ht|].
    apply (mem_In key_eqb key_eqb_eq) in Hk. fold al. rewrite Hk. left; reflexivity.
Qed.

Hypothesis Hcat : dict_ok (disciplinas dados).
Hypothesis Hturmas :
  forall d, NoDup (Py.get_default String.eqb (turmas_por_disciplina dados) d []).

Lemma chaves_concluidas_antes_NoDup (s : Z) :
  NoDup (chaves_concluidas_antes dados NUM_SEMESTRES disciplinas_cursadas s).
Proof.
  unfold chaves_concluidas_antes. apply NoDup_flat_map_disjoint.
  - apply (NoDup_map_inv fst). exact Hcat.
  - intros [d info] _. cbn [fst].
    destruct (Backend.cursada disciplinas_cursadas d); [constructor|].
    destruct (String.eqb d Backend.id_estagio); [constructor|].
    apply NoDup_flat_map_disjoint.
    + apply range_NoDup.
    + intros sem _. apply NoDup_flat_map_disjoint.
      * apply Hturmas.
      * intros t _. destruct (Py.mem key_eqb _ _); repeat constructor. simpl. tauto.
      * intros t t' b _ _ Hb Hb'.
        destruct (Py.mem key_eqb (d, sem, t) _); [|contradiction].
        destruct (Py.mem key_eqb (d, sem, t') _); [|contradiction].
        destruct Hb as [<-|[]]. destruct Hb' as [E|[]]. congruence.
    + intros sem sem' b _ _ Hb Hb'.
      apply in_flat_map in Hb as [t [_ Hb]]. apply in_flat_map in Hb' as [t' [_ Hb']].
      destruct (Py.mem key_eqb (d, sem, t) _); [|contradiction].
      destruct (Py.mem key_eqb (d, sem', t') _); [|contradiction].
      destruct Hb as [<-|[]]. destruct Hb' as [E|[]]. congruence.
  - intros [d info] [d' info'] b Ha Ha' Hb Hb'. cbn [fst] in Hb, Hb'.
    assert (Hd : forall d0 (x : Key),
               In x (if Backend.cursada disciplinas_cursadas d0 then []
                     else if String.eqb d0 Backend.id_estagio then []
                     else flat_map
                            (fun sem_past =>
                               flat_map
                                 (fun t_other =>
                                    if Py.mem key_eqb (d0, sem_past, t_other)
                                         (Backend.alocacao dados NUM_SEMESTRES
                                            disciplinas_cursadas)
                                    then [(d0, sem_past, t_other)] else [])
                                 (Py.get_default String.eqb
                                    (turmas_por_disciplina dados) d0 []))
                            (Py.range 1 s)) ->
               key_d x = d0).
    { intros d0 x Hx.
      destruct (Backend.cursada disciplinas_cursadas d0); [contradiction|].
      destruct (String.eqb d0 Backend.id_estagio); [contradiction|].
      apply in_flat_map in Hx as [sem [_ Hx]]. apply in_flat_map in Hx as [t [_ Hx]].
      destruct (Py.mem key_eqb _ _); [|contradiction].
      destruct Hx as [<-|[]]. reflexivity. }
    apply Hd in Hb, Hb'. assert (E : d' = d) by congruence.
    rewrite E in Ha'. rewrite E. f_equal.
    apply (In_get_NoDup String.eqb String.eqb_eq _ _ _ Hcat) in Ha, Ha'. congruence.
Qed.

(** The sum the rule adds up is the number of earlier assignments. *)
Lemma evalZ_vars_concluidas_antes (v : Var -> Z) (s : Z) :
  evalZ v (ESum (Backend.vars_concluidas_antes dados NUM_SEMESTRES disciplinas_cursadas s))
  = cursadas_antes v al s.
Proof.
  rewrite vars_concluidas_antes_chaves. unfold cursadas_antes, al.
  rewrite <- (soma_mesmos_elementos v _ _ (chaves_concluidas_antes_NoDup s)
                (NoDup_filter _ (backend_alocacao_NoDup dados NUM_SEMESTRES
                                   disciplinas_cursadas))
                (chaves_concluidas_antes_In s)).
  cbn [evalZ]. unfold soma.
  induction (chaves_concluidas_antes dados NUM_SEMESTRES disciplinas_cursadas s)
    as [|k l IH]; [reflexivity|].
  cbn [map fold_right evalZ]. rewrite IH. reflexivity.
Qed.

Lemma integral_vars_concluidas_antes (s : Z) :
  integral (ESum (Backend.vars_concluidas_antes dados NUM_SEMESTRES
                    disciplinas_cursadas s)) = true.
Proof.
  rewrite vars_concluidas_antes_chaves. cbn [integral].
  induction (chaves_concluidas_antes dados NUM_SEMESTRES disciplinas_cursadas s);
    [reflexivity | assumption].
Qed.

End Estagio.

Lemma metade_para_Z (total X L : Z) :
  (inject_Z total / 2 - inject_Z X <= inject_Z L)%Q -> total - 2 * X <= 2 * L.
Proof.
  intros H.
  unfold Qle, Qminus, Qdiv, Qinv, Qmult, Qplus, Qopp, inject_Z in H. simpl in H.
  lia.
Qed.

(** A constraint [L >= c - M * E] with integer [L] and [E] and any
    constant [c]. *)
Lemma holds_metade (v : Var -> Z) (L E : LinearExpr) (c : Q) (M : Z) :
  integral L = true -> integral E = true ->
  holds v (L >=' ESub (ECst c) (EMul (inject_Z M) E)) ->
  (c - inject_Z (M * evalZ v E) <= inject_Z (evalZ v L))%Q.
Proof.
  intros HL HE H. unfold holds in H. cbn [rel lhs rhs eval] in H.
  rewrite (eval_integral v L HL), (eval_integral v E HE) in H.
  rewrite inject_Z_mult. exact H.
Qed.

Lemma do_curso_no_semestre_true (d : string) (s : Z) (k : Key) :
  do_curso_no_semestre d s k = true <-> key_d k = d /\ key_s k = s.
Proof.
  unfold do_curso_no_semestre. rewrite andb_true_iff, String.eqb_eq, Z.eqb_eq. tauto.
Qed.

(** The constraint R7 adds for a term in which the internship has a
    variable. *)
Lemma backend_r7_In (dados : DadosDisciplinas) (NUM_SEMESTRES : Z)
    (disciplinas_cursadas : list string) (s : Z) (t : string) :
  In (Backend.id_estagio, s, t) (Backend.alocacao dados NUM_SEMESTRES disciplinas_cursadas) ->
  In (EAdd (EInt (Backend.count_cursadas_past disciplinas_cursadas))
           (ESum (Backend.vars_concluidas_antes dados NUM_SEMESTRES disciplinas_cursadas s))
      >=' ESub (ECst (Backend.metade_total dados))
               (EMul (inject_Z (Backend.M_estagio dados))
                     (ESub (EInt 1)
                           (ESum (vars_where
                                    (Backend.alocacao dados NUM_SEMESTRES disciplinas_cursadas)
                                    (do_curso_no_semestre Backend.id_estagio s))))))
     (Backend.r7_estagio dados NUM_SEMESTRES disciplinas_cursadas).
Proof.
  intros Hk. pose proof Hk as Hk'.
  apply backend_alocacao_In in Hk' as ([info Hd] & Hc & _ & Hs & _).
  unfold Backend.r7_estagio.
  assert (Hhas : Py.has String.eqb (disciplinas dados) Backend.id_estagio = true).
  { apply has_In. apply in_map_iff. exists (Backend.id_estagio, info). auto. }
  apply backend_cursada_false in Hc. rewrite Hhas, Hc. cbn [negb andb].
  apply in_flat_map. exists s. split; [apply backend_semestres_In; exact Hs|].
  rewrite (vars_where_nonempty _ _ _ Hk).
  - left; reflexivity.
  - apply do_curso_no_semestre_true. split; reflexivity.
Qed.

(** The services model of a catalog with the internship and one other
    required course accepts the internship in term 1, with no course
    completed or assigned before: 0 is less than half of 2. *)
Lemma C4_counterexample :
  feasible Exemplos.sol_estagio_cedo
    (Services.construir_modelo Exemplos.lower_ascii Exemplos.cfg_estagio)
  /\ In ("EEWU00"%string, 1, "TE"%string) (Services.alocacao_do_modelo Exemplos.cfg_estagio)
  /\ Exemplos.sol_estagio_cedo (alocacao_var ("EEWU00"%string, 1, "TE"%string)) = 1
  /\ 2 * (Z.of_nat (List.length (Services.disciplinas_concluidas_ids Exemplos.cfg_estagio))
          + cursadas_antes Exemplos.sol_estagio_cedo
              (Services.alocacao_do_modelo Exemplos.cfg_estagio) 1)
     < Z.of_nat (List.length (disciplinas (Services.dados Exemplos.cfg_estagio))).
Proof.
  split; [apply feasibleb_sound; vm_compute; reflexivity|].
  split; [vm_compute; auto|]. split; [reflexivity|]. vm_compute. reflexivity.
Qed.

(** The same assignment is not a solution of the backend model. *)
Lemma backend_rejeita_estagio_cedo :
  feasibleb Exemplos.sol_estagio_cedo
    (modelo_de (Backend.construir_modelo Exemplos.dados_estagio
                  (mkMinimos 0 0 0) 2 32 [])) = false.
Proof. vm_compute. reflexivity. Qed.

(** C4 (amended). In every solution of the backend model in which the
    internship [EEWU00] is assigned to term [s], the number of completed
    courses plus the number of assignments of other courses to terms before
    [s] is at least half the number of courses of the catalog. The catalog is
    a dict (distinct keys) and a course lists each of its sections once. The
    services model has no constraint of this kind. *)
Theorem C4_internship_gate (dados : DadosDisciplinas) (creditos_minimos : CreditosMinimos)
    (NUM_SEMESTRES CREDITOS_MAXIMOS : Z) (disciplinas_cursadas : list string)
    (m : Model) (v : Var -> Z) (s : Z) (t : string) :
  Backend.construir_modelo dados creditos_minimos NUM_SEMESTRES CREDITOS_MAXIMOS
    disciplinas_cursadas = Return m ->
  feasible v m ->
  dict_ok (disciplinas dados) ->
  (forall d, NoDup (Py.get_default String.eqb (turmas_por_disciplina dados) d [])) ->
  In (Backend.id_estagio, s, t) (Backend.alocacao dados NUM_SEMESTRES disciplinas_cursadas) ->
  v (alocacao_var (Backend.id_estagio, s, t)) = 1 ->
  Backend.total_disciplinas dados
  <= 2 * (Backend.count_cursadas_past disciplinas_cursadas
          + cursadas_antes v (Backend.alocacao dados NUM_SEMESTRES disciplinas_cursadas) s).
Proof.
  intros Hm Hf Hcat Hturmas Hk Hv.
  set (al := Backend.alocacao dados NUM_SEMESTRES disciplinas_cursadas) in *.
  pose proof (backend_r7_In dados NUM_SEMESTRES disciplinas_cursadas s t Hk) as Hin.
  assert (Hsub : forall c,
             In c (Backend.r7_estagio dados NUM_SEMESTRES disciplinas_cursadas) ->
             In c (constraints m)).
  { intros c Hc'. destruct (backend_constraints _ _ _ _ _ _ Hm) as [r3 [_ [_ Hc]]].
    rewrite Hc. do 7 (apply in_or_app; right). apply in_or_app. left. exact Hc'. }
  pose proof (feasible_holds v m _ Hf (Hsub _ Hin)) as Hin'.
  apply holds_metade in Hin';
    [| cbn [integral]; apply andb_true_iff; split;
       [reflexivity
       | exact (integral_vars_concluidas_antes dados NUM_SEMESTRES disciplinas_cursadas s)]
     | cbn [integral]; rewrite integral_vars_where; reflexivity].
  unfold Backend.metade_total in Hin'. apply metade_para_Z in Hin'.
  cbn [evalZ EInt Qnum inject_Z] in Hin'.
  change (fold_right (fun e acc => evalZ v e + acc) 0
            (vars_where (Backend.alocacao dados NUM_SEMESTRES disciplinas_cursadas)
               (do_curso_no_semestre Backend.id_estagio s)))
    with (evalZ v (ESum (vars_where
                           (Backend.alocacao dados NUM_SEMESTRES disciplinas_cursadas)
                           (do_curso_no_semestre Backend.id_estagio s))))
    in Hin'.
  change (fold_right (fun e acc => evalZ v e + acc) 0
            (Backend.vars_concluidas_antes dados NUM_SEMESTRES disciplinas_cursadas s))
    with (evalZ v (ESum (Backend.vars_concluidas_antes dados NUM_SEMESTRES
                           disciplinas_cursadas s))) in Hin'.
  rewrite evalZ_vars_where in Hin'.
  rewrite (evalZ_vars_concluidas_antes dados NUM_SEMESTRES disciplinas_cursadas
             Hcat Hturmas v s) in Hin'.
  fold al in Hin'.
  assert (Hge : 1 <= soma v (filter (do_curso_no_semestre Backend.id_estagio s) al)).
  { rewrite <- Hv. apply soma_ge_member.
    - intros k' Hk'. apply filter_In in Hk' as [Hk' _].
      exact (backend_alocacao_bounds _ _ _ _ _ m v Hm Hf k' Hk').
    - apply filter_In. split; [exact Hk|].
      apply do_curso_no_semestre_true. split; reflexivity. }
  assert (HM : 0 < Backend.M_estagio dados).
  { unfold Backend.M_estagio, Backend.total_disciplinas. lia. }
  nia.
Qed.

Lemma C4_internship_gate_witness :
  Backend.total_disciplinas Exemplos.dados_estagio
  <= 2 * (Backend.count_cursadas_past []
          + cursadas_antes Exemplos.sol_estagio
              (Backend.alocacao Exemplos.dados_estagio 2 []) 2).
Proof.
  apply (C4_internship_gate Exemplos.dados_estagio (mkMinimos 0 0 0) 2 32 []
           (modelo_de (Backend.construir_modelo Exemplos.dados_estagio
                         (mkMinimos 0 0 0) 2 32 []))
           Exemplos.sol_estagio 2 "TE").
  - vm_compute. reflexivity.
  - apply feasibleb_sound. vm_compute. reflexivity.
  - unfold dict_ok. simpl. repeat constructor; simpl; intuition discriminate.
  - intros d. unfold Py.get_default. simpl.
    destruct (String.eqb d "X"); [repeat constructor; simpl; tauto|].
    destruct (String.eqb d "EEWU00"); repeat constructor; simpl; tauto.
  - vm_compute. auto.
  - reflexivity.
Defined.

(** * Further properties of the builders, the decoders and the loader *)

Lemma soma_zero_all (v : Var -> Z) (ks : list Key) :
  (forall k, In k ks -> 0 <= v (alocacao_var k) <= 1) ->
  soma v ks = 0 -> forall k, In k ks -> v (alocacao_var k) = 0.
Proof.
  induction ks as [|k0 ks IH]; intros Hb Hs k Hk; [contradiction|].
  cbn [soma fold_right] in Hs. fold (soma v ks) in Hs.
  assert (H0 := Hb k0 (or_introl eq_refl)).
  assert (Hn : 0 <= soma v ks) by (apply soma_nonneg; intros; apply Hb; right; assumption).
  destruct Hk as [<-|Hk]; [lia|].
  apply IH; [intros; apply Hb; right; assumption | lia | exact Hk].
Qed.

Lemma soma_s_zero (v : Var -> Z) (ks : list Key) :
  (forall k, In k ks -> v (alocacao_var k) = 0) -> soma_s v ks = 0.
Proof.
  induction ks as [|k0 ks IH]; intros H; [reflexivity|].
  cbn [soma_s fold_right]. fold (soma_s v ks).
  rewrite (H k0 (or_introl eq_refl)), IH; [lia|]. intros; apply H; right; assumption.
Qed.

(** When exactly one variable of the list is 1, the weighted sum of the
    terms is the term of that variable, and no other key has value 1. *)
Lemma soma_um (v : Var -> Z) (ks : list Key) (k : Key) :
  (forall k, In k ks -> 0 <= v (alocacao_var k) <= 1) ->
  NoDup ks ->
  soma v ks <= 1 -> In k ks -> v (alocacao_var k) = 1 ->
  soma_s v ks = key_s k
  /\ forall k', In k' ks -> v (alocacao_var k') = 1 -> k' = k.
Proof.
  induction ks as [|k0 ks IH]; intros Hb Hnd Hs Hk Hv; [contradiction|].
  cbn [soma fold_right] in Hs. fold (soma v ks) in Hs.
  cbn [soma_s fold_right]. fold (soma_s v ks).
  inversion Hnd as [|? ? Hnin Hnd']; subst.
  assert (Hb' : forall k, In k ks -> 0 <= v (alocacao_var k) <= 1)
    by (intros; apply Hb; right; assumption).
  assert (H0 := Hb k0 (or_introl eq_refl)).
  assert (Hn : 0 <= soma v ks) by (apply soma_nonneg; exact Hb').
  destruct Hk as [->|Hk].
  - assert (Hz : forall k', In k' ks -> v (alocacao_var k') = 0)
      by (apply soma_zero_all; [exact Hb' | lia]).
    split.
    + rewrite Hv, (soma_s_zero v ks Hz). lia.
    + intros k' [E|Hk'] Hv'; [symmetry; exact E|]. rewrite (Hz k' Hk') in Hv'. discriminate.
  - assert (Hge : v (alocacao_var k) <= soma v ks) by (apply soma_ge_member; assumption).
    assert (E0 : v (alocacao_var k0) = 0) by lia.
    destruct (IH Hb' Hnd' ltac:(lia) Hk Hv) as [Hs' Hu].
    split.
    + rewrite E0, Hs'. lia.
    + intros k' [E|Hk'] Hv'; [subst k'; lia | apply Hu; assumption].
Qed.

Lemma evalZ_termos (v : Var -> Z) (ks : list Key) :
  evalZ v (ESum (map (fun k => EMul (inject_Z (key_s k)) (EVar (alocacao_var k))) ks))
  = soma_s v ks.
Proof.
  cbn [evalZ]. induction ks as [|k ks IH]; [reflexivity|].
  cbn [map fold_right evalZ inject_Z Qnum soma_s]. fold (soma_s v ks). rewrite IH. reflexivity.
Qed.

Lemma integral_termos (ks : list Key) :
  integral (ESum (map (fun k => EMul (inject_Z (key_s k)) (EVar (alocacao_var k))) ks)) = true.
Proof. cbn [integral]. induction ks as [|k ks IH]; [reflexivity | exact IH]. Qed.

Section ServicesAgenda.

Variable cfg : Services.OptimizerConfig.
Variable lower : string -> string.
Variable v : Var -> Z.
Hypothesis Hfeas : feasible v (Services.construir_modelo lower cfg).

Let a_cursar := Services._preparar_disciplinas_a_cursar cfg.
Let al := Services.alocacao_do_modelo cfg.

Lemma services_semestre_bounds (d : string) :
  In d (Services.todas a_cursar) ->
  Services.semestre_inicio cfg <= v (semestre_var d)
  <= Services.num_semestres_total cfg + 1.
Proof.
  intros Hd.
  apply (feasible_bounds v _
           (IntVar (Services.semestre_inicio cfg)
                   (Services.num_semestres_total cfg + 1) (semestre_var d)) Hfeas).
  rewrite services_variables. apply in_or_app. left.
  unfold Services._criar_variaveis_decisao. cbn [Services.declaradas].
  apply in_or_app. right. apply in_or_app. left.
  apply in_map_iff. exists d. split; [reflexivity|].
  apply (keys_of_In String.eqb String.eqb_eq). exact Hd.
Qed.

(** The linking constraint, read in a solution. *)
Lemma services_ligacao_valor (d : string) :
  In d (Services.todas a_cursar) ->
  v (semestre_var d)
  = soma_s v (filter (do_curso d) al)
    + Services.dummy_value cfg * (1 - soma v (filter (do_curso d) al)).
Proof.
  intros Hd.
  destruct (Py.is_empty (vars_where al (do_curso d))) eqn:He.
  { exfalso. exact (services_sem_variaveis_inviavel cfg lower v Hfeas d Hd He). }
  pose proof (services_ligacao_In cfg lower d Hd) as Hin.
  unfold Services.ligacao in Hin.
  fold (Services.alocacao_do_modelo cfg) in Hin. fold al in Hin. rewrite He in Hin.
  apply (feasible_holdsZ v _ _ _ _ Hfeas) in Hin.
  - unfold Services.termos_semestre in Hin.
    cbn [evalZ] in Hin.
    change (fold_right (fun e acc => evalZ v e + acc) 0
              (map (fun k => EMul (inject_Z (key_s k)) (EVar (alocacao_var k)))
                   (filter (do_curso d) al)))
      with (evalZ v (ESum (map (fun k => EMul (inject_Z (key_s k)) (EVar (alocacao_var k)))
                               (filter (do_curso d) al)))) in Hin.
    change (fold_right (fun e acc => evalZ v e + acc) 0 (vars_where al (do_curso d)))
      with (evalZ v (ESum (vars_where al (do_curso d)))) in Hin.
    rewrite evalZ_termos, evalZ_vars_where in Hin.
    cbn [EInt Qnum inject_Z] in Hin. exact Hin.
  - reflexivity.
  - cbn [integral]. unfold Services.termos_semestre.
    change (forallb integral (map (fun k => EMul (inject_Z (key_s k)) (EVar (alocacao_var k)))
                                   (filter (do_curso d) al)))
      with (integral (ESum (map (fun k => EMul (inject_Z (key_s k)) (EVar (alocacao_var k)))
                                (filter (do_curso d) al)))).
    rewrite integral_termos, integral_vars_where. reflexivity.
Qed.

(** Every course of [todas] is assigned exactly once: R1 and R2 allow at
    most one assignment, and without an assignment the linking constraint
    puts the completion term at [num_semestres_total + 2], outside the
    bounds of the variable. *)
Lemma services_exatamente_uma (d : string) :
  In d (Services.todas a_cursar) -> soma v (filter (do_curso d) al) = 1.
Proof.
  intros Hd.
  pose proof (services_at_most_once cfg lower v Hfeas d Hd) as Hle.
  pose proof (services_ligacao_valor d Hd) as Hl.
  pose proof (services_semestre_bounds d Hd) as Hb.
  assert (Hn : 0 <= soma v (filter (do_curso d) al)).
  { apply soma_nonneg. intros k. apply (services_filter_bounds cfg lower v Hfeas). }
  fold a_cursar al in Hle.
  assert (C : soma v (filter (do_curso d) al) = 0 \/ soma v (filter (do_curso d) al) = 1)
    by lia.
  destruct C as [C|C]; [|exact C]. exfalso.
  rewrite C in Hl.
  rewrite (soma_s_zero v) in Hl.
  - unfold Services.dummy_value in Hl. lia.
  - apply soma_zero_all; [|exact C].
    intros k. apply (services_filter_bounds cfg lower v Hfeas).
Qed.

End ServicesAgenda.

Lemma get_Some_In {K V : Type} (eqb : K -> K -> bool)
    (eqb_spec : forall a b, eqb a b = true <-> a = b)
    (d : list (K * V)) (k : K) (x : V) :
  Py.get eqb d k = Some x -> In (k, x) d.
Proof.
  induction d as [|[k' x'] d IH]; intros H; simpl in H; [discriminate|].
  destruct (eqb k k') eqn:E.
  - apply eqb_spec in E. injection H as <-. subst. left; reflexivity.
  - right. apply IH. exact H.
Qed.

Lemma soma_s_ge_member (v : Var -> Z) (ks : list Key) (k : Key) :
  (forall k, In k ks -> 0 <= v (alocacao_var k) <= 1) ->
  (forall k, In k ks -> 0 <= key_s k) ->
  In k ks -> key_s k * v (alocacao_var k) <= soma_s v ks.
Proof.
  induction ks as [|k0 ks IH]; intros Hb Hs Hk; [contradiction|].
  cbn [soma_s fold_right]. fold (soma_s v ks).
  assert (Hn : 0 <= soma_s v ks).
  { clear IH Hk. induction ks as [|k1 ks IH]; [simpl; lia|].
    cbn [soma_s fold_right]. fold (soma_s v ks).
    assert (0 <= soma_s v ks).
    { apply IH; intros k' Hk'; [apply Hb | apply Hs]; simpl in *; tauto. }
    assert (H1 := Hb k1 (or_intror (or_introl eq_refl))).
    assert (H2 := Hs k1 (or_intror (or_introl eq_refl))). nia. }
  assert (H1 := Hb k0 (or_introl eq_refl)).
  assert (H2 := Hs k0 (or_introl eq_refl)).
  destruct Hk as [<-|Hk]; [lia|].
  assert (key_s k * v (alocacao_var k) <= soma_s v ks).
  { apply IH; [intros; apply Hb; right; assumption
              | intros; apply Hs; right; assumption | exact Hk]. }
  nia.
Qed.

Section ServicesAgenda2.

Variable cfg : Services.OptimizerConfig.
Variable lower : string -> string.
Variable v : Var -> Z.
Hypothesis Hfeas : feasible v (Services.construir_modelo lower cfg).

Let a_cursar := Services._preparar_disciplinas_a_cursar cfg.
Let al := Services.alocacao_do_modelo cfg.

Lemma services_maximo_bounds :
  Services.semestre_inicio cfg <= v semestre_maximo <= Services.num_semestres_total cfg.
Proof.
  apply (feasible_bounds v _
           (IntVar (Services.semestre_inicio cfg) (Services.num_semestres_total cfg)
                   semestre_maximo) Hfeas).
  rewrite services_variables. apply in_or_app. right. apply in_or_app. right.
  left; reflexivity.
Qed.

(** The constraint of the objective for a course of [todas], read in a
    solution. *)
Lemma services_objetivo_valor (d : string) :
  In d (Services.todas a_cursar) ->
  v (semestre_var d)
  - Services.m_obj cfg * (1 - soma v (filter (do_curso d) al))
  <= v semestre_maximo.
Proof.
  intros Hd.
  assert (Hin : In (EVar semestre_maximo
                    >=' ESub (EVar (semestre_var d))
                             (EMul (inject_Z (Services.m_obj cfg))
                                   (ESub (EInt 1) (Services.cursada_de al d))))
                   (constraints (Services.construir_modelo lower cfg))).
  { rewrite services_constraints. do 7 (apply in_or_app; right).
    unfold Services._definir_funcao_objetivo. apply in_map_iff.
    exists (d, Services.cursada_de al d). split; [reflexivity|].
    apply (get_Some_In String.eqb String.eqb_eq).
    apply (services_cursada_vars_get cfg d Hd). }
  apply (feasible_holdsZ v _ _ _ _ Hfeas) in Hin;
    [| reflexivity | cbn [integral]; rewrite integral_cursada_de; reflexivity].
  cbn [evalZ EInt Qnum inject_Z] in Hin.
  pose proof (services_cursada_value cfg lower v Hfeas d Hd) as Hc.
  fold al in Hc. rewrite Hc in Hin. exact Hin.
Qed.

End ServicesAgenda2.

(** X1. In every solution of the services model, every course of [todas]
    (the not-completed courses of the four category lists, electives
    included) has exactly one assignment variable with value 1: R1 and R2
    allow at most one, and a course without assignment would have its
    completion term at [num_semestres_total + 2], above the upper bound
    [num_semestres_total + 1] of [semestre_da_disciplina]. *)
Theorem services_every_course_exactly_once (lower : string -> string)
    (cfg : Services.OptimizerConfig) (v : Var -> Z) (d : string) :
  feasible v (Services.construir_modelo lower cfg) ->
  In d (Services.todas (Services._preparar_disciplinas_a_cursar cfg)) ->
  exists k,
    In k (Services.alocacao_do_modelo cfg) /\ key_d k = d /\ v (alocacao_var k) = 1
    /\ forall k', In k' (Services.alocacao_do_modelo cfg) -> key_d k' = d ->
                  v (alocacao_var k') = 1 -> k' = k.
Proof.
  intros Hf Hd.
  pose proof (services_exatamente_uma cfg lower v Hf d Hd) as H1.
  destruct (soma_pos_taken v _ (services_filter_bounds cfg lower v Hf (do_curso d)))
    as [k [Hk Hv]]; [lia|].
  destruct (soma_um v _ k (services_filter_bounds cfg lower v Hf (do_curso d))
              (NoDup_filter _ (services_alocacao_NoDup cfg)) ltac:(lia) Hk Hv)
    as [_ Hu].
  apply filter_In in Hk as [Hk Hkd]. apply do_curso_true in Hkd.
  exists k. repeat split; try assumption.
  intros k' Hk' Hd' Hv'. apply Hu; [|exact Hv'].
  apply filter_In. split; [exact Hk' | apply do_curso_true; exact Hd'].
Qed.

Lemma services_every_course_exactly_once_witness :
  exists k,
    In k (Services.alocacao_do_modelo Exemplos.cfg_XY) /\ key_d k = "Y"%string
    /\ Exemplos.sol_XY (alocacao_var k) = 1
    /\ forall k', In k' (Services.alocacao_do_modelo Exemplos.cfg_XY) ->
                  key_d k' = "Y"%string -> Exemplos.sol_XY (alocacao_var k') = 1 -> k' = k.
Proof.
  apply (services_every_course_exactly_once Exemplos.lower_ascii Exemplos.cfg_XY
           Exemplos.sol_XY "Y").
  - apply feasibleb_sound. vm_compute. reflexivity.
  - vm_compute. auto.
Defined.

(** X2. In every solution of the services model, when the assignment
    variable of (course [d], term [s], section [t]) is 1, the completion-term
    variable of [d] is [s], and [s] lies between the start term and the
    value of [semestre_maximo], which is at most [num_semestres_total]. *)
Theorem services_completion_term (lower : string -> string)
    (cfg : Services.OptimizerConfig) (v : Var -> Z) (d : string) (s : Z) (t : string) :
  feasible v (Services.construir_modelo lower cfg) ->
  In (d, s, t) (Services.alocacao_do_modelo cfg) ->
  v (alocacao_var (d, s, t)) = 1 ->
  v (semestre_var d) = s
  /\ Services.semestre_inicio cfg <= s <= v semestre_maximo
  /\ v semestre_maximo <= Services.num_semestres_total cfg.
Proof.
  intros Hf Hk Hv.
  pose proof Hk as Hk'. apply (services_alocacao_In cfg) in Hk' as (Hd & _ & Hs).
  apply services_semestres_In in Hs.
  pose proof (services_exatamente_uma cfg lower v Hf d Hd) as H1.
  assert (Hkf : In (d, s, t) (filter (do_curso d) (Services.alocacao_do_modelo cfg))).
  { apply filter_In. split; [exact Hk | apply do_curso_true; reflexivity]. }
  destruct (soma_um v _ (d, s, t) (services_filter_bounds cfg lower v Hf (do_curso d))
              (NoDup_filter _ (services_alocacao_NoDup cfg)) ltac:(lia) Hkf Hv)
    as [Hss _].
  pose proof (services_ligacao_valor cfg lower v Hf d Hd) as Hl.
  rewrite Hss, H1 in Hl. cbn [key_s fst snd] in Hl.
  pose proof (services_objetivo_valor cfg lower v Hf d Hd) as Ho.
  rewrite H1 in Ho.
  pose proof (services_maximo_bounds cfg lower v Hf) as Hm.
  lia.
Qed.

Lemma services_completion_term_witness :
  Exemplos.sol_XY (semestre_var "Y") = 2
  /\ Services.semestre_inicio Exemplos.cfg_XY <= 2 <= Exemplos.sol_XY semestre_maximo
  /\ Exemplos.sol_XY semestre_maximo <= Services.num_semestres_total Exemplos.cfg_XY.
Proof.
  apply (services_completion_term Exemplos.lower_ascii Exemplos.cfg_XY
           Exemplos.sol_XY "Y" 2 "TY").
  - apply feasibleb_sound. vm_compute. reflexivity.
  - vm_compute. auto.
  - reflexivity.
Defined.

Section BackendAgenda.

Variable dados : DadosDisciplinas.
Variable creditos_minimos : CreditosMinimos.
Variable NUM_SEMESTRES : Z.
Variable CREDITOS_MAXIMOS_POR_SEMESTRE : Z.
Variable disciplinas_cursadas : list string.
Variable m : Model.
Variable v : Var -> Z.

Hypothesis Hm :
  Backend.construir_modelo dados creditos_minimos NUM_SEMESTRES
    CREDITOS_MAXIMOS_POR_SEMESTRE disciplinas_cursadas = Return m.
Hypothesis Hfeas : feasible v m.

Let al := Backend.alocacao dados NUM_SEMESTRES disciplinas_cursadas.

Lemma backend_group_In_model (c : Constraint) :
  In c (Backend.r1_obrigatorias dados NUM_SEMESTRES disciplinas_cursadas)
  \/ In c (Backend.r1_optativas dados NUM_SEMESTRES disciplinas_cursadas)
  \/ In c (Backend.r2_ligacao dados NUM_SEMESTRES disciplinas_cursadas)
  \/ In c (Backend.r5_conflitos dados NUM_SEMESTRES disciplinas_cursadas)
  \/ In c (Backend.objetivo dados NUM_SEMESTRES disciplinas_cursadas) ->
  In c (constraints m).
Proof.
  intros H. destruct (backend_constraints _ _ _ _ _ _ Hm) as [r3 [_ [_ Hc]]].
  rewrite Hc. rewrite !in_app_iff. tauto.
Qed.

Lemma backend_semestre_bounds (d : string) (info : Disciplina) :
  In (d, info) (disciplinas dados) -> ~ In d disciplinas_cursadas ->
  1 <= v (semestre_var d) <= NUM_SEMESTRES + 1.
Proof.
  intros Hd Hc. destruct (backend_constraints _ _ _ _ _ _ Hm) as [r3 [_ [Hv _]]].
  apply (feasible_bounds v _ (IntVar 1 (NUM_SEMESTRES + 1) (semestre_var d)) Hfeas).
  rewrite Hv. unfold Backend.declaradas. apply in_or_app. right. apply in_or_app. left.
  apply in_map_iff. exists (d, info). split; [reflexivity|].
  apply backend_a_cursar_In. auto.
Qed.

Lemma backend_maximo_bounds : 1 <= v semestre_maximo <= NUM_SEMESTRES.
Proof.
  destruct (backend_constraints _ _ _ _ _ _ Hm) as [r3 [_ [Hv _]]].
  apply (feasible_bounds v _ (IntVar 1 NUM_SEMESTRES semestre_maximo) Hfeas).
  rewrite Hv. unfold Backend.declaradas. apply in_or_app. right. apply in_or_app. right.
  left; reflexivity.
Qed.

(** R2, read in a solution. *)
Lemma backend_ligacao_valor (d : string) (info : Disciplina) :
  In (d, info) (disciplinas dados) -> ~ In d disciplinas_cursadas ->
  v (semestre_var d)
  = soma_s v (filter (do_curso d) al)
    + (NUM_SEMESTRES + 1) * (1 - soma v (filter (do_curso d) al)).
Proof.
  intros Hd Hc.
  pose proof (backend_r2_In dados NUM_SEMESTRES disciplinas_cursadas d info Hd Hc) as Hin.
  assert (Hin' := backend_group_In_model _ (or_intror (or_intror (or_introl Hin)))).
  apply (feasible_holdsZ v _ _ _ _ Hfeas) in Hin'.
  - unfold Backend.termos_semestre in Hin'. cbn [evalZ] in Hin'.
    change (fold_right (fun e acc => evalZ v e + acc) 0
              (map (fun k => EMul (inject_Z (key_s k)) (EVar (alocacao_var k)))
                   (filter (do_curso d)
                      (Backend.alocacao dados NUM_SEMESTRES disciplinas_cursadas))))
      with (evalZ v (ESum (map (fun k => EMul (inject_Z (key_s k)) (EVar (alocacao_var k)))
                               (filter (do_curso d) al)))) in Hin'.
    change (fold_right (fun e acc => evalZ v e + acc) 0
              (vars_where (Backend.alocacao dados NUM_SEMESTRES disciplinas_cursadas)
                 (do_curso d)))
      with (evalZ v (ESum (vars_where al (do_curso d)))) in Hin'.
    rewrite evalZ_termos, evalZ_vars_where in Hin'.
    cbn [EInt Qnum inject_Z] in Hin'. exact Hin'.
  - reflexivity.
  - cbn [integral]. unfold Backend.termos_semestre.
    change (forallb integral (map (fun k => EMul (inject_Z (key_s k)) (EVar (alocacao_var k)))
                                   (filter (do_curso d)
                                      (Backend.alocacao dados NUM_SEMESTRES
                                         disciplinas_cursadas))))
      with (integral (ESum (map (fun k => EMul (inject_Z (key_s k)) (EVar (alocacao_var k)))
                                (filter (do_curso d) al)))).
    rewrite integral_termos, integral_vars_where. reflexivity.
Qed.

(** The constraint of the objective, read in a solution. *)
Lemma backend_objetivo_valor (d : string) (info : Disciplina) :
  In (d, info) (disciplinas dados) -> ~ In d disciplinas_cursadas ->
  v (semestre_var d) - (NUM_SEMESTRES + 1) * (1 - soma v (filter (do_curso d) al))
  <= v semestre_maximo.
Proof.
  intros Hd Hc.
  assert (Hin : In (EVar semestre_maximo
                    >=' ESub (EVar (semestre_var d))
                             (EMul (inject_Z (Backend.M_obj NUM_SEMESTRES))
                                   (ESub (EInt 1) (ESum (vars_where al (do_curso d))))))
                   (constraints m)).
  { apply backend_group_In_model. do 4 right.
    unfold Backend.objetivo. apply in_map_iff. exists (d, info). split.
    - cbn [fst].
      rewrite (backend_semestre_a_cursar disciplinas_cursadas d Hc).
      rewrite (backend_cursada_vars_a_cursar dados NUM_SEMESTRES disciplinas_cursadas d Hc).
      reflexivity.
    - apply backend_a_cursar_In. auto. }
  apply (feasible_holdsZ v _ _ _ _ Hfeas) in Hin;
    [| reflexivity | cbn [integral]; rewrite integral_vars_where; reflexivity].
  cbn [evalZ EInt Qnum inject_Z] in Hin.
  change (fold_right (fun e acc => evalZ v e + acc) 0 (vars_where al (do_curso d)))
    with (evalZ v (ESum (vars_where al (do_curso d)))) in Hin.
  rewrite evalZ_vars_where in Hin. unfold Backend.M_obj in Hin. exact Hin.
Qed.

(** R1.1 and R1.2, read in a solution. *)
Lemma backend_obrigatoria_uma (d : string) :
  In d (obrigatorias_ids dados) -> ~ In d disciplinas_cursadas ->
  soma v (filter (do_curso d) al) = 1.
Proof.
  intros Hd Hc.
  pose proof (backend_r1_In dados NUM_SEMESTRES disciplinas_cursadas d Hd Hc) as Hin.
  assert (Hin' := backend_group_In_model _ (or_introl Hin)).
  apply (feasible_holdsZ v _ _ _ _ Hfeas) in Hin';
    [| apply integral_ESum_vars | reflexivity].
  rewrite evalZ_vars_where, evalZ_EInt in Hin'. exact Hin'.
Qed.

Lemma backend_optativa_no_maximo_uma (d : string) :
  In d (Backend.ids_optativas dados) -> ~ In d disciplinas_cursadas ->
  soma v (filter (do_curso d) al) <= 1.
Proof.
  intros Hd Hc.
  assert (Hin : In (ESum (vars_where al (do_curso d)) <=' EInt 1)
                   (Backend.r1_optativas dados NUM_SEMESTRES disciplinas_cursadas)).
  { unfold Backend.r1_optativas. apply in_flat_map. exists d. split; [exact Hd|].
    apply backend_cursada_false in Hc. rewrite Hc. left; reflexivity. }
  assert (Hin' := backend_group_In_model _ (or_intror (or_introl Hin))).
  apply (feasible_holdsZ v _ _ _ _ Hfeas) in Hin';
    [| apply integral_ESum_vars | reflexivity].
  rewrite evalZ_vars_where, evalZ_EInt in Hin'. exact Hin'.
Qed.

End BackendAgenda.

(** X3. In every solution of the backend model, a not-completed required
    course has an assignment variable with value 1, and a not-completed
    course of the required or elective lists has at most one. *)
Theorem backend_course_scheduled_once (dados : DadosDisciplinas)
    (creditos_minimos : CreditosMinimos) (NUM_SEMESTRES CREDITOS_MAXIMOS : Z)
    (disciplinas_cursadas : list string) (m : Model) (v : Var -> Z) (d : string) :
  Backend.construir_modelo dados creditos_minimos NUM_SEMESTRES CREDITOS_MAXIMOS
    disciplinas_cursadas = Return m ->
  feasible v m ->
  ~ In d disciplinas_cursadas ->
  (In d (obrigatorias_ids dados) ->
   exists k, In k (Backend.alocacao dados NUM_SEMESTRES disciplinas_cursadas)
             /\ key_d k = d /\ v (alocacao_var k) = 1)
  /\ (In d (obrigatorias_ids dados ++ Backend.ids_optativas dados) ->
      forall k k',
        In k (Backend.alocacao dados NUM_SEMESTRES disciplinas_cursadas) ->
        In k' (Backend.alocacao dados NUM_SEMESTRES disciplinas_cursadas) ->
        key_d k = d -> key_d k' = d ->
        v (alocacao_var k) = 1 -> v (alocacao_var k') = 1 -> k = k').
Proof.
  intros Hm Hf Hc.
  set (al := Backend.alocacao dados NUM_SEMESTRES disciplinas_cursadas).
  pose proof (backend_filter_bounds _ _ _ _ _ _ _ Hm Hf (do_curso d)) as Hb.
  fold al in Hb.
  split.
  - intros Hd.
    pose proof (backend_obrigatoria_uma _ _ _ _ _ _ _ Hm Hf d Hd Hc) as H1.
    fold al in H1. destruct (soma_pos_taken v _ Hb) as [k [Hk Hv]]; [lia|].
    apply filter_In in Hk as [Hk Hkd]. apply do_curso_true in Hkd.
    exists k. auto.
  - intros Hd k k' Hk Hk' Hkd Hkd' Hv Hv'.
    assert (Hle : soma v (filter (do_curso d) al) <= 1).
    { apply in_app_or in Hd as [Hd|Hd].
      - pose proof (backend_obrigatoria_uma _ _ _ _ _ _ _ Hm Hf d Hd Hc) as E.
        fold al in E. lia.
      - exact (backend_optativa_no_maximo_uma _ _ _ _ _ _ _ Hm Hf d Hd Hc). }
    assert (Hin : forall x, In x al -> key_d x = d -> In x (filter (do_curso d) al)).
    { intros x Hx Hxd. apply filter_In. split; [exact Hx | apply do_curso_true; exact Hxd]. }
    destruct (soma_um v _ k' Hb
                (NoDup_filter _ (backend_alocacao_NoDup dados NUM_SEMESTRES
                                   disciplinas_cursadas))
                Hle (Hin k' Hk' Hkd') Hv') as [_ Hu].
    apply Hu; [apply Hin; assumption | exact Hv].
Qed.

Lemma backend_course_scheduled_once_witness :
  (exists k, In k (Backend.alocacao Exemplos.dados_XE 2 [])
             /\ key_d k = "X"%string /\ Exemplos.sol_XE (alocacao_var k) = 1)
  /\ (forall k k',
        In k (Backend.alocacao Exemplos.dados_XE 2 []) ->
        In k' (Backend.alocacao Exemplos.dados_XE 2 []) ->
        key_d k = "E"%string -> key_d k' = "E"%string ->
        Exemplos.sol_XE (alocacao_var k) = 1 -> Exemplos.sol_XE (alocacao_var k') = 1 ->
        k = k').
Proof.
  assert (Hm : Backend.construir_modelo Exemplos.dados_XE (mkMinimos 0 0 0) 2 32 []
               = Return (modelo_de (Backend.construir_modelo Exemplos.dados_XE
                                      (mkMinimos 0 0 0) 2 32 [])))
    by (vm_compute; reflexivity).
  assert (Hf : feasible Exemplos.sol_XE
                 (modelo_de (Backend.construir_modelo Exemplos.dados_XE
                               (mkMinimos 0 0 0) 2 32 [])))
    by (apply feasibleb_sound; vm_compute; reflexivity).
  split.
  - apply (backend_course_scheduled_once Exemplos.dados_XE (mkMinimos 0 0 0) 2 32 []
             _ Exemplos.sol_XE "X" Hm Hf); simpl; tauto.
  - apply (backend_course_scheduled_once Exemplos.dados_XE (mkMinimos 0 0 0) 2 32 []
             _ Exemplos.sol_XE "E" Hm Hf); simpl; tauto.
Defined.

(** X4. In every solution of the backend model, for a not-completed course
    [d] of the catalog: when [d] is in a category list and its assignment
    variable for term [s] is 1, the completion-term variable of [d] is [s];
    when no assignment variable of [d] is 1, it is [NUM_SEMESTRES + 1]; and
    every term an assignment variable of [d] with value 1 names is at most
    the value of [semestre_maximo], itself at most [NUM_SEMESTRES]. *)
Theorem backend_completion_term (dados : DadosDisciplinas)
    (creditos_minimos : CreditosMinimos) (NUM_SEMESTRES CREDITOS_MAXIMOS : Z)
    (disciplinas_cursadas : list string) (m : Model) (v : Var -> Z)
    (d : string) (info : Disciplina) :
  Backend.construir_modelo dados creditos_minimos NUM_SEMESTRES CREDITOS_MAXIMOS
    disciplinas_cursadas = Return m ->
  feasible v m ->
  In (d, info) (disciplinas dados) ->
  ~ In d disciplinas_cursadas ->
  (forall s t,
     In d (obrigatorias_ids dados ++ Backend.ids_optativas dados) ->
     In (d, s, t) (Backend.alocacao dados NUM_SEMESTRES disciplinas_cursadas) ->
     v (alocacao_var (d, s, t)) = 1 ->
     v (semestre_var d) = s)
  /\ ((forall k, In k (Backend.alocacao dados NUM_SEMESTRES disciplinas_cursadas) ->
                 key_d k = d -> v (alocacao_var k) = 0) ->
      v (semestre_var d) = NUM_SEMESTRES + 1)
  /\ (forall s t,
        In (d, s, t) (Backend.alocacao dados NUM_SEMESTRES disciplinas_cursadas) ->
        v (alocacao_var (d, s, t)) = 1 ->
        s <= v semestre_maximo <= NUM_SEMESTRES).
Proof.
  intros Hm Hf Hd Hc.
  set (al := Backend.alocacao dados NUM_SEMESTRES disciplinas_cursadas).
  pose proof (backend_filter_bounds _ _ _ _ _ _ _ Hm Hf (do_curso d)) as Hb.
  pose proof (backend_ligacao_valor _ _ _ _ _ _ _ Hm Hf d info Hd Hc) as Hl.
  fold al in Hb, Hl.
  assert (Hin : forall x, In x al -> key_d x = d -> In x (filter (do_curso d) al)).
  { intros x Hx Hxd. apply filter_In. split; [exact Hx | apply do_curso_true; exact Hxd]. }
  split; [|split].
  - intros s t Hcat Hk Hv.
    assert (Hle : soma v (filter (do_curso d) al) <= 1).
    { apply in_app_or in Hcat as [Hcat|Hcat].
      - pose proof (backend_obrigatoria_uma _ _ _ _ _ _ _ Hm Hf d Hcat Hc) as E.
        fold al in E. lia.
      - exact (backend_optativa_no_maximo_uma _ _ _ _ _ _ _ Hm Hf d Hcat Hc). }
    destruct (soma_um v _ (d, s, t) Hb
                (NoDup_filter _ (backend_alocacao_NoDup dados NUM_SEMESTRES
                                   disciplinas_cursadas))
                Hle (Hin _ Hk eq_refl) Hv) as [Hss _].
    assert (Hge : v (alocacao_var (d, s, t)) <= soma v (filter (do_curso d) al)).
    { apply soma_ge_member; [exact Hb | exact (Hin _ Hk eq_refl)]. }
    rewrite Hss in Hl. cbn [key_s fst snd] in Hl.
    assert (E : soma v (filter (do_curso d) al) = 1) by lia.
    rewrite E in Hl. lia.
  - intros Hz.
    assert (Hz' : forall k, In k (filter (do_curso d) al) -> v (alocacao_var k) = 0).
    { intros k Hk. apply filter_In in Hk as [Hk Hkd]. apply do_curso_true in Hkd.
      apply Hz; assumption. }
    rewrite (soma_s_zero v _ Hz') in Hl.
    assert (E : soma v (filter (do_curso d) al) = 0).
    { clear Hl Hb Hin. induction (filter (do_curso d) al) as [|k ks IH]; [reflexivity|].
      cbn [soma fold_right]. fold (soma v ks).
      rewrite (Hz' k (or_introl eq_refl)), IH; [reflexivity|].
      intros; apply Hz'; right; assumption. }
    rewrite E in Hl. lia.
  - intros s t Hk Hv.
    pose proof (backend_objetivo_valor _ _ _ _ _ _ _ Hm Hf d info Hd Hc) as Ho.
    pose proof (backend_maximo_bounds _ _ _ _ _ _ _ Hm Hf) as Hmx.
    fold al in Ho.
    assert (Hs : key_s (d, s, t) * v (alocacao_var (d, s, t))
                 <= soma_s v (filter (do_curso d) al)).
    { apply soma_s_ge_member; [exact Hb | | exact (Hin _ Hk eq_refl)].
      intros [[d' s'] t'] Hk'. apply filter_In in Hk' as [Hk' _].
      apply backend_alocacao_In in Hk'. cbn [key_s fst snd]. lia. }
    rewrite Hv in Hs. cbn [key_s fst snd] in Hs. lia.
Qed.

Lemma backend_completion_term_witness :
  Exemplos.sol_XE (semestre_var "X") = 1
  /\ Exemplos.sol_XE (semestre_var "E") = 2 + 1
  /\ 1 <= Exemplos.sol_XE semestre_maximo <= 2.
Proof.
  assert (Hm : Backend.construir_modelo Exemplos.dados_XE (mkMinimos 0 0 0) 2 32 []
               = Return (modelo_de (Backend.construir_modelo Exemplos.dados_XE
                                      (mkMinimos 0 0 0) 2 32 [])))
    by (vm_compute; reflexivity).
  assert (Hf : feasible Exemplos.sol_XE
                 (modelo_de (Backend.construir_modelo Exemplos.dados_XE
                               (mkMinimos 0 0 0) 2 32 [])))
    by (apply feasibleb_sound; vm_compute; reflexivity).
  destruct (backend_completion_term Exemplos.dados_XE (mkMinimos 0 0 0) 2 32 []
              _ Exemplos.sol_XE "X" Exemplos.disc_X Hm Hf)
    as [H1 [_ H3]]; [simpl; auto | simpl; tauto |].
  destruct (backend_completion_term Exemplos.dados_XE (mkMinimos 0 0 0) 2 32 []
              _ Exemplos.sol_XE "E" Exemplos.disc_E Hm Hf)
    as [_ [H2 _]]; [simpl; auto | simpl; tauto |].
  split; [|split].
  - apply (H1 1 "TX"%string); [simpl; auto | vm_compute; auto | reflexivity].
  - apply H2. intros [[d s] t] Hk Hd. cbn [key_d fst] in Hd. subst d. reflexivity.
  - apply (H3 1 "TX"%string); [vm_compute; auto | reflexivity].
Defined.

Lemma get_default_set_same {V : Type} (d : list (string * V)) (k : string) (x dflt : V) :
  Py.get_default String.eqb (Py.set String.eqb d k x) k dflt = x.
Proof. unfold Py.get_default. rewrite (get_set_same String.eqb String.eqb_eq). reflexivity. Qed.

Lemma get_default_set_other {V : Type} (d : list (string * V)) (k k0 : string) (x dflt : V) :
  k0 <> k ->
  Py.get_default String.eqb (Py.set String.eqb d k x) k0 dflt
  = Py.get_default String.eqb d k0 dflt.
Proof.
  intros H. unfold Py.get_default.
  rewrite (get_set_other String.eqb String.eqb_eq _ _ _ _ H). reflexivity.
Qed.

Lemma horarios_inner_get (x : LinearExpr) (h : string) (hs : list string) :
  forall acc : list (string * list LinearExpr),
    Py.get String.eqb
      (fold_left
         (fun acc h' =>
            Py.set String.eqb acc h' (Py.get_default String.eqb acc h' [] ++ [x]))
         hs acc) h
    = if Py.is_empty (filter (String.eqb h) hs) then Py.get String.eqb acc h
      else Some (Py.get_default String.eqb acc h []
                 ++ map (fun _ => x) (filter (String.eqb h) hs)).
Proof.
  induction hs as [|h' hs IH]; intros acc; [reflexivity|].
  cbn [fold_left filter]. rewrite IH. clear IH.
  destruct (String.eqb h h') eqn:E.
  - apply String.eqb_eq in E. subst h'.
    rewrite get_default_set_same, (get_set_same String.eqb String.eqb_eq).
    cbn [Py.is_empty map].
    destruct (Py.is_empty (filter (String.eqb h) hs)) eqn:Ee.
    + apply is_empty_true in Ee. rewrite Ee. reflexivity.
    + rewrite <- app_assoc. reflexivity.
  - apply String.eqb_neq in E.
    rewrite (get_default_set_other _ _ _ _ _ E).
    rewrite (get_set_other String.eqb String.eqb_eq _ h' h _ E).
    reflexivity.
Qed.

Lemma horarios_outer_get (horarios : list (string * list string)) (s : Z) (h : string)
    (al : list Key) :
  forall acc : list (string * list LinearExpr),
    Py.get String.eqb
      (fold_left
         (fun acc k =>
            if Z.eqb (key_s k) s then
              fold_left
                (fun acc h =>
                   Py.set String.eqb acc h
                     (Py.get_default String.eqb acc h [] ++ [EVar (alocacao_var k)]))
                (Py.get_default String.eqb horarios (key_t k) []) acc
            else acc)
         al acc) h
    = if Py.is_empty (ocupantes horarios al s h) then Py.get String.eqb acc h
      else Some (Py.get_default String.eqb acc h []
                 ++ map (fun k => EVar (alocacao_var k)) (ocupantes horarios al s h)).
Proof.
  induction al as [|k al IH]; intros acc; [reflexivity|].
  cbn [fold_left ocupantes flat_map]. fold (ocupantes horarios al s h).
  rewrite IH. clear IH.
  destruct (Z.eqb (key_s k) s); [|reflexivity].
  set (inner := fold_left _ _ acc).
  assert (Hg : Py.get String.eqb inner h
               = if Py.is_empty (filter (String.eqb h)
                                   (Py.get_default String.eqb horarios (key_t k) []))
                 then Py.get String.eqb acc h
                 else Some (Py.get_default String.eqb acc h []
                            ++ map (fun _ => EVar (alocacao_var k))
                                   (filter (String.eqb h)
                                      (Py.get_default String.eqb horarios (key_t k) []))))
    by apply horarios_inner_get.
  unfold Py.get_default at 1. rewrite Hg. clear Hg.
  destruct (filter (String.eqb h) (Py.get_default String.eqb horarios (key_t k) []))
    as [|o occ].
  - reflexivity.
  - cbn [Py.is_empty map app].
    destruct (ocupantes horarios al s h) as [|k' ks] eqn:Eo.
    + cbn [Py.is_empty]. rewrite app_nil_r. rewrite map_map. reflexivity.
    + cbn [Py.is_empty]. rewrite <- app_assoc. f_equal. f_equal.
      cbn [map app]. rewrite map_app, map_map. reflexivity.
Qed.

(** The entry of a time slot in [horarios_do_semestre]. *)
Lemma horarios_do_semestre_get (horarios : list (string * list string))
    (al : list Key) (s : Z) (h : string) :
  Py.get String.eqb (horarios_do_semestre horarios al s) h
  = if Py.is_empty (ocupantes horarios al s h) then None
    else Some (map (fun k => EVar (alocacao_var k)) (ocupantes horarios al s h)).
Proof. unfold horarios_do_semestre. rewrite horarios_outer_get. reflexivity. Qed.

Lemma ocupantes_In (horarios : list (string * list string)) (al : list Key)
    (s : Z) (h : string) (k : Key) :
  In k (ocupantes horarios al s h)
  <-> In k al /\ key_s k = s
      /\ In h (Py.get_default String.eqb horarios (key_t k) []).
Proof.
  unfold ocupantes. rewrite in_flat_map. split.
  - intros [k' [Hk' H]]. destruct (Z.eqb (key_s k') s) eqn:E; [|contradiction].
    apply in_map_iff in H as [h' [<- Hh]]. apply filter_In in Hh as [Hh Heq].
    apply String.eqb_eq in Heq. subst h'. apply Z.eqb_eq in E. auto.
  - intros (Hk & Hs & Hh). exists k. split; [exact Hk|].
    apply Z.eqb_eq in Hs. rewrite Hs. apply in_map_iff. exists h. split; [reflexivity|].
    apply filter_In. split; [exact Hh | apply String.eqb_refl].
Qed.

Lemma soma_ge_two (v : Var -> Z) (ks : list Key) (a b : Key) :
  (forall k, In k ks -> 0 <= v (alocacao_var k) <= 1) ->
  In a ks -> In b ks -> a <> b ->
  v (alocacao_var a) + v (alocacao_var b) <= soma v ks.
Proof.
  induction ks as [|k ks IH]; intros Hb Ha Hbk Hne; [contradiction|].
  cbn [soma fold_right]. fold (soma v ks).
  assert (Hb' : forall k, In k ks -> 0 <= v (alocacao_var k) <= 1)
    by (intros; apply Hb; right; assumption).
  assert (H0 := Hb k (or_introl eq_refl)).
  destruct Ha as [<-|Ha], Hbk as [<-|Hbk].
  - congruence.
  - pose proof (soma_ge_member v ks b Hb' Hbk). lia.
  - pose proof (soma_ge_member v ks a Hb' Ha). lia.
  - pose proof (IH Hb' Ha Hbk Hne). lia.
Qed.

Lemma length_ge_two {A : Type} (l : list A) (a b : A) :
  In a l -> In b l -> a <> b -> (1 < Z.of_nat (List.length l)).
Proof.
  destruct l as [|x [|y l]]; simpl; intros Ha Hb Hne.
  - contradiction.
  - destruct Ha as [<-|[]], Hb as [<-|[]]. congruence.
  - lia.
Qed.

Lemma evalZ_vars_of (v : Var -> Z) (ks : list Key) :
  evalZ v (ESum (map (fun k => EVar (alocacao_var k)) ks)) = soma v ks.
Proof.
  cbn [evalZ]. unfold soma. induction ks as [|k ks IH]; [reflexivity|].
  cbn [map fold_right evalZ]. rewrite IH. reflexivity.
Qed.

Lemma integral_vars_of (ks : list Key) :
  integral (ESum (map (fun k => EVar (alocacao_var k)) ks)) = true.
Proof. cbn [integral]. induction ks as [|k ks IH]; [reflexivity | exact IH]. Qed.

(** X5. In every solution of the services model, two different assignment
    variables of the same term whose sections share a time slot are not both
    1. *)
Theorem services_no_time_conflict (lower : string -> string)
    (cfg : Services.OptimizerConfig) (v : Var -> Z) (k1 k2 : Key) (h : string) :
  feasible v (Services.construir_modelo lower cfg) ->
  In k1 (Services.alocacao_do_modelo cfg) ->
  In k2 (Services.alocacao_do_modelo cfg) ->
  k1 <> k2 ->
  key_s k1 = key_s k2 ->
  In h (Py.get_default String.eqb (horarios_por_turma (Services.dados cfg)) (key_t k1) []) ->
  In h (Py.get_default String.eqb (horarios_por_turma (Services.dados cfg)) (key_t k2) []) ->
  v (alocacao_var k1) + v (alocacao_var k2) <= 1.
Proof.
  intros Hf Hk1 Hk2 Hne Hs Hh1 Hh2.
  set (al := Services.alocacao_do_modelo cfg) in *.
  set (hs := horarios_por_turma (Services.dados cfg)) in *.
  set (oc := ocupantes hs al (key_s k1) h).
  assert (Ho1 : In k1 oc) by (apply ocupantes_In; auto).
  assert (Ho2 : In k2 oc) by (apply ocupantes_In; auto).
  assert (Hin : In (ESum (map (fun k => EVar (alocacao_var k)) oc) <=' EInt 1)
                   (constraints (Services.construir_modelo lower cfg))).
  { rewrite services_constraints. do 5 (apply in_or_app; right). apply in_or_app. left.
    unfold Services._adicionar_restricao_conflitos_horario.
    apply in_flat_map. exists (key_s k1). split.
    - destruct k1 as [[d1 s1] t1]. apply (services_alocacao_In cfg) in Hk1. tauto.
    - apply in_flat_map. exists (h, map (fun k => EVar (alocacao_var k)) oc). split.
      + apply (get_Some_In String.eqb String.eqb_eq).
        fold (Services.alocacao_do_modelo cfg). fold al. fold hs.
        rewrite horarios_do_semestre_get. fold oc.
        destruct oc; [contradiction | reflexivity].
      + cbn [snd]. rewrite length_map.
        pose proof (length_ge_two oc k1 k2 Ho1 Ho2 Hne) as Hl.
        apply Z.ltb_lt in Hl. rewrite Hl. left; reflexivity. }
  apply (feasible_holdsZ v _ _ _ _ Hf) in Hin; [| apply integral_vars_of | reflexivity].
  rewrite evalZ_vars_of, evalZ_EInt in Hin.
  assert (Hge : v (alocacao_var k1) + v (alocacao_var k2) <= soma v oc).
  { apply soma_ge_two; try assumption.
    intros k Hk. apply ocupantes_In in Hk as [Hk _].
    exact (services_alocacao_bounds cfg lower v Hf k Hk). }
  lia.
Qed.

Lemma services_no_time_conflict_witness :
  Exemplos.sol_XY (alocacao_var ("X"%string, 1, "TX"%string))
  + Exemplos.sol_XY (alocacao_var ("Y"%string, 1, "TY"%string)) <= 1.
Proof.
  apply (services_no_time_conflict Exemplos.lower_ascii Exemplos.cfg_XY Exemplos.sol_XY
           ("X"%string, 1, "TX"%string) ("Y"%string, 1, "TY"%string) "SEG-08").
  - apply feasibleb_sound. vm_compute. reflexivity.
  - vm_compute. auto.
  - vm_compute. auto.
  - discriminate.
  - reflexivity.
  - vm_compute. auto.
  - vm_compute. auto.
Defined.

(** X6. In every solution of the backend model, two different assignment
    variables of the same term whose sections share a time slot are not both
    1. *)
Theorem backend_no_time_conflict (dados : DadosDisciplinas)
    (creditos_minimos : CreditosMinimos) (NUM_SEMESTRES CREDITOS_MAXIMOS : Z)
    (disciplinas_cursadas : list string) (m : Model) (v : Var -> Z)
    (k1 k2 : Key) (h : string) :
  Backend.construir_modelo dados creditos_minimos NUM_SEMESTRES CREDITOS_MAXIMOS
    disciplinas_cursadas = Return m ->
  feasible v m ->
  In k1 (Backend.alocacao dados NUM_SEMESTRES disciplinas_cursadas) ->
  In k2 (Backend.alocacao dados NUM_SEMESTRES disciplinas_cursadas) ->
  k1 <> k2 ->
  key_s k1 = key_s k2 ->
  In h (Py.get_default String.eqb (horarios_por_turma dados) (key_t k1) []) ->
  In h (Py.get_default String.eqb (horarios_por_turma dados) (key_t k2) []) ->
  v (alocacao_var k1) + v (alocacao_var k2) <= 1.
Proof.
  intros Hm Hf Hk1 Hk2 Hne Hs Hh1 Hh2.
  set (al := Backend.alocacao dados NUM_SEMESTRES disciplinas_cursadas) in *.
  set (oc := ocupantes (horarios_por_turma dados) al (key_s k1) h).
  assert (Ho1 : In k1 oc) by (apply ocupantes_In; auto).
  assert (Ho2 : In k2 oc) by (apply ocupantes_In; auto).
  assert (Hin : In (ESum (map (fun k => EVar (alocacao_var k)) oc) <=' EInt 1)
                   (constraints m)).
  { apply (backend_group_In_model _ _ _ _ _ _ Hm). do 3 right. left.
    unfold Backend.r5_conflitos.
    apply in_flat_map. exists (key_s k1). split.
    - destruct k1 as [[d1 s1] t1]. apply backend_alocacao_In in Hk1.
      apply backend_semestres_In. cbn [key_s fst snd]. tauto.
    - apply in_map_iff. exists (h, map (fun k => EVar (alocacao_var k)) oc). split.
      + reflexivity.
      + apply (get_Some_In String.eqb String.eqb_eq). fold al.
        rewrite horarios_do_semestre_get. fold oc.
        destruct oc; [contradiction | reflexivity]. }
  apply (feasible_holdsZ v _ _ _ _ Hf) in Hin; [| apply integral_vars_of | reflexivity].
  rewrite evalZ_vars_of, evalZ_EInt in Hin.
  assert (Hge : v (alocacao_var k1) + v (alocacao_var k2) <= soma v oc).
  { apply soma_ge_two; try assumption.
    intros k Hk. apply ocupantes_In in Hk as [Hk _].
    exact (backend_alocacao_bounds _ _ _ _ _ _ _ Hm Hf k Hk). }
  lia.
Qed.

Lemma backend_no_time_conflict_witness :
  Exemplos.sol_XY (alocacao_var ("X"%string, 1, "TX"%string))
  + Exemplos.sol_XY (alocacao_var ("Y"%string, 1, "TY"%string)) <= 1.
Proof.
  apply (backend_no_time_conflict Exemplos2.dados_conflito (mkMinimos 0 0 0) 2 32 []
           (modelo_de (Backend.construir_modelo Exemplos2.dados_conflito
                         (mkMinimos 0 0 0) 2 32 []))
           Exemplos.sol_XY
           ("X"%string, 1, "TX"%string) ("Y"%string, 1, "TY"%string) "SEG-08").
  - vm_compute. reflexivity.
  - apply feasibleb_sound. vm_compute. reflexivity.
  - vm_compute. auto.
  - vm_compute. auto.
  - discriminate.
  - reflexivity.
  - vm_compute. auto.
  - vm_compute. auto.
Defined.

(** ** R3: the credit minimums *)

Lemma evalZ_py_mul (v : Var -> Z) (n : Z) (e : LinearExpr) :
  integral e = true ->
  evalZ v (Backend.py_mul n e) = n * evalZ v e /\ integral (Backend.py_mul n e) = true.
Proof.
  intros Hi. destruct e; cbn [Backend.py_mul evalZ integral inject_Z Qnum Qden andb];
    (split; [reflexivity | assumption || reflexivity]).
Qed.

Section BackendCreditos.

Variable dados : DadosDisciplinas.
Variable NUM_SEMESTRES : Z.
Variable disciplinas_cursadas : list string.

Let al := Backend.alocacao dados NUM_SEMESTRES disciplinas_cursadas.

Lemma backend_cursada_vars_valor (v : Var -> Z) (d : string) :
  integral (Backend.cursada_vars dados NUM_SEMESTRES disciplinas_cursadas d) = true
  /\ evalZ v (Backend.cursada_vars dados NUM_SEMESTRES disciplinas_cursadas d)
     = if Backend.cursada disciplinas_cursadas d then 1
       else soma v (filter (do_curso d) al).
Proof.
  unfold Backend.cursada_vars. destruct (Backend.cursada disciplinas_cursadas d).
  - split; reflexivity.
  - split; [apply integral_ESum_vars | apply evalZ_vars_where].
Qed.

Lemma backend_r3_fold (v : Var -> Z) (ids : list string) :
  forall (acc ts : list LinearExpr),
    fold_left
      (fun acc d_id =>
         ts <- acc ;;
         disc <- of_option KeyError (Py.get String.eqb (disciplinas dados) d_id) ;;
         Return (ts ++ [Backend.py_mul (creditos disc)
                          (Backend.cursada_vars dados NUM_SEMESTRES disciplinas_cursadas
                             d_id)]))
      ids (Return acc) = Return ts ->
    integral (ESum acc) = true ->
    integral (ESum ts) = true
    /\ evalZ v (ESum ts)
       = evalZ v (ESum acc)
         + creditos_contados (disciplinas dados) v al
             (Backend.cursada disciplinas_cursadas) ids
    /\ forall d, In d ids -> In d (map fst (disciplinas dados)).
Proof.
  induction ids as [|d ids IH]; intros acc ts H Hi.
  - simpl in H. injection H as <-. split; [exact Hi|]. split; [simpl; lia | contradiction].
  - cbn [fold_left bind] in H.
    destruct (Py.get String.eqb (disciplinas dados) d) as [disc|] eqn:Eg.
    + cbn [of_option bind] in H.
      destruct (backend_cursada_vars_valor v d) as [Hci Hcv].
      destruct (evalZ_py_mul v (creditos disc) _ Hci) as [Hpv Hpi].
      apply IH in H.
      * destruct H as [H1 [H2 H3]]. split; [exact H1|]. split.
        -- rewrite H2.
           change (creditos_contados (disciplinas dados) v al
                     (Backend.cursada disciplinas_cursadas) (d :: ids))
             with (credito_de (disciplinas dados) d
                   * (if Backend.cursada disciplinas_cursadas d then 1
                      else soma v (filter (do_curso d) al))
                   + creditos_contados (disciplinas dados) v al
                       (Backend.cursada disciplinas_cursadas) ids).
           assert (Ec : credito_de (disciplinas dados) d = creditos disc)
             by (unfold credito_de; rewrite Eg; reflexivity).
           rewrite Ec. cbn [evalZ]. rewrite fold_right_app. cbn [fold_right].
           rewrite Hpv, Hcv.
           generalize (creditos_contados (disciplinas dados) v al
                         (Backend.cursada disciplinas_cursadas) ids).
           generalize (creditos disc
                       * (if Backend.cursada disciplinas_cursadas d then 1
                          else soma v (filter (do_curso d) al))).
           intros z z'. clear. induction acc as [|a acc IHa]; cbn [fold_right]; lia.
        -- intros d' [<-|Hd']; [|apply H3; exact Hd'].
           apply (has_In (disciplinas dados) d). unfold Py.has. rewrite Eg. reflexivity.
      * cbn [integral] in *. rewrite forallb_app, Hi. cbn [forallb].
        rewrite Hpi. reflexivity.
    + cbn [of_option bind] in H. exfalso. clear IH.
      revert H. generalize KeyError. induction ids as [|d' ids IH']; intros e H.
      * discriminate.
      * cbn [fold_left bind] in H. apply IH' in H. exact H.
Qed.

End BackendCreditos.

Lemma backend_r3_categoria_valor (dados : DadosDisciplinas) (NUM_SEMESTRES : Z)
    (disciplinas_cursadas : list string) (v : Var -> Z)
    (ids : list string) (minimo : Z) (cs : list Constraint) :
  Backend.r3_categoria dados NUM_SEMESTRES disciplinas_cursadas ids minimo = Return cs ->
  (forall c, In c cs -> holds v c) ->
  ids <> [] ->
  minimo <= creditos_contados (disciplinas dados) v
              (Backend.alocacao dados NUM_SEMESTRES disciplinas_cursadas)
              (Backend.cursada disciplinas_cursadas) ids
  /\ forall d, In d ids -> In d (map fst (disciplinas dados)).
Proof.
  intros H Hh Hne. unfold Backend.r3_categoria in H.
  destruct ids as [|d0 ids0]; [congruence|]. cbn [Py.is_empty] in H.
  set (ids := d0 :: ids0) in *.
  destruct (fold_left _ ids (Return [])) as [ts|e] eqn:Ef; [|discriminate].
  cbn [bind] in H. injection H as <-.
  destruct (backend_r3_fold dados NUM_SEMESTRES disciplinas_cursadas v ids [] ts Ef eq_refl)
    as [Hi [Hv Hk]].
  split; [|exact Hk].
  pose proof (Hh _ (or_introl eq_refl)) as Hc.
  apply (holds_integral v (ESum ts >=' EInt minimo) Hi (integral_EInt minimo)) in Hc.
  cbn [rel lhs rhs] in Hc. rewrite Hv, evalZ_EInt in Hc. cbn [evalZ fold_right] in Hc. lia.
Qed.

Lemma backend_r3_In_model (dados : DadosDisciplinas) (creditos_minimos : CreditosMinimos)
    (NUM_SEMESTRES CREDITOS_MAXIMOS : Z) (disciplinas_cursadas : list string) (m : Model) :
  Backend.construir_modelo dados creditos_minimos NUM_SEMESTRES CREDITOS_MAXIMOS
    disciplinas_cursadas = Return m ->
  exists a b c,
    Backend.r3_categoria dados NUM_SEMESTRES disciplinas_cursadas
      (restritas_ids dados) (restrita creditos_minimos) = Return a
    /\ Backend.r3_categoria dados NUM_SEMESTRES disciplinas_cursadas
         (condicionadas_ids dados) (condicionada creditos_minimos) = Return b
    /\ Backend.r3_categoria dados NUM_SEMESTRES disciplinas_cursadas
         (livres_ids dados) (livre creditos_minimos) = Return c
    /\ forall x, In x (a ++ b ++ c) -> In x (constraints m).
Proof.
  intros Hm. destruct (backend_constraints _ _ _ _ _ _ Hm) as [r3 [Hr [_ Hc]]].
  unfold Backend.r3_creditos_minimos in Hr.
  destruct (Backend.r3_categoria _ _ _ (restritas_ids dados) _) as [a|] eqn:Ea;
    [|discriminate].
  destruct (Backend.r3_categoria _ _ _ (condicionadas_ids dados) _) as [b|] eqn:Eb;
    [|discriminate].
  destruct (Backend.r3_categoria _ _ _ (livres_ids dados) _) as [c|] eqn:Ec;
    [|discriminate].
  cbn [bind] in Hr. injection Hr as <-.
  exists a, b, c. repeat split; try reflexivity.
  intros x Hx. rewrite Hc. rewrite !in_app_iff. rewrite !in_app_iff in Hx. tauto.
Qed.

(** X7. In every solution of the backend model, for each elective category
    with a non-empty id list, the credits of its courses, counted once for a
    completed course and once per assignment otherwise, reach the minimum
    of the category. *)
Theorem backend_credit_minimums (dados : DadosDisciplinas)
    (creditos_minimos : CreditosMinimos) (NUM_SEMESTRES CREDITOS_MAXIMOS : Z)
    (disciplinas_cursadas : list string) (m : Model) (v : Var -> Z) :
  Backend.construir_modelo dados creditos_minimos NUM_SEMESTRES CREDITOS_MAXIMOS
    disciplinas_cursadas = Return m ->
  feasible v m ->
  (restritas_ids dados <> [] ->
   restrita creditos_minimos
   <= creditos_contados (disciplinas dados) v
        (Backend.alocacao dados NUM_SEMESTRES disciplinas_cursadas)
        (Backend.cursada disciplinas_cursadas) (restritas_ids dados))
  /\ (condicionadas_ids dados <> [] ->
      condicionada creditos_minimos
      <= creditos_contados (disciplinas dados) v
           (Backend.alocacao dados NUM_SEMESTRES disciplinas_cursadas)
           (Backend.cursada disciplinas_cursadas) (condicionadas_ids dados))
  /\ (livres_ids dados <> [] ->
      livre creditos_minimos
      <= creditos_contados (disciplinas dados) v
           (Backend.alocacao dados NUM_SEMESTRES disciplinas_cursadas)
           (Backend.cursada disciplinas_cursadas) (livres_ids dados)).
Proof.
  intros Hm Hf.
  destruct (backend_r3_In_model _ _ _ _ _ _ Hm) as [a [b [c [Ha [Hb [Hc Hin]]]]]].
  assert (Hh : forall x, In x (a ++ b ++ c) -> holds v x).
  { intros x Hx. apply (feasible_holds v m x Hf). apply Hin. exact Hx. }
  split; [|split]; intros Hne.
  - apply (backend_r3_categoria_valor _ _ _ v _ _ a Ha); [|exact Hne].
    intros x Hx. apply Hh. rewrite !in_app_iff. tauto.
  - apply (backend_r3_categoria_valor _ _ _ v _ _ b Hb); [|exact Hne].
    intros x Hx. apply Hh. rewrite !in_app_iff. tauto.
  - apply (backend_r3_categoria_valor _ _ _ v _ _ c Hc); [|exact Hne].
    intros x Hx. apply Hh. rewrite !in_app_iff. tauto.
Qed.

Lemma backend_credit_minimums_witness :
  6 <= creditos_contados (disciplinas Exemplos2.dados_XRS) Exemplos2.sol_XS
         (Backend.alocacao Exemplos2.dados_XRS 1 ["R"%string])
         (Backend.cursada ["R"%string]) (restritas_ids Exemplos2.dados_XRS).
Proof.
  destruct (backend_credit_minimums Exemplos2.dados_XRS (mkMinimos 6 0 0) 1 32 ["R"%string]
              (modelo_de (Backend.construir_modelo Exemplos2.dados_XRS (mkMinimos 6 0 0)
                            1 32 ["R"%string]))
              Exemplos2.sol_XS) as [H _].
  - vm_compute. reflexivity.
  - apply feasibleb_sound. vm_compute. reflexivity.
  - apply H. simpl. discriminate.
Defined.

Section ServicesCreditos.

Variable cfg : Services.OptimizerConfig.
Variable lower : string -> string.
Variable v : Var -> Z.
Hypothesis Hfeas : feasible v (Services.construir_modelo lower cfg).

Let a_cursar := Services._preparar_disciplinas_a_cursar cfg.
Let al := Services.alocacao_do_modelo cfg.
Let vs := Services._criar_variaveis_decisao cfg a_cursar.

Lemma services_cursada_vars_None (d : string) :
  ~ In d (Services.todas a_cursar) ->
  Py.get String.eqb (Services.cursada_vars vs) d = None.
Proof.
  intros Hd. unfold vs, Services._criar_variaveis_decisao. cbn [Services.cursada_vars].
  rewrite (get_comprehension String.eqb String.eqb_eq).
  apply (mem_false String.eqb String.eqb_eq) in Hd. rewrite Hd. reflexivity.
Qed.

(** The terms of one block of R3: their sum in a solution. *)
Lemma services_r3_termos (ids : list string) :
  let termos :=
    flat_map
      (fun d_id =>
         match Py.get String.eqb (disciplinas (Services.dados cfg)) d_id,
               Py.get String.eqb (Services.cursada_vars vs) d_id with
         | Some disc, Some cursada => [EMul (inject_Z (creditos disc)) cursada]
         | _, _ => []
         end)
      ids in
  integral (ESum termos) = true
  /\ evalZ v (ESum termos)
     = creditos_contados (disciplinas (Services.dados cfg)) v al (fun _ => false)
         (filter (fun d => Py.mem String.eqb d (Services.todas a_cursar)) ids).
Proof.
  induction ids as [|d ids [IHi IHv]]; [split; reflexivity|].
  cbn [flat_map filter].
  destruct (Py.mem String.eqb d (Services.todas a_cursar)) eqn:Em.
  - apply (mem_In String.eqb String.eqb_eq) in Em.
    fold a_cursar in Em.
    pose proof (services_cursada_vars_get cfg d Em) as Hg. fold a_cursar vs al in Hg.
    rewrite Hg.
    pose proof (services_cursada_value cfg lower v Hfeas d Em) as Hc. fold al in Hc.
    cbn [creditos_contados fold_right].
    fold (creditos_contados (disciplinas (Services.dados cfg)) v al (fun _ => false)
            (filter (fun d => Py.mem String.eqb d (Services.todas a_cursar)) ids)).
    unfold credito_de.
    destruct (Py.get String.eqb (disciplinas (Services.dados cfg)) d) as [disc|].
    + cbn [app]. split.
      * cbn [integral forallb]. cbn [integral] in IHi. rewrite IHi.
        rewrite integral_cursada_de. reflexivity.
      * cbn [evalZ fold_right inject_Z Qnum]. cbn [evalZ] in IHv. rewrite IHv, Hc.
        reflexivity.
    + cbn [app]. split; [exact IHi|]. rewrite IHv. lia.
  - apply (mem_false String.eqb String.eqb_eq) in Em.
    rewrite (services_cursada_vars_None d Em).
    destruct (Py.get String.eqb (disciplinas (Services.dados cfg)) d);
      cbn [app]; split; assumption.
Qed.

Lemma services_r3_categoria_valor (ids : list string) (minimo : Z) (d : string) :
  (forall c, In c (Services.restricao_creditos_categoria cfg (Services.cursada_vars vs)
                     ids minimo) -> holds v c) ->
  In d ids -> In d (Services.todas a_cursar) ->
  In d (map fst (disciplinas (Services.dados cfg))) ->
  minimo <= creditos_contados (disciplinas (Services.dados cfg)) v al (fun _ => false)
              (filter (fun d => Py.mem String.eqb d (Services.todas a_cursar)) ids).
Proof.
  intros Hh Hd Ht Hc.
  unfold Services.restricao_creditos_categoria in Hh.
  assert (He : Py.is_empty ids = false) by (destruct ids; [contradiction | reflexivity]).
  rewrite He in Hh.
  destruct (services_r3_termos ids) as [Hi Hv]. cbv zeta in Hi, Hv.
  set (termos := flat_map _ ids) in *.
  assert (Hne : Py.is_empty termos = false).
  { destruct termos as [|x xs] eqn:Et; [|reflexivity]. exfalso.
    assert (Hx : In (EMul (inject_Z (credito_de (disciplinas (Services.dados cfg)) d))
                          (Services.cursada_de al d)) termos).
    { unfold termos. apply in_flat_map. exists d. split; [exact Hd|].
      pose proof (services_cursada_vars_get cfg d Ht) as Hg. fold a_cursar vs al in Hg.
      rewrite Hg. unfold credito_de.
      apply (has_In (disciplinas (Services.dados cfg)) d) in Hc. unfold Py.has in Hc.
      destruct (Py.get String.eqb (disciplinas (Services.dados cfg)) d); [|discriminate].
      left; reflexivity. }
    rewrite Et in Hx. contradiction. }
  rewrite Hne in Hh.
  pose proof (Hh _ (or_introl eq_refl)) as Hc'.
  apply (holds_integral v (ESum termos >=' EInt minimo) Hi (integral_EInt minimo)) in Hc'.
  cbn [rel lhs rhs] in Hc'. rewrite Hv, evalZ_EInt in Hc'. exact Hc'.
Qed.

End ServicesCreditos.

(** X8. In every solution of the services model, for each elective
    category that has a course of the catalog still to take, the credits of
    its courses to take, counted once per assignment, reach the remaining
    minimum of the category. *)
Theorem services_credit_minimums (lower : string -> string)
    (cfg : Services.OptimizerConfig) (v : Var -> Z) (d : string) :
  feasible v (Services.construir_modelo lower cfg) ->
  In d (Services.todas (Services._preparar_disciplinas_a_cursar cfg)) ->
  In d (map fst (disciplinas (Services.dados cfg))) ->
  let pendentes ids :=
    filter (fun d => Py.mem String.eqb d
                       (Services.todas (Services._preparar_disciplinas_a_cursar cfg))) ids in
  let contados ids :=
    creditos_contados (disciplinas (Services.dados cfg)) v
      (Services.alocacao_do_modelo cfg) (fun _ => false) (pendentes ids) in
  (In d (restritas_ids (Services.dados cfg)) ->
   restrita (Services._calcular_creditos_minimos_restantes lower cfg)
   <= contados (restritas_ids (Services.dados cfg)))
  /\ (In d (condicionadas_ids (Services.dados cfg)) ->
      condicionada (Services._calcular_creditos_minimos_restantes lower cfg)
      <= contados (condicionadas_ids (Services.dados cfg)))
  /\ (In d (livres_ids (Services.dados cfg)) ->
      livre (Services._calcular_creditos_minimos_restantes lower cfg)
      <= contados (livres_ids (Services.dados cfg))).
Proof.
  intros Hf Ht Hc pendentes contados.
  assert (Hh : forall c,
             In c (Services._adicionar_restricao_creditos_minimos cfg
                     (Services.cursada_vars
                        (Services._criar_variaveis_decisao cfg
                           (Services._preparar_disciplinas_a_cursar cfg)))
                     (Services._calcular_creditos_minimos_restantes lower cfg)) ->
             holds v c).
  { intros c Hin. apply (feasible_holds v _ c Hf). rewrite services_constraints.
    do 3 (apply in_or_app; right). apply in_or_app. left. exact Hin. }
  unfold Services._adicionar_restricao_creditos_minimos in Hh.
  split; [|split]; intros Hd;
    apply (services_r3_categoria_valor cfg lower v Hf _ _ d); try assumption;
    intros c Hin; apply Hh; rewrite !in_app_iff; tauto.
Qed.

Lemma services_credit_minimums_witness :
  restrita (Services._calcular_creditos_minimos_restantes Exemplos.lower_ascii
              Exemplos2.cfg_XS)
  <= creditos_contados (disciplinas (Services.dados Exemplos2.cfg_XS)) Exemplos2.sol_XS
       (Services.alocacao_do_modelo Exemplos2.cfg_XS) (fun _ => false)
       (filter (fun d => Py.mem String.eqb d
                           (Services.todas
                              (Services._preparar_disciplinas_a_cursar Exemplos2.cfg_XS)))
               (restritas_ids (Services.dados Exemplos2.cfg_XS))).
Proof.
  destruct (services_credit_minimums Exemplos.lower_ascii Exemplos2.cfg_XS
              Exemplos2.sol_XS "S") as [H _].
  - apply feasibleb_sound. vm_compute. reflexivity.
  - vm_compute. auto.
  - vm_compute. auto.
  - apply H. vm_compute. auto.
Defined.

(** ** [_calcular_creditos_minimos_restantes] *)

Lemma services_creditos_feitos_fold (lower : string -> string)
    (info : list (string * Disciplina)) (ids : list string) :
  (forall d disc, In (d, disc) info -> 0 <= creditos disc) ->
  forall feitos : CreditosMinimos,
    0 <= restrita feitos -> 0 <= condicionada feitos -> 0 <= livre feitos ->
    let r :=
      fold_left
        (fun (feitos : CreditosMinimos) d_id =>
           match Py.get String.eqb info d_id with
           | Some disciplina =>
               let credito_disciplina := creditos disciplina in
               let tipo :=
                 lower (match tipo disciplina with Some t => t | None => ""%string end) in
               if Py.str_in "restrita" tipo then
                 mkMinimos (restrita feitos + credito_disciplina) (condicionada feitos)
                           (livre feitos)
               else if Py.str_in "condicionada" tipo then
                 mkMinimos (restrita feitos) (condicionada feitos + credito_disciplina)
                           (livre feitos)
               else if Py.str_in "livre" tipo || Py.startswith d_id "ARTIFICIAL" then
                 mkMinimos (restrita feitos) (condicionada feitos)
                           (livre feitos + credito_disciplina)
               else feitos
           | None => feitos
           end)
        ids feitos in
    0 <= restrita r /\ 0 <= condicionada r /\ 0 <= livre r.
Proof.
  intros Hpos. induction ids as [|d ids IH]; intros feitos H1 H2 H3; [simpl; auto|].
  cbn [fold_left]. cbv zeta.
  destruct (Py.get String.eqb info d) as [disc|] eqn:Eg.
  - assert (Hc : 0 <= creditos disc).
    { apply (Hpos d). apply (get_Some_In String.eqb String.eqb_eq). exact Eg. }
    destruct (Py.str_in "restrita" _); [apply IH; cbn; lia|].
    destruct (Py.str_in "condicionada" _); [apply IH; cbn; lia|].
    destruct (Py.str_in "livre" _ || Py.startswith d "ARTIFICIAL");
      apply IH; cbn; lia.
  - apply IH; assumption.
Qed.

(** X9. When no course of [todas_disciplinas_info] has negative credits,
    each remaining minimum that [_calcular_creditos_minimos_restantes]
    returns is at least 0 and at most the configured minimum (or 0 when
    that is negative). *)
Theorem services_remaining_minimums_bounds (lower : string -> string)
    (cfg : Services.OptimizerConfig) :
  (forall d disc, In (d, disc) (Services.todas_disciplinas_info cfg) -> 0 <= creditos disc) ->
  let r := Services._calcular_creditos_minimos_restantes lower cfg in
  let m := Services.creditos_minimos cfg in
  0 <= restrita r <= Z.max 0 (restrita m)
  /\ 0 <= condicionada r <= Z.max 0 (condicionada m)
  /\ 0 <= livre r <= Z.max 0 (livre m).
Proof.
  intros Hpos r m. unfold r, Services._calcular_creditos_minimos_restantes.
  destruct (services_creditos_feitos_fold lower (Services.todas_disciplinas_info cfg)
              (Services.disciplinas_concluidas_ids cfg) Hpos (mkMinimos 0 0 0))
    as [H1 [H2 H3]]; cbn; try lia.
  cbv zeta in H1, H2, H3. cbn [restrita condicionada livre]. unfold m. lia.
Qed.

Lemma services_remaining_minimums_bounds_witness :
  let r := Services._calcular_creditos_minimos_restantes Exemplos.lower_ascii
             Exemplos2.cfg_XS in
  let m := Services.creditos_minimos Exemplos2.cfg_XS in
  0 <= restrita r <= Z.max 0 (restrita m)
  /\ 0 <= condicionada r <= Z.max 0 (condicionada m)
  /\ 0 <= livre r <= Z.max 0 (livre m).
Proof.
  apply (services_remaining_minimums_bounds Exemplos.lower_ascii Exemplos2.cfg_XS).
  intros d disc H. simpl in H.
  destruct H as [H|[H|[H|[]]]]; injection H as <- <-; simpl; lia.
Defined.

Lemma update_get {K V : Type} (eqb : K -> K -> bool)
    (eqb_spec : forall a b, eqb a b = true <-> a = b)
    (d d' : list (K * V)) (k : K) (upd : V -> V) :
  Py.update eqb d k upd = Some d' ->
  forall s, Py.get eqb d' s
            = if eqb s k then option_map upd (Py.get eqb d s) else Py.get eqb d s.
Proof.
  revert d'. induction d as [|[k' v'] d IH]; intros d' H s; simpl in H; [discriminate|].
  destruct (eqb k k') eqn:E.
  - injection H as <-. apply eqb_spec in E. rewrite <- E. cbn [Py.get option_map].
    destruct (eqb s k); reflexivity.
  - destruct (Py.update eqb d k upd) as [r|] eqn:Er; [|discriminate].
    injection H as <-. cbn [Py.get]. rewrite (IH r eq_refl s).
    destruct (eqb s k') eqn:Es; [|reflexivity].
    destruct (eqb s k) eqn:Ek; [|reflexivity].
    apply eqb_spec in Es, Ek. rewrite <- Ek, Es in E.
    rewrite (proj2 (eqb_spec k' k') eq_refl) in E. discriminate.
Qed.

Lemma creditos_atribuidos_cons (cat : list (string * Disciplina)) (v : Var -> Z)
    (k : Key) (al : list Key) (s : Z) :
  creditos_atribuidos cat v (k :: al) s
  = (if Z.eqb (key_s k) s
     then (if chosen v (alocacao_var k) then credito_de cat (key_d k) else 0)
     else 0)
    + creditos_atribuidos cat v al s.
Proof.
  unfold creditos_atribuidos. cbn [filter].
  destruct (Z.eqb (key_s k) s); reflexivity.
Qed.

Lemma services_processar_decodifica (cfg : Services.OptimizerConfig) (sol : SolveResult)
    (alocacao : list Key) :
  forall (grade0 : list (Z * list Services.DisciplinaAlocada)) (creditos0 : list (Z * Z)),
    (forall k, In k alocacao -> In (key_s k) (map fst grade0)) ->
    map fst creditos0 = map fst grade0 ->
    exists grade1 creditos1 avisos1,
      Services.processar_alocacao cfg sol alocacao grade0 creditos0
      = Return (grade1, creditos1, avisos1)
      /\ map fst grade1 = map fst grade0
      /\ map fst creditos1 = map fst creditos0
      /\ (forall s, Py.get Z.eqb grade1 s
                    = option_map
                        (fun l => l ++ alocadas_no_semestre (Services.dados cfg)
                                         (solution_value sol) alocacao s)
                        (Py.get Z.eqb grade0 s))
      /\ (forall s, Py.get Z.eqb creditos1 s
                    = option_map
                        (fun c => c + creditos_atribuidos
                                        (disciplinas (Services.dados cfg))
                                        (solution_value sol) alocacao s)
                        (Py.get Z.eqb creditos0 s)).
Proof.
  unfold Services.processar_alocacao.
  match goal with |- context [fold_left ?f _ _] => set (step := f) end.
  cut (forall (avisos0 : list string)
              (grade0 : list (Z * list Services.DisciplinaAlocada))
              (creditos0 : list (Z * Z)),
          (forall k, In k alocacao -> In (key_s k) (map fst grade0)) ->
          map fst creditos0 = map fst grade0 ->
          exists grade1 creditos1 avisos1,
            fold_left step alocacao (Return (grade0, creditos0, avisos0))
            = Return (grade1, creditos1, avisos1)
            /\ map fst grade1 = map fst grade0
            /\ map fst creditos1 = map fst creditos0
            /\ (forall s, Py.get Z.eqb grade1 s
                          = option_map
                              (fun l => l ++ alocadas_no_semestre (Services.dados cfg)
                                               (solution_value sol) alocacao s)
                              (Py.get Z.eqb grade0 s))
            /\ (forall s, Py.get Z.eqb creditos1 s
                          = option_map
                              (fun c => c + creditos_atribuidos
                                              (disciplinas (Services.dados cfg))
                                              (solution_value sol) alocacao s)
                              (Py.get Z.eqb creditos0 s))).
  { intros H grade0 creditos0. apply H. }
  induction alocacao as [|k al IH]; intros avisos0 grade0 creditos0 Hk Hkeys.
  - exists grade0, creditos0, avisos0. cbn [fold_left].
    repeat split; try reflexivity.
    + intros s. destruct (Py.get Z.eqb grade0 s); cbn; [rewrite app_nil_r|]; reflexivity.
    + intros s. destruct (Py.get Z.eqb creditos0 s); cbn; [f_equal; unfold creditos_atribuidos; simpl; lia|reflexivity].
  - cbn [fold_left]. unfold step at 2. cbn [bind].
    assert (Hk' : forall g : list (Z * list Services.DisciplinaAlocada),
               map fst g = map fst grade0 ->
               forall k', In k' al -> In (key_s k') (map fst g)).
    { intros g Hg k' Hin. rewrite Hg. apply Hk. right. exact Hin. }
    destruct (chosen (solution_value sol) (alocacao_var k)) eqn:Ech.
    + destruct (Py.get String.eqb (disciplinas (Services.dados cfg)) (key_d k))
        as [disc|] eqn:Eg.
      * destruct (update_Some Z.eqb Z.eqb_eq grade0 (key_s k)
                    (fun g => g ++ [Services.mkAlocada (nome disc) (key_t k)
                                      (Py.get_default String.eqb
                                         (horarios_por_turma (Services.dados cfg))
                                         (key_t k) [])
                                      (creditos disc)]))
          as [g' [Eg' Hg']]; [apply Hk; left; reflexivity|].
        destruct (update_Some Z.eqb Z.eqb_eq creditos0 (key_s k)
                    (fun c => c + creditos disc))
          as [c' [Ec' Hc']]; [rewrite Hkeys; apply Hk; left; reflexivity|].
        rewrite Eg'. cbn [of_option bind]. rewrite Ec'. cbn [of_option bind].
        destruct (IH avisos0 g' c' (Hk' g' Hg') ltac:(congruence))
          as [g1 [c1 [w1 [Hf [Hkg [Hkc [Hgg Hgc]]]]]]].
        exists g1, c1, w1. rewrite Hf. split; [reflexivity|].
        split; [congruence|]. split; [congruence|]. split.
        -- intros s. rewrite Hgg, (update_get Z.eqb Z.eqb_eq _ _ _ _ Eg' s).
           cbn [alocadas_no_semestre flat_map].
           fold (alocadas_no_semestre (Services.dados cfg) (solution_value sol) al s).
           rewrite Ech, Eg. rewrite (Z.eqb_sym (key_s k) s). cbn [andb].
           destruct (Z.eqb s (key_s k));
             destruct (Py.get Z.eqb grade0 s); cbn [option_map app]; try reflexivity.
           rewrite <- app_assoc. reflexivity.
        -- intros s. rewrite Hgc, (update_get Z.eqb Z.eqb_eq _ _ _ _ Ec' s).
           rewrite creditos_atribuidos_cons, Ech. unfold credito_de. rewrite Eg.
           rewrite (Z.eqb_sym (key_s k) s).
           destruct (Z.eqb s (key_s k));
             destruct (Py.get Z.eqb creditos0 s); cbn [option_map]; try reflexivity;
             f_equal; lia.
      * destruct (IH (avisos0 ++ [key_d k]) grade0 creditos0
                    (fun k' Hin => Hk k' (or_intror Hin)) Hkeys)
          as [g1 [c1 [w1 [Hf [Hkg [Hkc [Hgg Hgc]]]]]]].
        exists g1, c1, w1. rewrite Hf. repeat split; try assumption.
        -- intros s. rewrite Hgg. cbn [alocadas_no_semestre flat_map].
           fold (alocadas_no_semestre (Services.dados cfg) (solution_value sol) al s).
           rewrite Eg. destruct (chosen _ _ && _); reflexivity.
        -- intros s. rewrite Hgc, creditos_atribuidos_cons. unfold credito_de.
           rewrite Eg.
           destruct (Z.eqb (key_s k) s), (chosen (solution_value sol) (alocacao_var k));
             reflexivity.
    + destruct (IH avisos0 grade0 creditos0
                  (fun k' Hin => Hk k' (or_intror Hin)) Hkeys)
        as [g1 [c1 [w1 [Hf [Hkg [Hkc [Hgg Hgc]]]]]]].
      exists g1, c1, w1. rewrite Hf. repeat split; try assumption.
      * intros s. rewrite Hgg. cbn [alocadas_no_semestre flat_map].
        fold (alocadas_no_semestre (Services.dados cfg) (solution_value sol) al s).
        rewrite Ech. reflexivity.
      * intros s. rewrite Hgc, creditos_atribuidos_cons, Ech.
        destruct (Z.eqb (key_s k) s); reflexivity.
Qed.

Lemma get_filter_valor {K V : Type} (eqb : K -> K -> bool)
    (eqb_spec : forall a b, eqb a b = true <-> a = b)
    (p : V -> bool) (d : list (K * V)) (s : K) :
  NoDup (map fst d) ->
  Py.get eqb (filter (fun e => p (snd e)) d) s
  = match Py.get eqb d s with
    | Some x => if p x then Some x else None
    | None => None
    end.
Proof.
  induction d as [|[k x] d IH]; intros Hnd; [reflexivity|].
  inversion Hnd as [|? ? Hnin Hnd']; subst. cbn [filter snd Py.get].
  destruct (p x) eqn:Ep; cbn [Py.get].
  - destruct (eqb s k); [rewrite Ep; reflexivity | apply IH; exact Hnd'].
  - rewrite (IH Hnd'). destruct (eqb s k) eqn:E; [|reflexivity].
    apply eqb_spec in E. subst s.
    rewrite (proj2 (get_None eqb eqb_spec d k) Hnin), Ep. reflexivity.
Qed.

Lemma services_resolver_decodifica (lower : string -> string)
    (cfg : Services.OptimizerConfig) (solve : Model -> Z -> SolveResult) (tempo : Q) :
  let sol := solve (Services.construir_modelo lower cfg) (Services.solver_timeout_ms cfg) in
  solve_status sol = OPTIMAL \/ solve_status sol = FEASIBLE ->
  exists r,
    Services.resolver lower cfg true solve tempo = Return r
    /\ Services.status r = solve_status sol
    /\ Services.objetivo_value r = Some (objective_value sol)
    /\ map fst (Services.creditos_por_semestre r) = Services.semestres cfg
    /\ (forall s, In s (Services.semestres cfg) ->
                  Py.get Z.eqb (Services.creditos_por_semestre r) s
                  = Some (creditos_atribuidos (disciplinas (Services.dados cfg))
                            (solution_value sol) (Services.alocacao_do_modelo cfg) s))
    /\ (forall s, Py.get Z.eqb (Services.grade r) s
                  = let g := alocadas_no_semestre (Services.dados cfg) (solution_value sol)
                               (Services.alocacao_do_modelo cfg) s in
                    if Py.mem Z.eqb s (Services.semestres cfg) && negb (Py.is_empty g)
                    then Some g else None).
Proof.
  intros sol Hst. unfold Services.resolver. cbn [negb]. fold sol.
  unfold Services._processar_resultados.
  assert (E : status_eqb (solve_status sol) OPTIMAL
              || status_eqb (solve_status sol) FEASIBLE = true).
  { destruct Hst as [-> | ->]; reflexivity. }
  rewrite E.
  set (g0 := Py.comprehension Z.eqb (Services.semestres cfg)
               (fun _ => @nil Services.DisciplinaAlocada)).
  set (c0 := Py.comprehension Z.eqb (Services.semestres cfg) (fun _ => 0)).
  assert (Hg0 : map fst g0 = Services.semestres cfg)
    by (apply (comprehension_key_list Z.eqb Z.eqb_eq); apply range_NoDup).
  assert (Hc0 : map fst c0 = Services.semestres cfg)
    by (apply (comprehension_key_list Z.eqb Z.eqb_eq); apply range_NoDup).
  destruct (services_processar_decodifica cfg sol (Services.alocacao_do_modelo cfg) g0 c0)
    as [g1 [c1 [w1 [Hf [Hkg [Hkc [Hgg Hgc]]]]]]].
  - intros [[d s] t] Hk. rewrite Hg0. cbn [key_s fst snd].
    apply (services_alocacao_In cfg) in Hk. tauto.
  - congruence.
  - rewrite Hf. cbn [bind]. eexists. split; [reflexivity|].
    cbn [Services.status Services.objetivo_value Services.creditos_por_semestre
         Services.grade].
    split; [reflexivity|]. split; [reflexivity|]. split; [congruence|]. split.
    + intros s Hs. rewrite Hgc. unfold c0.
      rewrite (get_comprehension Z.eqb Z.eqb_eq).
      apply (mem_In Z.eqb Z.eqb_eq) in Hs. rewrite Hs. reflexivity.
    + intros s. cbv zeta.
      rewrite (get_filter_valor Z.eqb Z.eqb_eq
                 (fun g : list Services.DisciplinaAlocada => negb (Py.is_empty g))).
      * rewrite Hgg. unfold g0. rewrite (get_comprehension Z.eqb Z.eqb_eq).
        destruct (Py.mem Z.eqb s (Services.semestres cfg)); [|reflexivity].
        cbn [option_map app andb].
        destruct (Py.is_empty _); reflexivity.
      * rewrite Hkg, Hg0. apply range_NoDup.
Qed.

(** X10. When the solver reports OPTIMAL or FEASIBLE, [resolver] returns a
    result with that status and the objective value of the solver, whose
    [creditos_por_semestre] has every term of the planning range as a key,
    with the credits of the assignments chosen for the term as value, and
    whose [grade] maps a term to the entries of its chosen assignments, in
    the order of [alocacao], and has no key for a term without entry. *)
Theorem services_result_decoding (lower : string -> string)
    (cfg : Services.OptimizerConfig) (solve : Model -> Z -> SolveResult) (tempo : Q) :
  let sol := solve (Services.construir_modelo lower cfg) (Services.solver_timeout_ms cfg) in
  solve_status sol = OPTIMAL \/ solve_status sol = FEASIBLE ->
  exists r,
    Services.resolver lower cfg true solve tempo = Return r
    /\ Services.status r = solve_status sol
    /\ Services.objetivo_value r = Some (objective_value sol)
    /\ map fst (Services.creditos_por_semestre r) = Services.semestres cfg
    /\ (forall s, In s (Services.semestres cfg) ->
                  Py.get Z.eqb (Services.creditos_por_semestre r) s
                  = Some (creditos_atribuidos (disciplinas (Services.dados cfg))
                            (solution_value sol) (Services.alocacao_do_modelo cfg) s))
    /\ (forall s, Py.get Z.eqb (Services.grade r) s
                  = let g := alocadas_no_semestre (Services.dados cfg) (solution_value sol)
                               (Services.alocacao_do_modelo cfg) s in
                    if Py.mem Z.eqb s (Services.semestres cfg) && negb (Py.is_empty g)
                    then Some g else None).
Proof. exact (services_resolver_decodifica lower cfg solve tempo). Qed.

Lemma services_result_decoding_witness :
  exists r,
    Services.resolver Exemplos.lower_ascii Exemplos.cfg_XY true
      (fun _ _ => mkSolveResult OPTIMAL Exemplos.sol_XY 2) 0 = Return r
    /\ Py.get Z.eqb (Services.creditos_por_semestre r) 2 = Some 4
    /\ Py.get Z.eqb (Services.grade r) 2
       = Some [Services.mkAlocada "Calculo II" "TY" ["SEG-08"%string] 4].
Proof.
  destruct (services_result_decoding Exemplos.lower_ascii Exemplos.cfg_XY
              (fun _ _ => mkSolveResult OPTIMAL Exemplos.sol_XY 2) 0)
    as [r [Hr [_ [_ [_ [Hc Hg]]]]]].
  - left. reflexivity.
  - exists r. split; [exact Hr|]. split.
    + rewrite Hc; [reflexivity | vm_compute; auto].
    + rewrite Hg. reflexivity.
Defined.

(** X11. When the solver reports OPTIMAL or FEASIBLE with a solution of the
    services model, every value of [creditos_por_semestre] in the result of
    [resolver] is at most [creditos_maximos_por_semestre] (the catalog being
    a dict). *)
Theorem services_reported_credits_within_cap (lower : string -> string)
    (cfg : Services.OptimizerConfig) (solve : Model -> Z -> SolveResult) (tempo : Q)
    (r : Services.GradeResultado) (s c : Z) :
  let sol := solve (Services.construir_modelo lower cfg) (Services.solver_timeout_ms cfg) in
  solve_status sol = OPTIMAL \/ solve_status sol = FEASIBLE ->
  feasible (solution_value sol) (Services.construir_modelo lower cfg) ->
  dict_ok (disciplinas (Services.dados cfg)) ->
  Services.resolver lower cfg true solve tempo = Return r ->
  In (s, c) (Services.creditos_por_semestre r) ->
  c <= Services.creditos_maximos_por_semestre cfg.
Proof.
  intros sol Hst Hf Hd Hr Hin.
  destruct (services_resolver_decodifica lower cfg solve tempo Hst)
    as [r' [Hr' [_ [_ [Hk [Hc _]]]]]].
  rewrite Hr in Hr'. injection Hr' as <-.
  assert (Hs : In s (Services.semestres cfg)).
  { rewrite <- Hk. apply in_map_iff. exists (s, c). auto. }
  assert (Hg : Py.get Z.eqb (Services.creditos_por_semestre r) s = Some c).
  { apply (In_get_NoDup Z.eqb Z.eqb_eq); [|exact Hin]. rewrite Hk. apply range_NoDup. }
  rewrite (Hc s Hs) in Hg. injection Hg as <-.
  apply (services_credit_cap lower cfg _ s Hf Hd).
  apply services_semestres_In. exact Hs.
Qed.

Lemma services_reported_credits_within_cap_witness :
  4 <= Services.creditos_maximos_por_semestre Exemplos.cfg_XY.
Proof.
  apply (services_reported_credits_within_cap Exemplos.lower_ascii Exemplos.cfg_XY
           (fun _ _ => mkSolveResult OPTIMAL Exemplos.sol_XY 2) 0
           (Services.mkResultado
              [(1, [Services.mkAlocada "Calculo I" "TX" ["SEG-08"%string] 4]);
               (2, [Services.mkAlocada "Calculo II" "TY" ["SEG-08"%string] 4])]
              [(1, 4); (2, 4)] OPTIMAL (Some 2%Q) 0)
           2 4).
  - left. reflexivity.
  - apply feasibleb_sound. vm_compute. reflexivity.
  - unfold dict_ok. simpl. repeat constructor; simpl; intuition discriminate.
  - vm_compute. reflexivity.
  - simpl. auto.
Defined.

Lemma total_somar_tipo (t : string) (cred : Z) (c : Backend.CreditosPorTipo) :
  total_por_tipo (Backend.somar_tipo t cred c) = total_por_tipo c + cred.
Proof.
  unfold Backend.somar_tipo, total_por_tipo.
  destruct (Py.str_in "Obrigatória" t); [cbn; lia|].
  destruct (Py.str_in "Restrita" t); [cbn; lia|].
  destruct (Py.str_in "Condicionada" t); [cbn; lia|].
  destruct (Py.str_in "Livre" t); cbn; lia.
Qed.

Lemma creditos_dos_objetos_app (a b : list Backend.DisciplinaObj) :
  creditos_dos_objetos (a ++ b) = creditos_dos_objetos a + creditos_dos_objetos b.
Proof.
  unfold creditos_dos_objetos. induction a as [|x a IH]; cbn [app map fold_right]; lia.
Qed.

Lemma backend_processar_decodifica (dados : DadosDisciplinas) (NUM_SEMESTRES : Z)
    (disciplinas_cursadas : list string) (sol : SolveResult) :
  exists g1 c1 p1,
    Backend.processar_alocacao dados NUM_SEMESTRES disciplinas_cursadas sol
    = Return (g1, c1, p1)
    /\ map fst g1 = Backend.semestres NUM_SEMESTRES
    /\ map fst c1 = Backend.semestres NUM_SEMESTRES
    /\ (forall s, In s (Backend.semestres NUM_SEMESTRES) ->
                  Py.get Z.eqb g1 s
                  = Some (objetos_no_semestre dados (solution_value sol)
                            (Backend.alocacao dados NUM_SEMESTRES disciplinas_cursadas) s))
    /\ (forall s, In s (Backend.semestres NUM_SEMESTRES) ->
                  Py.get Z.eqb c1 s
                  = Some (creditos_atribuidos (disciplinas dados) (solution_value sol)
                            (Backend.alocacao dados NUM_SEMESTRES disciplinas_cursadas) s))
    /\ total_por_tipo p1
       = total_por_tipo (Backend.creditos_ja_cursados dados disciplinas_cursadas)
         + creditos_escolhidos (disciplinas dados) (solution_value sol)
             (Backend.alocacao dados NUM_SEMESTRES disciplinas_cursadas).
Proof.
  unfold Backend.processar_alocacao.
  set (g0 := Py.comprehension Z.eqb (Backend.semestres NUM_SEMESTRES)
               (fun _ => @nil Backend.DisciplinaObj)).
  set (c0 := Py.comprehension Z.eqb (Backend.semestres NUM_SEMESTRES) (fun _ => 0)).
  set (p0 := Backend.creditos_ja_cursados dados disciplinas_cursadas).
  assert (Hg0 : map fst g0 = Backend.semestres NUM_SEMESTRES)
    by (apply (comprehension_key_list Z.eqb Z.eqb_eq); apply range_NoDup).
  assert (Hc0 : map fst c0 = Backend.semestres NUM_SEMESTRES)
    by (apply (comprehension_key_list Z.eqb Z.eqb_eq); apply range_NoDup).
  match goal with |- context [fold_left ?f _ _] => set (step := f) end.
  assert (Hal : forall k, In k (Backend.alocacao dados NUM_SEMESTRES disciplinas_cursadas) ->
                          In (key_s k) (Backend.semestres NUM_SEMESTRES)
                          /\ In (key_d k) (map fst (disciplinas dados))).
  { intros [[d s] t] Hk. apply backend_alocacao_In in Hk as ([info Hd] & _ & _ & Hs & _).
    cbn [key_s key_d fst snd]. split; [apply backend_semestres_In; exact Hs|].
    apply in_map_iff. exists (d, info). auto. }
  cut (forall (al : list Key) (g0 : list (Z * list Backend.DisciplinaObj))
              (c0 : list (Z * Z)) (p0 : Backend.CreditosPorTipo),
          (forall k, In k al -> In (key_s k) (map fst g0)
                                /\ In (key_d k) (map fst (disciplinas dados))) ->
          map fst c0 = map fst g0 ->
          exists g1 c1 p1,
            fold_left step al (Return (g0, c0, p0)) = Return (g1, c1, p1)
            /\ map fst g1 = map fst g0
            /\ map fst c1 = map fst c0
            /\ (forall s, Py.get Z.eqb g1 s
                          = option_map
                              (fun l => l ++ objetos_no_semestre dados
                                               (solution_value sol) al s)
                              (Py.get Z.eqb g0 s))
            /\ (forall s, Py.get Z.eqb c1 s
                          = option_map
                              (fun c => c + creditos_atribuidos (disciplinas dados)
                                              (solution_value sol) al s)
                              (Py.get Z.eqb c0 s))
            /\ total_por_tipo p1
               = total_por_tipo p0
                 + creditos_escolhidos (disciplinas dados) (solution_value sol) al).
  { intros H.
    destruct (H (Backend.alocacao dados NUM_SEMESTRES disciplinas_cursadas) g0 c0 p0)
      as [g1 [c1 [p1 [Hf [Hkg [Hkc [Hgg [Hgc Hp]]]]]]]].
    - intros k Hk. rewrite Hg0. apply Hal. exact Hk.
    - congruence.
    - exists g1, c1, p1. split; [exact Hf|]. split; [congruence|]. split; [congruence|].
      split; [|split; [|exact Hp]].
      + intros s Hs. rewrite Hgg. unfold g0. rewrite (get_comprehension Z.eqb Z.eqb_eq).
        apply (mem_In Z.eqb Z.eqb_eq) in Hs. rewrite Hs. reflexivity.
      + intros s Hs. rewrite Hgc. unfold c0. rewrite (get_comprehension Z.eqb Z.eqb_eq).
        apply (mem_In Z.eqb Z.eqb_eq) in Hs. rewrite Hs. reflexivity. }
  clear g0 c0 p0 Hg0 Hc0 Hal.
  induction al as [|k al IH]; intros g0 c0 p0 Hk Hkeys.
  - exists g0, c0, p0. cbn [fold_left]. repeat split; try reflexivity.
    + intros s. destruct (Py.get Z.eqb g0 s); cbn; [rewrite app_nil_r|]; reflexivity.
    + intros s. destruct (Py.get Z.eqb c0 s); cbn;
        [f_equal; unfold creditos_atribuidos; simpl; lia | reflexivity].
    + unfold creditos_escolhidos. simpl. lia.
  - cbn [fold_left]. unfold step at 2. cbn [bind].
    assert (Hk' : forall g : list (Z * list Backend.DisciplinaObj),
               map fst g = map fst g0 ->
               forall k', In k' al -> In (key_s k') (map fst g)
                                      /\ In (key_d k') (map fst (disciplinas dados))).
    { intros g Hg k' Hin. rewrite Hg. apply Hk. right. exact Hin. }
    destruct (Hk k (or_introl eq_refl)) as [Hks Hkd].
    destruct (chosen (solution_value sol) (alocacao_var k)) eqn:Ech.
    + destruct (Py.get String.eqb (disciplinas dados) (key_d k)) as [disc|] eqn:Eg.
      2:{ exfalso. apply (get_None String.eqb String.eqb_eq) in Eg. contradiction. }
      cbn [of_option bind].
      match goal with
      | |- context [Py.update Z.eqb g0 (key_s k) ?f] =>
          destruct (update_Some Z.eqb Z.eqb_eq g0 (key_s k) f) as [g' [Eg' Hg']];
            [exact Hks|]
      end.
      destruct (update_Some Z.eqb Z.eqb_eq c0 (key_s k) (fun c => c + creditos disc))
        as [c' [Ec' Hc']]; [rewrite Hkeys; exact Hks|].
      rewrite Eg'. cbn [of_option bind]. rewrite Ec'. cbn [of_option bind].
      destruct (IH g' c'
                  (Backend.somar_tipo
                     (match tipo disc with Some t => t | None => "Outros"%string end)
                     (creditos disc) p0)
                  (Hk' g' Hg') ltac:(congruence))
        as [g1 [c1 [p1 [Hf [Hkg [Hkc [Hgg [Hgc Hp]]]]]]]].
      exists g1, c1, p1. rewrite Hf. split; [reflexivity|].
      split; [congruence|]. split; [congruence|]. split; [|split].
      * intros s. rewrite Hgg, (update_get Z.eqb Z.eqb_eq _ _ _ _ Eg' s).
        cbn [objetos_no_semestre flat_map].
        fold (objetos_no_semestre dados (solution_value sol) al s).
        rewrite Ech, Eg. rewrite (Z.eqb_sym (key_s k) s). cbn [andb].
        destruct (Z.eqb s (key_s k));
          destruct (Py.get Z.eqb g0 s); cbn [option_map app]; try reflexivity.
        rewrite <- app_assoc. reflexivity.
      * intros s. rewrite Hgc, (update_get Z.eqb Z.eqb_eq _ _ _ _ Ec' s).
        rewrite creditos_atribuidos_cons, Ech. unfold credito_de. rewrite Eg.
        rewrite (Z.eqb_sym (key_s k) s).
        destruct (Z.eqb s (key_s k));
          destruct (Py.get Z.eqb c0 s); cbn [option_map]; try reflexivity;
          f_equal; lia.
      * rewrite Hp, total_somar_tipo. unfold creditos_escolhidos.
        cbn [map fold_right]. rewrite Ech. unfold credito_de. rewrite Eg. lia.
    + destruct (IH g0 c0 p0 (fun k' Hin => Hk k' (or_intror Hin)) Hkeys)
        as [g1 [c1 [p1 [Hf [Hkg [Hkc [Hgg [Hgc Hp]]]]]]]].
      exists g1, c1, p1. rewrite Hf. repeat split; try assumption.
      * intros s. rewrite Hgg. cbn [objetos_no_semestre flat_map].
        fold (objetos_no_semestre dados (solution_value sol) al s).
        rewrite Ech. reflexivity.
      * intros s. rewrite Hgc, creditos_atribuidos_cons, Ech.
        destruct (Z.eqb (key_s k) s); reflexivity.
      * rewrite Hp. unfold creditos_escolhidos. cbn [map fold_right]. rewrite Ech. lia.
Qed.

Lemma raise_fold {A B : Type} (f : Exc A -> B -> Exc A) (e : PyError) (l : list B) :
  (forall e b, f (Raise e) b = Raise e) ->
  fold_left f l (Raise e) = Raise e.
Proof.
  intros Hf. induction l as [|b l IH]; [reflexivity|].
  cbn [fold_left]. rewrite Hf. exact IH.
Qed.


Lemma Forall_app_inv {A : Type} (P : A -> Prop) (a b : list A) :
  Forall P (a ++ b) <-> Forall P a /\ Forall P b.
Proof. apply Forall_app. Qed.




Lemma creditos_atribuidos_objetos (dados : DadosDisciplinas) (v : Var -> Z)
    (al : list Key) (s : Z) :
  creditos_atribuidos (disciplinas dados) v al s
  = creditos_dos_objetos (objetos_no_semestre dados v al s).
Proof.
  induction al as [|k al IH].
  - reflexivity.
  - rewrite creditos_atribuidos_cons, IH. cbn [objetos_no_semestre flat_map].
    fold (objetos_no_semestre dados v al s). rewrite creditos_dos_objetos_app.
    unfold credito_de.
    destruct (chosen v (alocacao_var k)), (Z.eqb (key_s k) s); cbn [andb];
      try reflexivity;
      destruct (Py.get String.eqb (disciplinas dados) (key_d k));
      unfold creditos_dos_objetos; cbn [map fold_right Backend.obj_creditos]; lia.
Qed.

Lemma total_ja_cursados (dados : DadosDisciplinas) (disciplinas_cursadas : list string) :
  total_por_tipo (Backend.creditos_ja_cursados dados disciplinas_cursadas)
  = creditos_das_cursadas (disciplinas dados) disciplinas_cursadas.
Proof.
  unfold Backend.creditos_ja_cursados, creditos_das_cursadas.
  generalize (Py.keys_of String.eqb disciplinas_cursadas). intros l.
  assert (H : forall c,
             total_por_tipo
               (fold_left
                  (fun c d_id =>
                     match Py.get String.eqb (disciplinas dados) d_id with
                     | Some disc =>
                         Backend.somar_tipo
                           (match tipo disc with
                            | Some t => t
                            | None => "Outros"%string
                            end) (creditos disc) c
                     | None => c
                     end) l c)
             = total_por_tipo c
               + fold_right Z.add 0 (map (credito_de (disciplinas dados)) l)).
  { induction l as [|d l IH]; intros c; [simpl; lia|].
    cbn [fold_left map fold_right]. rewrite IH. unfold credito_de at 2.
    destruct (Py.get String.eqb (disciplinas dados) d); [rewrite total_somar_tipo|]; lia. }
  rewrite H. reflexivity.
Qed.

Lemma backend_resolver_decodifica (dados : DadosDisciplinas)
    (creditos_minimos : CreditosMinimos) (NUM_SEMESTRES CREDITOS_MAXIMOS : Z)
    (disciplinas_cursadas : list string) (solve : Model -> SolveResult) (m : Model) :
  Backend.construir_modelo dados creditos_minimos NUM_SEMESTRES CREDITOS_MAXIMOS
    disciplinas_cursadas = Return m ->
  solve_status (solve m) = OPTIMAL \/ solve_status (solve m) = FEASIBLE ->
  exists g c p,
    Backend.resolver_grade dados creditos_minimos NUM_SEMESTRES CREDITOS_MAXIMOS
      disciplinas_cursadas true solve
    = Return [Backend.PyGrade g; Backend.PyCreditos c;
              Backend.PyInt (Backend.status_code (solve_status (solve m)));
              Backend.PyFloat (objective_value (solve m)); Backend.PyPorTipo p]
    /\ map fst g = Py.range 1 (NUM_SEMESTRES + 1)
    /\ map fst c = Py.range 1 (NUM_SEMESTRES + 1)
    /\ (forall s, 1 <= s <= NUM_SEMESTRES ->
          let objetos :=
            objetos_no_semestre dados (solution_value (solve m))
              (Backend.alocacao dados NUM_SEMESTRES disciplinas_cursadas) s in
          Py.get Z.eqb g s = Some objetos
          /\ Py.get Z.eqb c s = Some (creditos_dos_objetos objetos))
    /\ total_por_tipo p
       = creditos_das_cursadas (disciplinas dados) disciplinas_cursadas
         + creditos_escolhidos (disciplinas dados) (solution_value (solve m))
             (Backend.alocacao dados NUM_SEMESTRES disciplinas_cursadas).
Proof.
  intros Hm Hst. unfold Backend.resolver_grade. cbn [negb]. rewrite Hm. cbn [bind].
  assert (E : status_eqb (solve_status (solve m)) OPTIMAL
              || status_eqb (solve_status (solve m)) FEASIBLE = true).
  { destruct Hst as [-> | ->]; reflexivity. }
  rewrite E.
  destruct (backend_processar_decodifica dados NUM_SEMESTRES disciplinas_cursadas (solve m))
    as [g [c [p [Hf [Hkg [Hkc [Hgg [Hgc Hp]]]]]]]].
  rewrite Hf. cbn [bind]. exists g, c, p. split; [reflexivity|].
  split; [exact Hkg|]. split; [exact Hkc|]. split.
  - intros s Hs. apply backend_semestres_In in Hs. split.
    + apply Hgg. exact Hs.
    + rewrite (Hgc s Hs). rewrite creditos_atribuidos_objetos. reflexivity.
  - rewrite Hp, total_ja_cursados. reflexivity.
Qed.

(** X14. For a model handed to the solver and a status OPTIMAL or FEASIBLE,
    the backend [resolver_grade] returns the five-element tuple of [grade],
    [creditos_por_semestre], the status code, the objective value and the
    credit report. Both dicts have the terms [1 .. NUM_SEMESTRES] as keys;
    [grade[s]] holds the objects of the assignments chosen for [s], in the
    order of [alocacao], and [creditos_por_semestre[s]] is the sum of their
    credits; the five counters of the report add up to the credits of the
    completed catalog courses plus the credits of all chosen assignments. *)
Theorem backend_result_decoding (dados : DadosDisciplinas)
    (creditos_minimos : CreditosMinimos) (NUM_SEMESTRES CREDITOS_MAXIMOS : Z)
    (disciplinas_cursadas : list string) (solve : Model -> SolveResult) (m : Model) :
  Backend.construir_modelo dados creditos_minimos NUM_SEMESTRES CREDITOS_MAXIMOS
    disciplinas_cursadas = Return m ->
  solve_status (solve m) = OPTIMAL \/ solve_status (solve m) = FEASIBLE ->
  exists g c p,
    Backend.resolver_grade dados creditos_minimos NUM_SEMESTRES CREDITOS_MAXIMOS
      disciplinas_cursadas true solve
    = Return [Backend.PyGrade g; Backend.PyCreditos c;
              Backend.PyInt (Backend.status_code (solve_status (solve m)));
              Backend.PyFloat (objective_value (solve m)); Backend.PyPorTipo p]
    /\ map fst g = Py.range 1 (NUM_SEMESTRES + 1)
    /\ map fst c = Py.range 1 (NUM_SEMESTRES + 1)
    /\ (forall s, 1 <= s <= NUM_SEMESTRES ->
          let objetos :=
            objetos_no_semestre dados (solution_value (solve m))
              (Backend.alocacao dados NUM_SEMESTRES disciplinas_cursadas) s in
          Py.get Z.eqb g s = Some objetos
          /\ Py.get Z.eqb c s = Some (creditos_dos_objetos objetos))
    /\ total_por_tipo p
       = creditos_das_cursadas (disciplinas dados) disciplinas_cursadas
         + creditos_escolhidos (disciplinas dados) (solution_value (solve m))
             (Backend.alocacao dados NUM_SEMESTRES disciplinas_cursadas).
Proof. exact (backend_resolver_decodifica dados creditos_minimos NUM_SEMESTRES
                CREDITOS_MAXIMOS disciplinas_cursadas solve m). Qed.

Lemma backend_result_decoding_witness :
  exists g c p,
    Backend.resolver_grade Exemplos2.dados_XRS (mkMinimos 6 0 0) 1 32 ["R"%string] true
      (fun _ => mkSolveResult OPTIMAL Exemplos2.sol_XS 1)
    = Return [Backend.PyGrade g; Backend.PyCreditos c; Backend.PyInt 0;
              Backend.PyFloat 1; Backend.PyPorTipo p]
    /\ Py.get Z.eqb c 1 = Some 6
    /\ total_por_tipo p = 4 + 6.
Proof.
  destruct (backend_result_decoding Exemplos2.dados_XRS (mkMinimos 6 0 0) 1 32
              ["R"%string] (fun _ => mkSolveResult OPTIMAL Exemplos2.sol_XS 1)
              (modelo_de (Backend.construir_modelo Exemplos2.dados_XRS (mkMinimos 6 0 0)
                            1 32 ["R"%string])))
    as [g [c [p [Hr [_ [_ [Hs Hp]]]]]]].
  - vm_compute. reflexivity.
  - left. reflexivity.
  - exists g, c, p. split; [exact Hr|]. split.
    + destruct (Hs 1 ltac:(lia)) as [_ Hc]. rewrite Hc. reflexivity.
    + rewrite Hp. reflexivity.
Defined.

Lemma get_Some_of_In {V : Type} (d : list (Z * V)) (k : Z) :
  In k (map fst d) -> exists x, Py.get Z.eqb d k = Some x.
Proof.
  intros H. destruct (Py.get Z.eqb d k) as [x|] eqn:E; [eexists; reflexivity|].
  apply (get_None Z.eqb Z.eqb_eq) in E. contradiction.
Qed.

Lemma formatar_grade_ok (grade : list (Z * list Backend.DisciplinaObj))
    (creditos : list (Z * Z)) :
  (forall s, In s (map fst grade) -> In s (map fst creditos)) ->
  exists sched,
    Backend.formatar_grade grade creditos = Return sched
    /\ map Backend.sd_semestre sched = map fst grade
    /\ forall sd, In sd sched ->
                  In (Backend.sd_semestre sd, Backend.sd_disciplinas sd) grade
                  /\ Py.get Z.eqb creditos (Backend.sd_semestre sd)
                     = Some (Backend.sd_creditos sd).
Proof.
  unfold Backend.formatar_grade.
  match goal with |- context [fold_left ?f _ _] => set (step := f) end.
  intros Hk.
  cut (forall acc,
          exists sched,
            fold_left step grade (Return acc) = Return (acc ++ sched)
            /\ map Backend.sd_semestre sched = map fst grade
            /\ forall sd, In sd sched ->
                          In (Backend.sd_semestre sd, Backend.sd_disciplinas sd) grade
                          /\ Py.get Z.eqb creditos (Backend.sd_semestre sd)
                             = Some (Backend.sd_creditos sd)).
  { intros H. destruct (H []) as [sched [Hf Hr]]. exists sched. split; [exact Hf | exact Hr]. }
  induction grade as [|[s l] grade IH]; intros acc.
  - exists []. cbn [fold_left]. rewrite app_nil_r. repeat split; try reflexivity;
      contradiction.
  - cbn [fold_left]. unfold step at 2. cbn [bind fst snd].
    destruct (get_Some_of_In creditos s) as [x Ex]; [apply Hk; left; reflexivity|].
    rewrite Ex. cbn [of_option bind].
    destruct (IH (fun s' H => Hk s' (or_intror H))
                 (acc ++ [Backend.mkSemestreData s l x])) as [sched [Hf [Hm Hs]]].
    exists (Backend.mkSemestreData s l x :: sched). rewrite Hf, <- app_assoc.
    split; [reflexivity|]. split.
    + cbn [map Backend.sd_semestre fst]. rewrite Hm. reflexivity.
    + intros sd [<-|Hin].
      * cbn [Backend.sd_semestre Backend.sd_disciplinas Backend.sd_creditos].
        split; [left; reflexivity | exact Ex].
      * destruct (Hs sd Hin) as [H1 H2]. split; [right; exact H1 | exact H2].
Qed.

Lemma optimize_schedule_resposta (dados : DadosDisciplinas)
    (solve : Model -> SolveResult) (taken_courses : list string) (m : Model) :
  Backend.construir_modelo dados (mkMinimos 4 40 8) 10 32 taken_courses = Return m ->
  (solve_status (solve m) = OPTIMAL \/ solve_status (solve m) = FEASIBLE ->
   exists schedule summary,
     Backend.optimize_schedule (Some dados) true solve taken_courses
     = Backend.Responds
         (Backend.Success
            (if status_eqb (solve_status (solve m)) OPTIMAL then "OPTIMAL" else "FEASIBLE")
            (Backend.PyFloat (objective_value (solve m))) schedule summary)
     /\ map Backend.sd_semestre schedule = Py.range 1 11
     /\ forall sd, In sd schedule ->
          Backend.sd_disciplinas sd
          = objetos_no_semestre dados (solution_value (solve m))
              (Backend.alocacao dados 10 taken_courses) (Backend.sd_semestre sd)
          /\ Backend.sd_creditos sd = creditos_dos_objetos (Backend.sd_disciplinas sd))
  /\ (solve_status (solve m) <> OPTIMAL -> solve_status (solve m) <> FEASIBLE ->
      Backend.optimize_schedule (Some dados) true solve taken_courses
      = Backend.Responds
          (Backend.Error
             (if status_eqb (solve_status (solve m)) INFEASIBLE
              then Backend.Text "INFEASIBLE"
              else Backend.StrOf (Backend.status_code (solve_status (solve m))))
             "No solution found.")).
Proof.
  intros Hm. split.
  - intros Hst.
    destruct (backend_resolver_decodifica dados (mkMinimos 4 40 8) 10 32 taken_courses
                solve m Hm Hst) as [g [c [p [Hr [Hkg [Hkc [Hs _]]]]]]].
    unfold Backend.optimize_schedule. rewrite Hr. cbn [Backend.unpack5].
    assert (E : Z.eqb (Backend.status_code (solve_status (solve m)))
                      (Backend.status_code OPTIMAL)
                || Z.eqb (Backend.status_code (solve_status (solve m)))
                         (Backend.status_code FEASIBLE) = true).
    { destruct Hst as [-> | ->]; reflexivity. }
    rewrite E.
    destruct (formatar_grade_ok g c) as [sched [Hf [Hsm Hsd]]].
    { intros s H. rewrite Hkc, <- Hkg. exact H. }
    rewrite Hf. exists sched, (Backend.PyPorTipo p). split.
    + f_equal. f_equal. destruct Hst as [-> | ->]; reflexivity.
    + split; [rewrite Hsm; exact Hkg|].
      intros sd Hin. destruct (Hsd sd Hin) as [Hg Hc].
      assert (Hrange : 1 <= Backend.sd_semestre sd <= 10).
      { assert (H : In (Backend.sd_semestre sd) (map fst g)).
        { apply in_map_iff. exists (Backend.sd_semestre sd, Backend.sd_disciplinas sd).
          auto. }
        rewrite Hkg in H. apply range_In in H. lia. }
      destruct (Hs _ Hrange) as [Hg' Hc'].
      apply (In_get_NoDup Z.eqb Z.eqb_eq) in Hg; [|rewrite Hkg; apply range_NoDup].
      rewrite Hg' in Hg. injection Hg as Hg. rewrite Hc' in Hc. injection Hc as Hc.
      rewrite <- Hg, <- Hc. split; reflexivity.
  - intros H1 H2. unfold Backend.optimize_schedule, Backend.resolver_grade.
    cbn [negb]. rewrite Hm. cbn [bind].
    rewrite (sem_solucao_eqb _ H1 H2). cbn [Backend.unpack5].
    destruct (solve_status (solve m)); try congruence; reflexivity.
Qed.

(** X16. The [/optimize] handler, once the model is built. For a status
    OPTIMAL or FEASIBLE it responds with success, the status text, the
    objective value and a schedule of the terms 1 to 10 in order, each with
    the objects of its chosen assignments and, as [creditos], the sum of
    their credits. For any other status it responds with an error whose
    status text is ["INFEASIBLE"] for INFEASIBLE and the status number
    otherwise. *)
Theorem optimize_schedule_response (dados : DadosDisciplinas)
    (solve : Model -> SolveResult) (taken_courses : list string) (m : Model) :
  Backend.construir_modelo dados (mkMinimos 4 40 8) 10 32 taken_courses = Return m ->
  (solve_status (solve m) = OPTIMAL \/ solve_status (solve m) = FEASIBLE ->
   exists schedule summary,
     Backend.optimize_schedule (Some dados) true solve taken_courses
     = Backend.Responds
         (Backend.Success
            (if status_eqb (solve_status (solve m)) OPTIMAL then "OPTIMAL" else "FEASIBLE")
            (Backend.PyFloat (objective_value (solve m))) schedule summary)
     /\ map Backend.sd_semestre schedule = Py.range 1 11
     /\ forall sd, In sd schedule ->
          Backend.sd_disciplinas sd
          = objetos_no_semestre dados (solution_value (solve m))
              (Backend.alocacao dados 10 taken_courses) (Backend.sd_semestre sd)
          /\ Backend.sd_creditos sd = creditos_dos_objetos (Backend.sd_disciplinas sd))
  /\ (solve_status (solve m) <> OPTIMAL -> solve_status (solve m) <> FEASIBLE ->
      Backend.optimize_schedule (Some dados) true solve taken_courses
      = Backend.Responds
          (Backend.Error
             (if status_eqb (solve_status (solve m)) INFEASIBLE
              then Backend.Text "INFEASIBLE"
              else Backend.StrOf (Backend.status_code (solve_status (solve m))))
             "No solution found.")).
Proof. exact (optimize_schedule_resposta dados solve taken_courses m). Qed.

Lemma optimize_schedule_response_witness :
  (exists schedule summary,
     Backend.optimize_schedule (Some Exemplos2.dados_conflito) true
       (fun _ => mkSolveResult FEASIBLE Exemplos.sol_XY 2) []
     = Backend.Responds
         (Backend.Success "FEASIBLE" (Backend.PyFloat 2) schedule summary)
     /\ map Backend.sd_semestre schedule = Py.range 1 11)
  /\ Backend.optimize_schedule (Some Exemplos2.dados_conflito) true
       (fun _ => mkSolveResult INFEASIBLE Exemplos.sol_XY 0) []
     = Backend.Responds (Backend.Error (Backend.Text "INFEASIBLE") "No solution found.").
Proof.
  assert (Hm : Backend.construir_modelo Exemplos2.dados_conflito (mkMinimos 4 40 8) 10 32 []
               = Return (modelo_de (Backend.construir_modelo Exemplos2.dados_conflito
                                      (mkMinimos 4 40 8) 10 32 [])))
    by (vm_compute; reflexivity).
  split.
  - destruct (optimize_schedule_response Exemplos2.dados_conflito
                (fun _ => mkSolveResult FEASIBLE Exemplos.sol_XY 2) [] _ Hm) as [H _].
    destruct H as [schedule [summary [Hr [Hs _]]]]; [right; reflexivity|].
    exists schedule, summary. split; [exact Hr | exact Hs].
  - destruct (optimize_schedule_response Exemplos2.dados_conflito
                (fun _ => mkSolveResult INFEASIBLE Exemplos.sol_XY 0) [] _ Hm) as [_ H].
    apply H; discriminate.
Defined.

(** ** The data loader *)

Lemma filter_filter {A : Type} (p : A -> bool) (l : list A) :
  filter p (filter p l) = filter p l.
Proof.
  induction l as [|a l IH]; [reflexivity|]. cbn [filter].
  destruct (p a) eqn:E; [|exact IH]. cbn [filter]. rewrite E, IH. reflexivity.
Qed.

Lemma filtrar_In (ds : list (string * Disciplina)) (c : list string)
    (d : string) (info : Disciplina) :
  In (d, info) (DataLoaderDados._filtrar_disciplinas_concluidas ds c)
  <-> ~ In d c
      /\ exists info0,
           In (d, info0) ds
           /\ info = mkDisciplina (nome info0) (creditos info0) (tipo info0)
                       (filter (fun p => negb (Py.mem String.eqb p c))
                               (prerequisitos info0)).
Proof.
  unfold DataLoaderDados._filtrar_disciplinas_concluidas. rewrite in_flat_map. split.
  - intros [[d0 info0] [Hin H]]. cbn [fst snd] in H.
    destruct (Py.mem String.eqb d0 c) eqn:E; cbn [negb] in H; [contradiction|].
    destruct H as [H|[]]. injection H as <- <-.
    apply (mem_false String.eqb String.eqb_eq) in E. split; [exact E|].
    exists info0. auto.
  - intros [Hc [info0 [Hin ->]]]. exists (d, info0). split; [exact Hin|].
    cbn [fst snd]. apply (mem_false String.eqb String.eqb_eq) in Hc. rewrite Hc.
    left; reflexivity.
Qed.

(** X18. [_filtrar_disciplinas_concluidas] keeps, in order, the records
    whose id is not completed. A kept record has the name, credits and type
    of its original and, as prerequisites, those of the original that are
    not completed. Filtering again with the same list changes nothing, and
    filtering with the empty list returns the records as they are (a record
    without the key [prerequisitos] being read as one with the empty list,
    which is what the copy gets). *)
Theorem filtrar_disciplinas_concluidas_spec (ds : list (string * Disciplina))
    (concluidas : list string) :
  let filtradas := DataLoaderDados._filtrar_disciplinas_concluidas ds concluidas in
  map fst filtradas
  = filter (fun d => negb (Py.mem String.eqb d concluidas)) (map fst ds)
  /\ (forall d info, In (d, info) filtradas ->
        ~ In d concluidas
        /\ (forall p, In p (prerequisitos info) -> ~ In p concluidas)
        /\ exists info0,
             In (d, info0) ds
             /\ nome info = nome info0 /\ creditos info = creditos info0
             /\ tipo info = tipo info0
             /\ forall p, In p (prerequisitos info)
                          <-> In p (prerequisitos info0) /\ ~ In p concluidas)
  /\ DataLoaderDados._filtrar_disciplinas_concluidas filtradas concluidas = filtradas
  /\ DataLoaderDados._filtrar_disciplinas_concluidas ds [] = ds.
Proof.
  cbv zeta. split; [|split; [|split]].
  - unfold DataLoaderDados._filtrar_disciplinas_concluidas.
    induction ds as [|[d info] ds IH]; [reflexivity|].
    cbn [flat_map map filter fst snd]. rewrite map_app, IH.
    destruct (Py.mem String.eqb d concluidas); reflexivity.
  - intros d info Hin. apply filtrar_In in Hin as [Hc [info0 [Hin ->]]].
    split; [exact Hc|]. cbn [prerequisitos nome creditos tipo]. split.
    + intros p Hp. apply filter_In in Hp as [_ Hp]. apply negb_true_iff in Hp.
      apply (mem_false String.eqb String.eqb_eq) in Hp. exact Hp.
    + exists info0. repeat split; try reflexivity; try assumption.
      * apply filter_In in H. tauto.
      * apply filter_In in H as [_ Hp]. apply negb_true_iff in Hp.
        apply (mem_false String.eqb String.eqb_eq) in Hp. exact Hp.
      * intros [Hp Hn]. apply filter_In. split; [exact Hp|].
        apply negb_true_iff. apply (mem_false String.eqb String.eqb_eq). exact Hn.
  - unfold DataLoaderDados._filtrar_disciplinas_concluidas.
    induction ds as [|[d info] ds IH]; [reflexivity|].
    cbn [flat_map fst snd].
    destruct (Py.mem String.eqb d concluidas) eqn:E; cbn [negb app]; [exact IH|].
    cbn [flat_map fst snd]. rewrite E. cbn [negb app nome creditos tipo prerequisitos].
    rewrite filter_filter. f_equal. exact IH.
  - unfold DataLoaderDados._filtrar_disciplinas_concluidas.
    induction ds as [|[d [n c t ps]] ds IH]; [reflexivity|].
    cbn [flat_map fst snd].
    change (Py.mem String.eqb d []) with false. cbn [negb app]. rewrite IH.
    cbn [nome creditos tipo prerequisitos]. f_equal. f_equal. f_equal.
    clear. induction ps as [|p ps IHp]; [reflexivity|].
    cbn [filter]. change (Py.mem String.eqb p []) with false. cbn [negb].
    rewrite IHp. reflexivity.
Qed.

(** *** The dict of the records *)

Lemma In_set {V : Type} (d : list (string * V)) (k k' : string) (x x' : V) :
  In (k, x) (Py.set String.eqb d k' x') -> (k, x) = (k', x') \/ In (k, x) d.
Proof.
  induction d as [|[k0 x0] d IH]; cbn [Py.set]; intros H.
  - destruct H as [H|[]]. left. symmetry. exact H.
  - destruct (String.eqb k' k0) eqn:E.
    + apply String.eqb_eq in E. subst k0. destruct H as [H|H]; [left; symmetry; exact H|].
      right. right. exact H.
    + destruct H as [H|H]; [right; left; exact H|].
      destruct (IH H) as [H'|H']; [left; exact H' | right; right; exact H'].
Qed.

Lemma dict_de_registros_keys {V : Type} (ds : list (string * V)) :
  forall acc : list (string * V),
    map fst (fold_left (fun acc (d : string * V) => Py.set String.eqb acc (fst d) (snd d))
                       ds acc)
    = fold_left (Py.insert_key String.eqb) (map fst ds) (map fst acc).
Proof.
  induction ds as [|[k x] ds IH]; intros acc; [reflexivity|].
  cbn [fold_left map fst snd]. rewrite IH, set_keys. reflexivity.
Qed.

Lemma dict_de_registros_In {V : Type} (ds : list (string * V)) (k : string) (x : V) :
  forall acc : list (string * V),
    In (k, x) (fold_left (fun acc (d : string * V) => Py.set String.eqb acc (fst d) (snd d))
                         ds acc) ->
    In (k, x) acc \/ In (k, x) ds.
Proof.
  induction ds as [|[k0 x0] ds IH]; intros acc H; [left; exact H|].
  cbn [fold_left fst snd] in H. apply IH in H as [H|H]; [|right; right; exact H].
  apply In_set in H as [H|H]; [right; left; symmetry; exact H | left; exact H].
Qed.

Section LoaderFacts.

Variable strip : string -> string.
Variable int : string -> Exc Z.

Lemma processar_oferta_raise (e : PyError) (o : DataLoaderDados.Oferta) :
  DataLoaderDados.processar_oferta strip int (Raise e) o = Raise e.
Proof. reflexivity. Qed.

Lemma turmas_ofertadas_cons (o : DataLoaderDados.Oferta)
    (os : list DataLoaderDados.Oferta) (d : string) :
  turmas_ofertadas (o :: os) d
  = (if String.eqb (DataLoaderDados.disciplina_id o) d
     then [DataLoaderDados.turma_id o] else [])
    ++ turmas_ofertadas os d.
Proof.
  unfold turmas_ofertadas. cbn [filter].
  destruct (String.eqb (DataLoaderDados.disciplina_id o) d); reflexivity.
Qed.

(** The loop over the offers keeps the keys of [turmas_por_disciplina] and
    appends to the list of a key the sections of its offers. *)
Lemma processar_ofertas_loop (os : list DataLoaderDados.Oferta) :
  forall T0 H0 P0 T H P,
    fold_left (DataLoaderDados.processar_oferta strip int) os (Return (T0, H0, P0))
    = Return (T, H, P) ->
    map fst T = map fst T0
    /\ forall d, Py.get String.eqb T d
                 = option_map (fun l => l ++ turmas_ofertadas os d)
                              (Py.get String.eqb T0 d).
Proof.
  induction os as [|o os IH]; intros T0 H0 P0 T H P Hf.
  - cbn [fold_left] in Hf. injection Hf as <- <- <-. split; [reflexivity|].
    intros d. destruct (Py.get String.eqb T0 d); cbn; [rewrite app_nil_r|]; reflexivity.
  - cbn [fold_left] in Hf.
    unfold DataLoaderDados.processar_oferta at 2 in Hf. cbn [bind] in Hf.
    destruct (Py.get String.eqb T0 (DataLoaderDados.disciplina_id o)) as [ts|] eqn:Eg.
    + set (T' := Py.set String.eqb T0 (DataLoaderDados.disciplina_id o)
                   (ts ++ [DataLoaderDados.turma_id o])) in *.
      assert (HT' : map fst T' = map fst T0
                    /\ forall d, Py.get String.eqb T' d
                                 = if String.eqb d (DataLoaderDados.disciplina_id o)
                                   then Some (ts ++ [DataLoaderDados.turma_id o])
                                   else Py.get String.eqb T0 d).
      { split.
        - unfold T'. rewrite set_keys. unfold Py.insert_key.
          assert (Hin : In (DataLoaderDados.disciplina_id o) (map fst T0)).
          { apply (has_In T0). unfold Py.has. rewrite Eg. reflexivity. }
          apply (mem_In String.eqb String.eqb_eq) in Hin. rewrite Hin. reflexivity.
        - intros d. unfold T'. destruct (String.eqb_spec d (DataLoaderDados.disciplina_id o)) as [->|Hne].
          + apply (get_set_same String.eqb String.eqb_eq).
          + apply (get_set_other String.eqb String.eqb_eq). exact Hne. }
      destruct HT' as [HkT' HgT'].
      assert (Hcont : forall H' P',
                 fold_left (DataLoaderDados.processar_oferta strip int) os
                           (Return (T', H', P')) = Return (T, H, P) ->
                 map fst T = map fst T0
                 /\ forall d, Py.get String.eqb T d
                              = option_map (fun l => l ++ turmas_ofertadas (o :: os) d)
                                           (Py.get String.eqb T0 d)).
      { intros H' P' Hf'. destruct (IH _ _ _ _ _ _ Hf') as [Hk Hg].
        split; [congruence|]. intros d. rewrite Hg, HgT', turmas_ofertadas_cons.
        rewrite (String.eqb_sym (DataLoaderDados.disciplina_id o) d).
        destruct (String.eqb_spec d (DataLoaderDados.disciplina_id o)) as [->|Hne].
        - rewrite Eg. cbn [option_map]. rewrite <- app_assoc. reflexivity.
        - reflexivity. }
      destruct (DataLoaderDados.periodo o) as [p|].
      * destruct (String.eqb p ""); [exact (Hcont _ _ Hf)|].
        destruct (DataLoaderDados.periodos_da_oferta strip int p) as [ps|e].
        -- cbn [bind] in Hf. exact (Hcont _ _ Hf).
        -- cbn [bind] in Hf. rewrite raise_fold in Hf; [discriminate | reflexivity].
      * exact (Hcont _ _ Hf).
    + destruct (IH _ _ _ _ _ _ Hf) as [Hk Hg]. split; [exact Hk|].
      intros d. rewrite Hg, turmas_ofertadas_cons.
      destruct (String.eqb_spec (DataLoaderDados.disciplina_id o) d) as [<-|Hne];
        [rewrite Eg|]; reflexivity.
Qed.

(** Without [periodo] fields the loop does not fail. *)
Lemma processar_ofertas_loop_total (os : list DataLoaderDados.Oferta) :
  Forall (fun o => DataLoaderDados.periodo o = None) os ->
  forall st, exists st',
    fold_left (DataLoaderDados.processar_oferta strip int) os (Return st) = Return st'.
Proof.
  induction os as [|o os IH]; intros HF st; [eexists; reflexivity|].
  inversion HF as [|? ? Ho HF']; subst. cbn [fold_left].
  destruct st as [[T0 H0] P0].
  unfold DataLoaderDados.processar_oferta at 2. cbn [bind].
  destruct (Py.get String.eqb T0 (DataLoaderDados.disciplina_id o)); [|apply IH; exact HF'].
  rewrite Ho. apply IH. exact HF'.
Qed.

Lemma processar_ofertas_spec (ofertas : list DataLoaderDados.Oferta)
    (ds : list (string * Disciplina)) (op : DataLoaderDados.OfertasProcessadas) :
  DataLoaderDados._processar_ofertas strip int ofertas ds = Return op ->
  dict_ok (DataLoaderDados.p_disciplinas op)
  /\ map fst (DataLoaderDados.p_turmas_por_disciplina op)
     = map fst (DataLoaderDados.p_disciplinas op)
  /\ (forall d, In d (map fst (DataLoaderDados.p_disciplinas op))
                <-> In d (map fst ds)
                    /\ In d (map DataLoaderDados.disciplina_id ofertas))
  /\ (forall d info, In (d, info) (DataLoaderDados.p_disciplinas op) -> In (d, info) ds)
  /\ (forall d, In d (map fst (DataLoaderDados.p_disciplinas op)) ->
                Py.get String.eqb (DataLoaderDados.p_turmas_por_disciplina op) d
                = Some (turmas_ofertadas ofertas d)
                /\ turmas_ofertadas ofertas d <> []).
Proof.
  unfold DataLoaderDados._processar_ofertas.
  set (dict := fold_left _ ds []).
  set (com := filter _ dict).
  destruct (fold_left _ ofertas _) as [[[T H] P]|e] eqn:Ef; cbn [bind]; [|discriminate].
  intros [= <-]. cbn [DataLoaderDados.p_disciplinas DataLoaderDados.p_turmas_por_disciplina].
  assert (Hdict : NoDup (map fst dict)).
  { unfold dict. rewrite dict_de_registros_keys. apply (keys_of_NoDup String.eqb String.eqb_eq). }
  assert (Hcom : NoDup (map fst com)) by (apply NoDup_keys_filter; exact Hdict).
  assert (Hin : forall d, In d (map fst com)
                          <-> In d (map fst ds)
                              /\ In d (map DataLoaderDados.disciplina_id ofertas)).
  { intros d. unfold com. split.
    - intros Hd. apply in_map_iff in Hd as [[d' x] [<- Hd]].
      apply filter_In in Hd as [Hd Hm]. cbn [fst] in *.
      apply (mem_In String.eqb String.eqb_eq) in Hm. split; [|exact Hm].
      assert (Hk : In d' (map fst dict)) by (apply in_map_iff; exists (d', x); auto).
      unfold dict in Hk. rewrite dict_de_registros_keys in Hk.
      exact (proj1 (keys_of_In String.eqb String.eqb_eq (map fst ds) d') Hk).
    - intros [Hd Ho].
      assert (Hk : In d (map fst dict)).
      { unfold dict. rewrite dict_de_registros_keys.
        exact (proj2 (keys_of_In String.eqb String.eqb_eq (map fst ds) d) Hd). }
      apply in_map_iff in Hk as [[d' x] [E Hk]]. cbn [fst] in E. subst d'.
      apply in_map_iff. exists (d, x). split; [reflexivity|].
      apply filter_In. split; [exact Hk|]. cbn [fst].
      apply (mem_In String.eqb String.eqb_eq). exact Ho. }
  destruct (processar_ofertas_loop _ _ _ _ _ _ _ Ef) as [Hk Hg].
  assert (Hk0 : map fst (Py.comprehension String.eqb (map fst com) (fun _ => @nil string))
                = map fst com)
    by (apply (comprehension_key_list String.eqb String.eqb_eq); exact Hcom).
  split; [exact Hcom|]. split; [congruence|]. split; [exact Hin|]. split.
  - intros d info Hd. unfold com in Hd. apply filter_In in Hd as [Hd _].
    unfold dict in Hd. apply dict_de_registros_In in Hd as [[]|Hd]. exact Hd.
  - intros d Hd. rewrite Hg, (get_comprehension String.eqb String.eqb_eq).
    pose proof Hd as Hm. apply (mem_In String.eqb String.eqb_eq) in Hm. rewrite Hm.
    cbn [option_map app]. split; [reflexivity|].
    apply Hin in Hd as [_ Ho]. apply in_map_iff in Ho as [o [Eo Ho]].
    unfold turmas_ofertadas. intros Hnil. apply map_eq_nil in Hnil.
    assert (Hf : In o (filter (fun o => String.eqb (DataLoaderDados.disciplina_id o) d)
                          ofertas)).
    { apply filter_In. split; [exact Ho | apply String.eqb_eq; exact Eo]. }
    rewrite Hnil in Hf. contradiction.
Qed.

End LoaderFacts.

(** X19. When [_processar_ofertas] returns, its catalog [disciplinas] has
    distinct keys, which are the ids of the given records that occur as
    [disciplina_id] of an offer, each with one of the given records as
    value; [turmas_por_disciplina] has the same keys, and maps a course to
    the section ids of its offers, in the order of the offers, a non-empty
    list. *)
Theorem processar_ofertas_catalog_and_sections (strip : string -> string)
    (int : string -> Exc Z) (ofertas : list DataLoaderDados.Oferta)
    (ds : list (string * Disciplina)) (op : DataLoaderDados.OfertasProcessadas) :
  DataLoaderDados._processar_ofertas strip int ofertas ds = Return op ->
  dict_ok (DataLoaderDados.p_disciplinas op)
  /\ map fst (DataLoaderDados.p_turmas_por_disciplina op)
     = map fst (DataLoaderDados.p_disciplinas op)
  /\ (forall d, In d (map fst (DataLoaderDados.p_disciplinas op))
                <-> In d (map fst ds)
                    /\ In d (map DataLoaderDados.disciplina_id ofertas))
  /\ (forall d info, In (d, info) (DataLoaderDados.p_disciplinas op) -> In (d, info) ds)
  /\ (forall d, In d (map fst (DataLoaderDados.p_disciplinas op)) ->
                Py.get String.eqb (DataLoaderDados.p_turmas_por_disciplina op) d
                = Some (turmas_ofertadas ofertas d)
                /\ turmas_ofertadas ofertas d <> []).
Proof. exact (processar_ofertas_spec strip int ofertas ds op). Qed.

Lemma processar_ofertas_catalog_and_sections_witness :
  exists op,
    DataLoaderDados._processar_ofertas ExemplosCarga.strip_id ExemplosCarga.int_erro
      ExemplosCarga.ofertas_XY ExemplosCarga.disciplinas_XYZ = Return op
    /\ map fst (DataLoaderDados.p_disciplinas op) = ["X"%string; "Y"%string]
    /\ Py.get String.eqb (DataLoaderDados.p_turmas_por_disciplina op) "Y"%string
       = Some ["TY"%string].
Proof.
  eexists. split; [vm_compute; reflexivity|].
  destruct (processar_ofertas_catalog_and_sections ExemplosCarga.strip_id ExemplosCarga.int_erro
              ExemplosCarga.ofertas_XY ExemplosCarga.disciplinas_XYZ _ eq_refl)
    as [_ [_ [_ [_ H]]]].
  split; [reflexivity|].
  destruct (H "Y"%string) as [Hg _]; [simpl; auto|]. exact Hg.
Defined.

Lemma filter_all_false {A : Type} (p : A -> bool) (l : list A) :
  (forall x, In x l -> p x = false) -> filter p l = [].
Proof.
  induction l as [|x l IH]; intros H; [reflexivity|]. cbn [filter].
  rewrite (H x (or_introl eq_refl)). apply IH. intros; apply H; right; assumption.
Qed.

Section CarregarDados.

Variable lower : string -> string.
Variable strip : string -> string.
Variable int : string -> Exc Z.

Lemma categorias_In (ds : list (string * Disciplina)) (d : string) :
  In d (DataLoader.obrigatorias (DataLoader._categorizar_disciplinas lower ds)
        ++ DataLoader.restritas (DataLoader._categorizar_disciplinas lower ds)
        ++ DataLoader.condicionadas (DataLoader._categorizar_disciplinas lower ds)
        ++ DataLoader.livres (DataLoader._categorizar_disciplinas lower ds)) ->
  In d (map fst ds).
Proof.
  rewrite categorizar_disciplinas_regras.
  cbn [DataLoader.obrigatorias DataLoader.restritas DataLoader.condicionadas
       DataLoader.livres].
  unfold ids_da_categoria. rewrite !in_app_iff.
  intros H.
  assert (Hsub : forall c, In d (map fst (filter (fun r => categoria_eqb
                                                            (categoria_da_spec lower r) c) ds))
                           -> In d (map fst ds)).
  { intros c Hc. apply in_map_iff in Hc as [r [E Hr]]. apply filter_In in Hr as [Hr _].
    apply in_map_iff. exists r. auto. }
  destruct H as [H|[H|[H|H]]]; eapply Hsub; exact H.
Qed.

Lemma carregar_dados_spec (disciplinas_data : list (string * Disciplina))
    (ofertas_data : list DataLoaderDados.Oferta) (concluidas : option (list string))
    (dados : DadosDisciplinas) :
  DataLoaderDados.carregar_dados lower strip int disciplinas_data ofertas_data concluidas
  = Return dados ->
  let feitas := match concluidas with Some l => l | None => [] end in
  dict_ok (disciplinas dados)
  /\ (forall d, In d (obrigatorias_ids dados ++ restritas_ids dados
                      ++ condicionadas_ids dados ++ livres_ids dados) ->
                In d (map fst (disciplinas dados)))
  /\ (forall d info, In (d, info) (disciplinas dados) ->
        ~ In d feitas
        /\ (forall p, In p (prerequisitos info) -> ~ In p feitas)
        /\ In d (map DataLoaderDados.disciplina_id ofertas_data))
  /\ (forall d, In d (map fst (disciplinas dados)) ->
        Py.get String.eqb (turmas_por_disciplina dados) d
        = Some (turmas_ofertadas ofertas_data d)
        /\ turmas_ofertadas ofertas_data d <> []).
Proof.
  intros H feitas. unfold DataLoaderDados.carregar_dados in H. fold feitas in H.
  destruct (DataLoaderDados._processar_ofertas strip int ofertas_data _) as [op|e] eqn:Eo;
    cbn [bind] in H; [|discriminate].
  injection H as <-.
  cbn [disciplinas turmas_por_disciplina obrigatorias_ids restritas_ids
       condicionadas_ids livres_ids].
  destruct (processar_ofertas_spec strip int _ _ _ Eo) as [Hok [Hk [Hin [Hrec Ht]]]].
  split; [exact Hok|]. split; [|split; [|exact Ht]].
  - intros d Hd. rewrite !in_app_iff in Hd.
    assert (Hm : forall l, In d (filter (fun d_id => Py.mem String.eqb d_id
                                            (map fst (DataLoaderDados.p_disciplinas op))) l)
                           -> In d (map fst (DataLoaderDados.p_disciplinas op))).
    { intros l Hl. apply filter_In in Hl as [_ Hl].
      apply (mem_In String.eqb String.eqb_eq) in Hl. exact Hl. }
    destruct Hd as [Hd|[Hd|[Hd|Hd]]]; eapply Hm; exact Hd.
  - intros d info Hd. pose proof (Hrec d info Hd) as Hf.
    apply filtrar_In in Hf as [Hc [info0 [_ ->]]]. split; [exact Hc|]. split.
    + cbn [prerequisitos]. intros p Hp. apply filter_In in Hp as [_ Hp].
      apply negb_true_iff in Hp. apply (mem_false String.eqb String.eqb_eq) in Hp. exact Hp.
    + apply (Hin d). apply in_map_iff. eexists. split; [|exact Hd]. reflexivity.
Qed.

End CarregarDados.

(** X20. When [carregar_dados] returns, the catalog has distinct keys; every
    id of the four category lists is a key of the catalog; no course of the
    catalog is completed or lists a completed prerequisite, and each has an
    offer; and [turmas_por_disciplina] gives every course of the catalog the
    non-empty list of the sections of its offers. *)
Theorem carregar_dados_invariants (lower strip : string -> string) (int : string -> Exc Z)
    (disciplinas_data : list (string * Disciplina))
    (ofertas_data : list DataLoaderDados.Oferta) (concluidas : list string)
    (dados : DadosDisciplinas) :
  DataLoaderDados.carregar_dados lower strip int disciplinas_data ofertas_data
    (Some concluidas) = Return dados ->
  dict_ok (disciplinas dados)
  /\ (forall d, In d (obrigatorias_ids dados ++ restritas_ids dados
                      ++ condicionadas_ids dados ++ livres_ids dados) ->
                In d (map fst (disciplinas dados)))
  /\ (forall d info, In (d, info) (disciplinas dados) ->
        ~ In d concluidas
        /\ (forall p, In p (prerequisitos info) -> ~ In p concluidas)
        /\ In d (map DataLoaderDados.disciplina_id ofertas_data))
  /\ (forall d, In d (map fst (disciplinas dados)) ->
        Py.get String.eqb (turmas_por_disciplina dados) d
        = Some (turmas_ofertadas ofertas_data d)
        /\ turmas_ofertadas ofertas_data d <> []).
Proof.
  intros H. exact (carregar_dados_spec lower strip int _ _ (Some concluidas) dados H).
Qed.

Lemma carregar_dados_invariants_witness :
  exists dados,
    DataLoaderDados.carregar_dados Exemplos.lower_ascii ExemplosCarga.strip_id
      ExemplosCarga.int_erro ExemplosCarga.disciplinas_XYZ ExemplosCarga.ofertas_XY
      (Some ["X"%string]) = Return dados
    /\ map fst (disciplinas dados) = ["Y"%string]
    /\ (forall d info, In (d, info) (disciplinas dados) ->
          forall p, In p (prerequisitos info) -> ~ In p ["X"%string]).
Proof.
  eexists. split; [vm_compute; reflexivity|]. split; [reflexivity|].
  destruct (carregar_dados_invariants Exemplos.lower_ascii ExemplosCarga.strip_id
              ExemplosCarga.int_erro ExemplosCarga.disciplinas_XYZ ExemplosCarga.ofertas_XY
              ["X"%string] _ eq_refl) as [_ [_ [H _]]].
  intros d info Hd. apply (H d info Hd).
Defined.

(** X21. The pipeline of [app.py]: the data come from [carregar_dados] with
    the completed courses, the start term passed [validate_semestre] with
    its defaults, and the configuration has the default horizon. Then
    [_preparar_disciplinas_a_cursar] drops nothing from the category lists,
    every course to take has an assignment variable in the start term, and
    R1 logs no warning about a required course without section. *)
Theorem app_pipeline_every_course_has_variables (lower strip : string -> string)
    (int : string -> Exc Z)
    (disciplinas_data : list (string * Disciplina))
    (ofertas_data : list DataLoaderDados.Oferta) (concluidas : list string)
    (dados : DadosDisciplinas) (info : list (string * Disciplina))
    (minimos : CreditosMinimos) (cap total semestre_inicio : Z) :
  DataLoaderDados.carregar_dados lower strip int disciplinas_data ofertas_data
    (Some concluidas) = Return dados ->
  Validators.validate_semestre (Validators.ArgInt semestre_inicio) 1 None = Return true ->
  let cfg := config_da_aplicacao dados info minimos cap total concluidas semestre_inicio in
  Services.todas (Services._preparar_disciplinas_a_cursar cfg)
  = ModelsGrade.todas_disciplinas_ids dados
  /\ (forall d, In d (Services.todas (Services._preparar_disciplinas_a_cursar cfg)) ->
        exists t, In (d, semestre_inicio, t) (Services.alocacao_do_modelo cfg))
  /\ snd (Services._adicionar_restricao_obrigatorias
            (Services.obrigatorias (Services._preparar_disciplinas_a_cursar cfg))
            (Services.alocacao_do_modelo cfg)) = [].
Proof.
  intros Hl Hv cfg.
  destruct (carregar_dados_spec lower strip int _ _ (Some concluidas) dados Hl)
    as [Hok [Hcat [Hrec Ht]]].
  assert (Hs : 1 <= semestre_inicio <= 14).
  { unfold Validators.validate_semestre in Hv. cbn [Validators.int_value] in Hv.
    unfold Services.NUM_SEMESTRES_TOTAL in Hv.
    destruct ((1 <=? semestre_inicio) && (semestre_inicio <=? 14)) eqn:E;
      cbn [negb] in Hv; [|discriminate].
    apply andb_true_iff in E as [E1 E2]. apply Z.leb_le in E1, E2. lia. }
  assert (Hnc : forall d, In d (obrigatorias_ids dados ++ optativas_ids dados) ->
                          Services.concluida cfg d = false).
  { intros d Hd. apply services_concluida_false.
    assert (Hk : In d (map fst (disciplinas dados))).
    { apply Hcat. unfold optativas_ids in Hd. exact Hd. }
    apply in_map_iff in Hk as [[d' x] [E Hk]]. cbn [fst] in E. subst d'.
    destruct (Hrec d x Hk) as [Hc _]. exact Hc. }
  assert (Hfilter : forall l, (forall d, In d l -> Services.concluida cfg d = false) ->
                              filter (fun d_id => negb (Services.concluida cfg d_id)) l = l).
  { induction l as [|d l IH]; intros Hall; [reflexivity|]. cbn [filter].
    rewrite (Hall d (or_introl eq_refl)). cbn [negb]. f_equal.
    apply IH. intros; apply Hall; right; assumption. }
  assert (Htodas : Services.todas (Services._preparar_disciplinas_a_cursar cfg)
                   = obrigatorias_ids dados ++ optativas_ids dados).
  { unfold Services._preparar_disciplinas_a_cursar. cbn [Services.todas].
    change (Services.dados cfg) with dados.
    rewrite !Hfilter; [reflexivity | |];
      intros d Hd; apply Hnc; apply in_or_app; [right | left]; exact Hd. }
  assert (Hvars : forall d, In d (Services.todas (Services._preparar_disciplinas_a_cursar cfg))
                            -> exists t, In (d, semestre_inicio, t)
                                            (Services.alocacao_do_modelo cfg)).
  { intros d Hd. pose proof Hd as Hd'. rewrite Htodas in Hd'.
    assert (Hk : In d (map fst (disciplinas dados))).
    { apply Hcat. unfold optativas_ids in Hd'. exact Hd'. }
    destruct (Ht d Hk) as [Hg Hne].
    destruct (turmas_ofertadas ofertas_data d) as [|t ts] eqn:Et; [congruence|].
    exists t. apply (services_alocacao_In cfg). split; [exact Hd|]. split.
    - change (Services.dados cfg) with dados. unfold Py.get_default. rewrite Hg.
      left; reflexivity.
    - apply services_semestres_In.
      change (Services.semestre_inicio cfg) with semestre_inicio.
      change (Services.num_semestres_total cfg) with 14. lia. }
  split.
  { rewrite Htodas. unfold ModelsGrade.todas_disciplinas_ids, optativas_ids.
    rewrite <- !app_assoc. reflexivity. }
  split; [exact Hvars|].
  rewrite services_obrigatorias_spec. cbn [snd].
  apply filter_all_false. intros d Hd.
  assert (Hd' : In d (Services.todas (Services._preparar_disciplinas_a_cursar cfg))).
  { apply services_todas_split. left. exact Hd. }
  destruct (Hvars d Hd') as [t Hk].
  apply (vars_where_nonempty _ _ _ Hk). apply do_curso_true. reflexivity.
Qed.

Lemma app_pipeline_every_course_has_variables_witness :
  exists dados,
    DataLoaderDados.carregar_dados Exemplos.lower_ascii ExemplosCarga.strip_id
      ExemplosCarga.int_erro ExemplosCarga.disciplinas_XYZ ExemplosCarga.ofertas_XY
      (Some ["X"%string]) = Return dados
    /\ exists t,
         In ("Y"%string, 2, t)
            (Services.alocacao_do_modelo
               (config_da_aplicacao dados ExemplosCarga.disciplinas_XYZ (mkMinimos 4 40 8)
                  32 240 ["X"%string] 2)).
Proof.
  eexists. split; [vm_compute; reflexivity|].
  destruct (app_pipeline_every_course_has_variables Exemplos.lower_ascii
              ExemplosCarga.strip_id ExemplosCarga.int_erro ExemplosCarga.disciplinas_XYZ
              ExemplosCarga.ofertas_XY ["X"%string] _ ExemplosCarga.disciplinas_XYZ
              (mkMinimos 4 40 8) 32 240 2 eq_refl eq_refl) as [_ [H _]].
  apply H. vm_compute. auto.
Defined.


(** X22. [Disciplina.from_dict(d.to_dict())], when [str.lower] leaves the
    five type values unchanged: the instance comes back with the same id,
    name, credits and prerequisites, but with [periodo_sugerido] reset to
    [None] (the dict stores it under ["periodo_sugerido"], [from_dict] reads
    ["periodo"]) and with the type OBRIGATORIA turned into OUTRA (its value
    ["obrigatoria"] has none of the markers [_parse_tipo] looks for). *)
Theorem disciplina_dict_round_trip (lower : string -> string) (int : string -> Exc Z)
    (self : ModelsDisciplinaDict.Instancia) :
  (forall t, lower (ModelsDisciplinaDict.valor_do_tipo t)
             = ModelsDisciplinaDict.valor_do_tipo t) ->
  ModelsDisciplinaDict.from_dict lower int (ModelsDisciplinaDict.to_dict self)
  = ModelsDisciplinaDict.Ok
      (ModelsDisciplinaDict.mkInstancia
         (ModelsDisciplinaDict.i_id self) (ModelsDisciplinaDict.i_nome self)
         (ModelsDisciplinaDict.i_creditos self)
         (match ModelsDisciplinaDict.i_tipo self with
          | ModelsDisciplina.OBRIGATORIA => ModelsDisciplina.OUTRA
          | t => t
          end)
         (ModelsDisciplinaDict.i_prerequisitos self)
         ModelsDisciplinaDict.VNone).
Proof.
  intros Hl. destruct self as [id nm cr tp pre per].
  unfold ModelsDisciplinaDict.from_dict, ModelsDisciplinaDict.to_dict.
  cbn [Py.get_default Py.get String.eqb Ascii.eqb Bool.eqb
       ModelsDisciplinaDict.i_id ModelsDisciplinaDict.i_nome
       ModelsDisciplinaDict.i_creditos ModelsDisciplinaDict.i_tipo
       ModelsDisciplinaDict.i_prerequisitos ModelsDisciplinaDict.i_periodo_sugerido
       ModelsDisciplinaDict.int_do_valor].
  unfold ModelsDisciplina._parse_tipo. rewrite Hl.
  destruct tp; reflexivity.
Qed.

Lemma disciplina_dict_round_trip_witness :
  ModelsDisciplinaDict.from_dict Exemplos.lower_ascii ExemplosCarga.int_erro
    (ModelsDisciplinaDict.to_dict
       (ModelsDisciplinaDict.mkInstancia
          (ModelsDisciplinaDict.VStr "X") (ModelsDisciplinaDict.VStr "Calculo I") 4
          ModelsDisciplina.OBRIGATORIA (ModelsDisciplinaDict.VLista [])
          (ModelsDisciplinaDict.VInt 1)))
  = ModelsDisciplinaDict.Ok
      (ModelsDisciplinaDict.mkInstancia
         (ModelsDisciplinaDict.VStr "X") (ModelsDisciplinaDict.VStr "Calculo I") 4
         ModelsDisciplina.OUTRA (ModelsDisciplinaDict.VLista [])
         ModelsDisciplinaDict.VNone).
Proof.
  apply (disciplina_dict_round_trip Exemplos.lower_ascii ExemplosCarga.int_erro
           (ModelsDisciplinaDict.mkInstancia
              (ModelsDisciplinaDict.VStr "X") (ModelsDisciplinaDict.VStr "Calculo I") 4
              ModelsDisciplina.OBRIGATORIA (ModelsDisciplinaDict.VLista [])
              (ModelsDisciplinaDict.VInt 1))).
  intros t. destruct t; reflexivity.
Defined.

Lemma objetos_no_semestre_In (dados : DadosDisciplinas) (v : Var -> Z) (al : list Key)
    (s : Z) (obj : Backend.DisciplinaObj) :
  In obj (objetos_no_semestre dados v al s) ->
  In (Backend.obj_id obj, s, Backend.obj_turma obj) al
  /\ chosen v (alocacao_var (Backend.obj_id obj, s, Backend.obj_turma obj)) = true
  /\ exists disc,
       Py.get String.eqb (disciplinas dados) (Backend.obj_id obj) = Some disc
       /\ Backend.obj_nome obj = nome disc
       /\ Backend.obj_creditos obj = creditos disc.
Proof.
  unfold objetos_no_semestre. rewrite in_flat_map.
  intros [[[d s'] t] [Hk H]]. cbn [key_d key_s key_t fst snd] in H.
  destruct (chosen v (alocacao_var (d, s', t))) eqn:Ech; cbn [andb] in H; [|contradiction].
  destruct (Z.eqb s' s) eqn:Es; [|contradiction]. apply Z.eqb_eq in Es. subst s'.
  destruct (Py.get String.eqb (disciplinas dados) d) as [disc|] eqn:Eg; [|contradiction].
  destruct H as [<-|[]]. cbn [Backend.obj_id Backend.obj_turma Backend.obj_nome
                               Backend.obj_creditos].
  split; [exact Hk|]. split; [exact Ech|]. exists disc. auto.
Qed.

(** X15. Every object in [grade[s]] of the tuple the backend
    [resolver_grade] returns comes from an assignment variable with value
    above 0.5: [s] is a term of [1 .. NUM_SEMESTRES], the course is a
    not-completed course of the catalog, the section is one of the sections
    of the course, and the course is offered in terms of the parity of
    [s]. *)
Theorem backend_schedule_entries_valid (dados : DadosDisciplinas)
    (creditos_minimos : CreditosMinimos) (NUM_SEMESTRES CREDITOS_MAXIMOS : Z)
    (disciplinas_cursadas : list string) (solve : Model -> SolveResult) (m : Model)
    (g : list (Z * list Backend.DisciplinaObj)) (c st o p : Backend.PyValue)
    (s : Z) (objs : list Backend.DisciplinaObj) (obj : Backend.DisciplinaObj) :
  Backend.construir_modelo dados creditos_minimos NUM_SEMESTRES CREDITOS_MAXIMOS
    disciplinas_cursadas = Return m ->
  Backend.resolver_grade dados creditos_minimos NUM_SEMESTRES CREDITOS_MAXIMOS
    disciplinas_cursadas true solve
  = Return [Backend.PyGrade g; c; st; o; p] ->
  In (s, objs) g ->
  In obj objs ->
  1 <= s <= NUM_SEMESTRES
  /\ ~ In (Backend.obj_id obj) disciplinas_cursadas
  /\ In (Backend.obj_id obj) (map fst (disciplinas dados))
  /\ In (Backend.obj_turma obj)
        (Py.get_default String.eqb (turmas_por_disciplina dados) (Backend.obj_id obj) [])
  /\ Backend.oferta_no_semestre dados (Backend.obj_id obj) s = true
  /\ chosen (solution_value (solve m))
            (alocacao_var (Backend.obj_id obj, s, Backend.obj_turma obj)) = true.
Proof.
  intros Hm Hr Hin Hobj.
  assert (Hst : solve_status (solve m) = OPTIMAL \/ solve_status (solve m) = FEASIBLE).
  { unfold Backend.resolver_grade in Hr. cbn [negb] in Hr. rewrite Hm in Hr.
    cbn [bind] in Hr.
    destruct (solve_status (solve m)); auto; simpl in Hr; discriminate. }
  destruct (backend_resolver_decodifica dados creditos_minimos NUM_SEMESTRES
              CREDITOS_MAXIMOS disciplinas_cursadas solve m Hm Hst)
    as [g' [c' [p' [Hr' [Hkg [_ [Hs _]]]]]]].
  rewrite Hr in Hr'. injection Hr' as <- _ _ _ _.
  assert (Hrange : 1 <= s <= NUM_SEMESTRES).
  { assert (H : In s (map fst g)) by (apply in_map_iff; exists (s, objs); auto).
    rewrite Hkg in H. apply range_In in H. lia. }
  destruct (Hs s Hrange) as [Hg _].
  apply (In_get_NoDup Z.eqb Z.eqb_eq) in Hin; [|rewrite Hkg; apply range_NoDup].
  rewrite Hg in Hin. injection Hin as <-.
  apply objetos_no_semestre_In in Hobj as [Hk [Hch _]].
  apply backend_alocacao_In in Hk as ([info Hd] & Hc & Ht & _ & Hof).
  split; [exact Hrange|]. split; [exact Hc|]. split.
  - apply in_map_iff. exists (Backend.obj_id obj, info). auto.
  - split; [exact Ht|]. split; [exact Hof | exact Hch].
Qed.

Lemma backend_schedule_entries_valid_witness :
  1 <= 2 <= 2
  /\ ~ In "Y"%string []
  /\ In "Y"%string (map fst (disciplinas Exemplos.dados_XY))
  /\ In "TY"%string
        (Py.get_default String.eqb (turmas_por_disciplina Exemplos.dados_XY) "Y"%string [])
  /\ Backend.oferta_no_semestre Exemplos.dados_XY "Y" 2 = true
  /\ chosen Exemplos.sol_XY (alocacao_var ("Y"%string, 2, "TY"%string)) = true.
Proof.
  apply (backend_schedule_entries_valid Exemplos.dados_XY (mkMinimos 0 0 0) 2 32 []
           (fun _ => mkSolveResult OPTIMAL Exemplos.sol_XY 2)
           (modelo_de (Backend.construir_modelo Exemplos.dados_XY (mkMinimos 0 0 0) 2 32 []))
           [(1, [Backend.mkObj "X" "Calculo I" "TX" ["SEG-08"%string] 4 "1º Período"]);
            (2, [Backend.mkObj "Y" "Calculo II" "TY" ["SEG-08"%string] 4 "2º Período"])]
           (Backend.PyCreditos [(1, 4); (2, 4)]) (Backend.PyInt 0) (Backend.PyFloat 2)
           (Backend.PyPorTipo (Backend.mkPorTipo 0 0 0 0 8))
           2 [Backend.mkObj "Y" "Calculo II" "TY" ["SEG-08"%string] 4 "2º Período"]
           (Backend.mkObj "Y" "Calculo II" "TY" ["SEG-08"%string] 4 "2º Período")).
  - vm_compute. reflexivity.
  - vm_compute. reflexivity.
  - simpl. auto.
  - simpl. auto.
Defined.

(** X17. When the [/optimize] handler responds with success for a solution
    of the model (the catalog being a dict), every term of the schedule
    reports at most 32 credits. *)
Theorem optimize_schedule_credits_within_cap (dados : DadosDisciplinas)
    (solve : Model -> SolveResult) (taken_courses : list string) (m : Model)
    (texto : string) (final resumo : Backend.PyValue) (schedule : list Backend.SemestreData)
    (sd : Backend.SemestreData) :
  Backend.construir_modelo dados (mkMinimos 4 40 8) 10 32 taken_courses = Return m ->
  feasible (solution_value (solve m)) m ->
  dict_ok (disciplinas dados) ->
  Backend.optimize_schedule (Some dados) true solve taken_courses
  = Backend.Responds (Backend.Success texto final schedule resumo) ->
  In sd schedule ->
  Backend.sd_creditos sd <= 32.
Proof.
  intros Hm Hf Hd Hr Hin.
  destruct (optimize_schedule_resposta dados solve taken_courses m Hm) as [Hok Hko].
  assert (Hst : solve_status (solve m) = OPTIMAL \/ solve_status (solve m) = FEASIBLE).
  { destruct (solve_status (solve m)) eqn:E; auto;
      rewrite Hko in Hr; try discriminate; congruence. }
  destruct (Hok Hst) as [schedule' [resumo' [Hr' [Hsm Hsd]]]].
  rewrite Hr in Hr'. injection Hr' as _ _ <- _.
  destruct (Hsd sd Hin) as [Hobjs Hc].
  assert (Hrange : 1 <= Backend.sd_semestre sd <= 10).
  { assert (H : In (Backend.sd_semestre sd) (map Backend.sd_semestre schedule))
      by (apply in_map; exact Hin).
    rewrite Hsm in H. apply range_In in H. lia. }
  rewrite Hc, Hobjs, <- creditos_atribuidos_objetos.
  apply (backend_credit_cap dados (mkMinimos 4 40 8) 10 32 taken_courses m _ _ Hm Hf Hd);
    [lia | exact Hrange].
Qed.

Lemma optimize_schedule_credits_within_cap_witness :
  Backend.sd_creditos
    (Backend.mkSemestreData 2
       [Backend.mkObj "Y" "Calculo II" "TY" ["SEG-08"%string] 4 "2º Período"] 4) <= 32.
Proof.
  apply (optimize_schedule_credits_within_cap Exemplos2.dados_conflito
           (fun _ => mkSolveResult FEASIBLE Exemplos.sol_XY 2) []
           (modelo_de (Backend.construir_modelo Exemplos2.dados_conflito
                         (mkMinimos 4 40 8) 10 32 []))
           "FEASIBLE" (Backend.PyFloat 2) (Backend.PyPorTipo (Backend.mkPorTipo 0 0 0 0 8))
           (Backend.mkSemestreData 1
              [Backend.mkObj "X" "Calculo I" "TX" ["SEG-08"%string] 4 "1º Período"] 4
            :: Backend.mkSemestreData 2
                 [Backend.mkObj "Y" "Calculo II" "TY" ["SEG-08"%string] 4 "2º Período"] 4
            :: map (fun s => Backend.mkSemestreData s [] 0) (Py.range 3 11))).
  - vm_compute. reflexivity.
  - apply feasibleb_sound. vm_compute. reflexivity.
  - unfold dict_ok. simpl. repeat constructor; simpl; intuition discriminate.
  - vm_compute. reflexivity.
  - simpl. auto.
Defined.
